(** * NanoKVM integration: data-update coordinator, SSH metrics, host helpers

    A shallow embedding of
      - [custom_components/nanokvm/utils.py]        (module [Utils]),
      - [custom_components/nanokvm/ssh_metrics.py]  (module [SSHMetrics]),
      - [custom_components/nanokvm/coordinator.py]  (module [Coordinator]),
    together with the properties of these modules.

    Conventions of the embedding.
      - A Python [str] is a list of code points ([list ascii]; code points
        below 256).  Literals are written [lit "..."].
      - A Python [int] is a [Z]; a Python [float] is the exact rational it
        denotes ([Q]): binary rounding of IEEE doubles is not modelled,
        [round(x, n)] is decimal rounding half-to-even of the exact value.
      - A Python [dict] is a [gmap].
      - A call that may raise returns a [Result]; the coordinator's methods
        run in a state-and-exception monad over the coordinator object and a
        trace of the calls made to the two transports. *)

From Stdlib Require Import ZArith QArith Qround Qabs Lqa Ascii String List Lia.
From stdpp Require Import base decidable option list strings gmap.

Close Scope Q_scope.
Open Scope Z_scope.

(** ** Python strings *)

Module PyStr.

Definition str := list ascii.

Definition lit (s : string) : str := list_ascii_of_string s.

(** [s.startswith(p)] and [s.endswith(p)]. *)
Definition startswith (s p : str) : bool := bool_decide (p `prefix_of` s).
Definition endswith (s p : str) : bool := bool_decide (p `suffix_of` s).

(** [str.isspace] on one code point: the characters [str.split()] and
    [str.strip()] treat as white space. *)
Definition isspace (c : ascii) : bool :=
  let n := nat_of_ascii c in
  ((9 <=? n) && (n <=? 13) || (28 <=? n) && (n <=? 32)
   || (n =? 133) || (n =? 160))%nat.

(** The line boundaries of [str.splitlines()] other than the pair CR LF. *)
Definition is_linebreak (c : ascii) : bool :=
  let n := nat_of_ascii c in
  ((10 <=? n) && (n <=? 13) || (28 <=? n) && (n <=? 30) || (n =? 133))%nat.

Definition flush (cur : str) : list str :=
  match cur with [] => [] | _ => [rev cur] end.

(** [s.splitlines()]; [cur] is the current line, reversed.  A last line is
    reported only when it is not empty; CR LF is one boundary. *)
Fixpoint splitlines_go (cur : str) (s : str) : list str :=
  match s with
  | [] => flush cur
  | c :: s' =>
      if is_linebreak c then
        rev cur ::
          match s' with
          | c' :: s'' =>
              if (nat_of_ascii c =? 13)%nat && (nat_of_ascii c' =? 10)%nat
              then splitlines_go [] s''
              else splitlines_go [] s'
          | [] => []
          end
      else splitlines_go (c :: cur) s'
  end.

Definition splitlines (s : str) : list str := splitlines_go [] s.

(** [s.split()]: the maximal runs of characters that are not white space. *)
Fixpoint split_go (cur : str) (s : str) : list str :=
  match s with
  | [] => flush cur
  | c :: s' =>
      if isspace c then flush cur ++ split_go [] s'
      else split_go (c :: cur) s'
  end.

Definition split (s : str) : list str := split_go [] s.

Fixpoint lstrip_by (p : ascii -> bool) (s : str) : str :=
  match s with
  | c :: s' => if p c then lstrip_by p s' else s
  | [] => []
  end.

Definition rstrip_by (p : ascii -> bool) (s : str) : str :=
  rev (lstrip_by p (rev s)).

(** [s.strip()]. *)
Definition strip (s : str) : str := rstrip_by isspace (lstrip_by isspace s).

(** [s.rstrip(chars)]. *)
Definition rstrip (s chars : str) : str :=
  rstrip_by (fun c => bool_decide (c ∈ chars)) s.

Definition digit_of (c : ascii) : option Z :=
  let n := nat_of_ascii c in
  if ((48 <=? n) && (n <=? 57))%nat then Some (Z.of_nat n - 48) else None.

Definition is_underscore (c : ascii) : bool := (nat_of_ascii c =? 95)%nat.

(** A run of decimal digits in which single underscores may separate
    digits, as [int] and [float] read it; [prev] says that the previous
    character was a digit. *)
Fixpoint digits_go (acc : Z) (prev : bool) (s : str) : option Z :=
  match s with
  | [] => if prev then Some acc else None
  | c :: s' =>
      match digit_of c with
      | Some d => digits_go (10 * acc + d) true s'
      | None => if is_underscore c && prev then digits_go acc false s' else None
      end
  end.

Definition digits (s : str) : option Z := digits_go 0 false s.

(** An optional sign: [(negative, rest)]. *)
Definition sign (s : str) : bool * str :=
  match s with
  | c :: s' =>
      if (nat_of_ascii c =? 45)%nat then (true, s')
      else if (nat_of_ascii c =? 43)%nat then (false, s')
      else (false, s)
  | [] => (false, [])
  end.

(** [int(s)] in base ten; [None] is [ValueError]. *)
Definition int (s : str) : option Z :=
  let '(neg, body) := sign (strip s) in
  n ← digits body;
  Some (if neg then - n else n).

End PyStr.

Import PyStr.

(** ** Python numbers: [float] as exact rationals *)

Module PyNum.

Local Open Scope Q_scope.

(** Nearest integer, ties to the even one. *)
Definition round_half_even (x : Q) : Z :=
  let f := Qfloor x in
  match Qcompare (x - inject_Z f) (1 # 2) with
  | Lt => f
  | Gt => (f + 1)%Z
  | Eq => if Z.even f then f else (f + 1)%Z
  end.

Definition pow10 (n : nat) : Q := inject_Z (10 ^ Z.of_nat n).

(** [round(x, ndigits)] for [ndigits >= 0]; the result is in lowest terms. *)
Definition round (x : Q) (ndigits : nat) : Q :=
  Qred (inject_Z (round_half_even (x * pow10 ndigits)) / pow10 ndigits).

(** [n / d] on two [int]s (true division). *)
Definition truediv (n d : Z) : Q := inject_Z n / inject_Z d.

(** [x > y] on floats. *)
Definition gt (x y : Q) : bool := negb (Qle_bool x y).

Definition is_numch (c : ascii) : bool :=
  match digit_of c with Some _ => true | None => is_underscore c end.

(** The longest prefix of digits and underscores, and the rest. *)
Fixpoint span_num (s : str) : str * str :=
  match s with
  | c :: s' =>
      if is_numch c then let '(a, b) := span_num s' in (c :: a, b)
      else ([], s)
  | [] => ([], [])
  end.

Definition count_digits (s : str) : nat :=
  length (List.filter (fun c => match digit_of c with Some _ => true | None => false end) s).

Definition opt_digits (s : str) : option Z :=
  match s with [] => Some 0%Z | _ => digits s end.

Definition is_dot (c : ascii) : bool := (nat_of_ascii c =? 46)%nat.
Definition is_exp (c : ascii) : bool :=
  ((nat_of_ascii c =? 101) || (nat_of_ascii c =? 69))%nat.

(** [float(s)] on a decimal literal: sign, integer part, fraction,
    exponent; [None] is [ValueError].  The literals [inf] and [nan], which
    denote no rational, are not covered. *)
Definition float (s : str) : option Q :=
  let '(neg, body) := sign (strip s) in
  let '(ip, r1) := span_num body in
  let '(fp, r2) :=
    match r1 with
    | c :: r => if is_dot c then span_num r else ([], r1)
    | [] => ([], [])
    end in
  match ip, fp with
  | [], [] => None
  | _, _ =>
      i ← opt_digits ip;
      f ← opt_digits fp;
      e ← match r2 with
          | [] => Some 0%Z
          | c :: r =>
              if is_exp c then
                let '(eneg, eb) := sign r in
                n ← digits eb; Some (if eneg then (- n)%Z else n)
              else None
          end;
      let m := inject_Z i + inject_Z f / pow10 (count_digits fp) in
      let v := m * Qpower 10 e in
      Some (Qred (if neg then - v else v))
  end.

End PyNum.

(** ** Exceptions, results and the effect monad *)

Module Py.

(** The four messages with which the coordinator raises [UpdateFailed]. *)
Inductive UpdateFailedMsg :=
| Reauthentication_failed
| Authentication_failed
| HTTP_error_with_NanoKVM
| Error_communicating_with_NanoKVM.

(** The exception classes the code raises, catches or tells apart.  All of
    them derive from [Exception]. *)
Inductive Exception :=
| ValueError
| AttributeError
| OSError
| TimeoutError                       (* asyncio.TimeoutError *)
| ClientError                        (* aiohttp.ClientError, no response *)
| ClientResponseError (status : Z)   (* aiohttp.ClientResponseError *)
| NanoKVMError                       (* nanokvm.client.NanoKVMError, other *)
| NanoKVMApiError
| NanoKVMAuthenticationFailure
| SSHException                       (* raised by the command transport *)
| UpdateFailed (msg : UpdateFailedMsg) (cause : Exception).

Global Instance UpdateFailedMsg_eq_dec : EqDecision UpdateFailedMsg.
Proof. intros x y. unfold Decision. decide equality. Defined.

Global Instance Exception_eq_dec : EqDecision Exception.
Proof.
  intros x y. unfold Decision. decide equality.
  - apply Z.eq_dec.
  - apply UpdateFailedMsg_eq_dec.
Defined.

(** [isinstance(e, C)] for the classes named in [except] clauses. *)
Definition is_ClientResponseError (e : Exception) : bool :=
  match e with ClientResponseError _ => true | _ => false end.
Definition is_ClientError (e : Exception) : bool :=
  match e with ClientError | ClientResponseError _ => true | _ => false end.
Definition is_NanoKVMApiError (e : Exception) : bool :=
  match e with NanoKVMApiError => true | _ => false end.
Definition is_NanoKVMAuthenticationFailure (e : Exception) : bool :=
  match e with NanoKVMAuthenticationFailure => true | _ => false end.
Definition is_NanoKVMError (e : Exception) : bool :=
  match e with
  | NanoKVMError | NanoKVMApiError | NanoKVMAuthenticationFailure => true
  | _ => false
  end.
Definition is_TimeoutError (e : Exception) : bool :=
  match e with TimeoutError => true | _ => false end.

Inductive Result (A : Type) :=
| Ok (a : A)
| Raise (e : Exception).
Arguments Ok {A} a.
Arguments Raise {A} e.

Global Instance Result_ret : MRet Result := fun A a => Ok a.
Global Instance Result_bind : MBind Result := fun A B f r =>
  match r with Ok a => f a | Raise e => Raise e end.

(** [int(..)], [float(..)]: a failed conversion raises [ValueError]. *)
Definition or_ValueError {A} (o : option A) : Result A :=
  match o with Some a => Ok a | None => Raise ValueError end.

(** A computation on an object of type [S] (the [self] it mutates) that
    logs events of type [E] and returns or raises.  What was assigned and
    logged before a raise stays. *)
Definition M (S E A : Type) : Type := S -> S * list E * Result A.

Global Instance M_ret {S E} : MRet (M S E) := fun A a s => (s, [], Ok a).
Global Instance M_bind {S E} : MBind (M S E) := fun A B f m s =>
  match m s with
  | (s1, t1, Ok a) => let '(s2, t2, r) := f a s1 in (s2, t1 ++ t2, r)
  | (s1, t1, Raise e) => (s1, t1, Raise e)
  end.

Section Ops.
Context {S E : Type}.

Definition raise {A} (e : Exception) : M S E A := fun s => (s, [], Raise e).
Definition get : M S E S := fun s => (s, [], Ok s).
Definition modify (f : S -> S) : M S E unit := fun s => (f s, [], Ok tt).
Definition emit (e : E) : M S E unit := fun s => (s, [e], Ok tt).
Definition lift {A} (r : Result A) : M S E A := fun s => (s, [], r).

(** [try: body  except (classes) as err: handler err]. *)
Definition try_except {A} (body : M S E A) (classes : Exception -> bool)
    (handler : Exception -> M S E A) : M S E A := fun s =>
  match body s with
  | (s1, t1, Raise e) =>
      if classes e
      then let '(s2, t2, r) := handler e s1 in (s2, t1 ++ t2, r)
      else (s1, t1, Raise e)
  | ok => ok
  end.
End Ops.

Definition state {S E A} (o : S * list E * Result A) : S := fst (fst o).
Definition trace {S E A} (o : S * list E * Result A) : list E := snd (fst o).
Definition result {S E A} (o : S * list E * Result A) : Result A := snd o.

End Py.

Import Py.

(** ** ssh_metrics.py *)

Module SSHMetrics.

Local Open Scope Q_scope.

(** An aware UTC [datetime] with no sub-second part is its epoch second. *)
Record datetime := { epoch_second : Z }.

(** [homeassistant.util.dt.utc_from_timestamp]: defined for the years 1 to
    9999; outside, the conversion raises (a [ValueError], [OverflowError]
    or [OSError] depending on the magnitude, which no handler tells
    apart). *)
Definition utc_from_timestamp (t : Z) : Result datetime :=
  if ((-62135596800 <=? t) && (t <=? 253402300799))%Z
  then Ok {| epoch_second := t |}
  else Raise ValueError.

Record SSHMetricsSnapshot := {
  uptime : option datetime;
  cpu_temperature : option Q;
  memory_total : option Q;
  memory_used_percent : option Q;
  storage_total : option Q;
  storage_used_percent : option Q
}.

(** The command transport [nanokvm.ssh_client.NanoKVMSSH], as far as the
    collector looks into it: the held session [ssh_client], its transport
    and the liveness of the transport. *)
Record Transport := { is_active : bool }.
Record SSHClient := { get_transport : option Transport }.
Record NanoKVMSSH := {
  host : str;
  username : str;
  ssh_client : option SSHClient
}.

Record SSHMetricsCollector := {
  _password : str;
  _client : NanoKVMSSH
}.

Definition set_ssh_client (h : option SSHClient) (c : SSHMetricsCollector)
    : SSHMetricsCollector :=
  {| _password := _password c;
     _client := {| host := host (_client c); username := username (_client c);
                   ssh_client := h |} |}.

(** What the device answers on the command channel during one cycle. *)
Record SSHWorld := {
  ssh_authenticate : Result unit;
  (** the session slot the transport is left with when authentication fails *)
  ssh_failed_authenticate_leaves : option SSHClient;
  ssh_run_command : str -> Result str
}.

Inductive Event :=
| EvSSHAuthenticate (password : str)
| EvRunCommand (command : str)
| EvSSHDisconnect.

Definition live_session : SSHClient :=
  {| get_transport := Some {| is_active := true |} |}.

(** [SSHMetricsCollector.__init__]. *)
Definition new_collector (host password : str) : SSHMetricsCollector :=
  {| _password := password;
     _client := {| host := host; username := lit "root"; ssh_client := None |} |}.

Section Collector.
Variable w : SSHWorld.

Abbreviation Eff := (M SSHMetricsCollector Event).

(** The transport's own operations. *)
Definition client_authenticate (password : str) : Eff unit := fun c =>
  match ssh_authenticate w with
  | Ok _ => (set_ssh_client (Some live_session) c, [EvSSHAuthenticate password], Ok tt)
  | Raise e =>
      (set_ssh_client (ssh_failed_authenticate_leaves w) c,
       [EvSSHAuthenticate password], Raise e)
  end.

Definition client_disconnect : Eff unit := fun c =>
  (set_ssh_client None c, [EvSSHDisconnect], Ok tt).

Definition run_command (command : str) : Eff str := fun c =>
  (c, [EvRunCommand command], ssh_run_command w command).

(** [disconnect]. *)
Definition disconnect : Eff unit :=
  c ← get;
  match ssh_client (_client c) with
  | Some _ => client_disconnect
  | None => mret tt
  end.

(** The test [len(parts) == 2 and parts[0] == "btime"]. *)
Definition is_btime (parts : list str) : bool :=
  (length parts =? 2)%nat && bool_decide (parts !! 0%nat = Some (lit "btime")).

(** The loop of [_fetch_uptime] over the lines of [/proc/stat]. *)
Fixpoint uptime_loop (lines : list str) : Result (option datetime) :=
  match lines with
  | [] => Ok None
  | line :: rest =>
      let parts := split line in
      if is_btime parts
      then
        n ← or_ValueError (int (parts !!! 1%nat));
        d ← utc_from_timestamp n;
        Ok (Some d)
      else uptime_loop rest
  end.

Definition _fetch_uptime : Eff (option datetime) :=
  stat_raw ← run_command (lit "cat /proc/stat");
  lift (uptime_loop (splitlines stat_raw)).

(** The loop of [_fetch_memory] filling [mem_data]. *)
Fixpoint meminfo_loop (lines : list str) (mem_data : gmap str Z)
    : Result (gmap str Z) :=
  match lines with
  | [] => Ok mem_data
  | line :: rest =>
      let parts := split line in
      if (2 <=? length parts)%nat then
        n ← or_ValueError (int (parts !!! 1%nat));
        meminfo_loop rest (<[rstrip (parts !!! 0%nat) (lit ":") := n]> mem_data)
      else meminfo_loop rest mem_data
  end.

Definition empty_stats : gmap str (option Q) :=
  <[lit "used_percent" := None]> (<[lit "total" := None]> ∅).

Definition memory_stats (mem_data : gmap str Z) : gmap str (option Q) :=
  let stats := empty_stats in
  match mem_data !! lit "MemTotal" with
  | Some mem_total =>
      let total := PyNum.round (PyNum.truediv mem_total 1024) 2 in
      let stats := <[lit "total" := Some total]> stats in
      match mem_data !! lit "MemAvailable" with
      | Some mem_available =>
          if PyNum.gt total 0 then
            let memory_free := PyNum.round (PyNum.truediv mem_available 1024) 2 in
            let memory_used := PyNum.round (total - memory_free) 2 in
            <[lit "used_percent" :=
                Some (PyNum.round ((memory_used / total) * 100) 2)]> stats
          else stats
      | None => stats
      end
  | None => stats
  end.

Definition _fetch_memory : Eff (gmap str (option Q)) :=
  meminfo ← run_command (lit "cat /proc/meminfo");
  mem_data ← lift (meminfo_loop (splitlines meminfo) ∅);
  mret (memory_stats mem_data).

Definition cpu_temperature_of (output : str) : Result Q :=
  value ← or_ValueError (PyNum.float (strip output));
  let value := if PyNum.gt value 1000 then value / 1000 else value in
  Ok (PyNum.round value 1).

Definition _fetch_cpu_temperature : Eff Q :=
  output ← run_command (lit "cat /sys/class/thermal/thermal_zone0/temp");
  lift (cpu_temperature_of output).

Definition storage_stats (df_output : str) : Result (gmap str (option Q)) :=
  let lines := splitlines df_output in
  let stats := empty_stats in
  if (2 <=? length lines)%nat then
    let parts := split (lines !!! 1%nat) in
    if (5 <=? length parts)%nat then
      n ← or_ValueError (int (parts !!! 1%nat));
      let stats := <[lit "total" := Some (PyNum.round (PyNum.truediv n 1024) 2)]> stats in
      p ← or_ValueError (PyNum.float (rstrip (parts !!! 4%nat) (lit "%")));
      Ok (<[lit "used_percent" := Some p]> stats)
    else Ok stats
  else Ok stats.

Definition _fetch_storage : Eff (gmap str (option Q)) :=
  df_output ← run_command (lit "df -k /");
  lift (storage_stats df_output).

(** [stats.get(key)]. *)
Definition dict_get (stats : gmap str (option Q)) (key : str) : option Q :=
  match stats !! key with Some v => v | None => None end.

(** The session test at the head of [collect]. *)
Definition session_unusable (c : SSHMetricsCollector) : bool :=
  match ssh_client (_client c) with
  | None => true
  | Some h =>
      match get_transport h with
      | None => true
      | Some t => negb (is_active t)
      end
  end.

(** [collect]. *)
Definition collect : Eff SSHMetricsSnapshot :=
  c ← get;
  (if session_unusable c then client_authenticate (_password c) else mret tt);;
  uptime ← _fetch_uptime;
  cpu_temperature ← _fetch_cpu_temperature;
  memory_stats ← _fetch_memory;
  storage_stats ← _fetch_storage;
  mret {| uptime := uptime;
          cpu_temperature := Some cpu_temperature;
          memory_total := dict_get memory_stats (lit "total");
          memory_used_percent := dict_get memory_stats (lit "used_percent");
          storage_total := dict_get storage_stats (lit "total");
          storage_used_percent := dict_get storage_stats (lit "used_percent") |}.

End Collector.

End SSHMetrics.

(** ** utils.py *)

Module Utils.

(** [normalize_host]: prepend the scheme unless one of the two is there,
    then make the value end in [/api/]. *)
Definition normalize_host (host : str) : str :=
  let host :=
    if negb (startswith host (lit "http://") || startswith host (lit "https://"))
    then lit "http://" ++ host
    else host in
  let host :=
    if negb (endswith host (lit "/api/"))
    then (if endswith host (lit "/") then host ++ lit "api/" else host ++ lit "/api/")
    else host in
  host.

(** [normalize_mdns]. *)
Definition normalize_mdns (mdns : str) : str :=
  if endswith mdns (lit ".") then mdns else mdns ++ lit ".".

End Utils.

(** ** coordinator.py *)

Module Coordinator.

(** The response models of [nanokvm.models], with the attributes the
    coordinator reads; [Rsp] stands for the models it only stores. *)
Record GetInfoRsp := {
  application : str;
  image : str;
  mdns : str;
  device_key : str
}.
Record GetHidModeRsp := { mode : str }.
Record GetSSHStateRsp := { enabled : bool }.
Record GetMountedImageRsp := { file : str }.
Record GetCdRomRsp := { cdrom : Z }.
Record Rsp := { body : str }.

(** [nanokvm.client.NanoKVMClient]: the base URL it was built with and the
    token it holds once authenticated. *)
Record NanoKVMClient := {
  url : str;
  token : option str
}.

(** [config_entry]: [data[CONF_HOST]] and [entry_id]. *)
Record ConfigEntry := {
  conf_host : str;
  entry_id : str
}.

(** The attributes of the coordinator object, in the order of [__init__]. *)
Record NanoKVMDataUpdateCoordinator := {
  config_entry : ConfigEntry;
  client : NanoKVMClient;
  username : str;
  password : str;
  device_info : option GetInfoRsp;
  hardware_info : option Rsp;
  gpio_info : option Rsp;
  virtual_device_info : option Rsp;
  ssh_state : option GetSSHStateRsp;
  mdns_state : option Rsp;
  hid_mode : option GetHidModeRsp;
  oled_info : option Rsp;
  wifi_status : option Rsp;
  application_version_info : option Rsp;
  mounted_image : option GetMountedImageRsp;
  cdrom_status : option GetCdRomRsp;
  mouse_jiggler_state : option Rsp;
  hdmi_state : option Rsp;
  swap_size : option Rsp;
  tailscale_status : option Rsp;
  uptime : option SSHMetrics.datetime;
  cpu_temperature : option Q;
  memory_total : option Q;
  memory_used_percent : option Q;
  storage_total : option Q;
  storage_used_percent : option Q;
  ssh_sensors_created : bool;
  ssh_metrics_collector : option SSHMetrics.SSHMetricsCollector;
  hostname_info : option Rsp
}.

(** One assignment [self.<attribute> = v] per attribute the methods assign. *)
Definition set_client (v : NanoKVMClient) (s : NanoKVMDataUpdateCoordinator)
    : NanoKVMDataUpdateCoordinator :=
  Build_NanoKVMDataUpdateCoordinator (config_entry s) v (username s)
    (password s) (device_info s) (hardware_info s) (gpio_info s)
    (virtual_device_info s) (ssh_state s) (mdns_state s) (hid_mode s)
    (oled_info s) (wifi_status s) (application_version_info s)
    (mounted_image s) (cdrom_status s) (mouse_jiggler_state s)
    (hdmi_state s) (swap_size s) (tailscale_status s) (uptime s)
    (cpu_temperature s) (memory_total s) (memory_used_percent s)
    (storage_total s) (storage_used_percent s) (ssh_sensors_created s)
    (ssh_metrics_collector s) (hostname_info s).

Definition set_device_info (v : option GetInfoRsp) (s : NanoKVMDataUpdateCoordinator)
    : NanoKVMDataUpdateCoordinator :=
  Build_NanoKVMDataUpdateCoordinator (config_entry s) (client s)
    (username s) (password s) v (hardware_info s) (gpio_info s)
    (virtual_device_info s) (ssh_state s) (mdns_state s) (hid_mode s)
    (oled_info s) (wifi_status s) (application_version_info s)
    (mounted_image s) (cdrom_status s) (mouse_jiggler_state s)
    (hdmi_state s) (swap_size s) (tailscale_status s) (uptime s)
    (cpu_temperature s) (memory_total s) (memory_used_percent s)
    (storage_total s) (storage_used_percent s) (ssh_sensors_created s)
    (ssh_metrics_collector s) (hostname_info s).

Definition set_hardware_info (v : option Rsp) (s : NanoKVMDataUpdateCoordinator)
    : NanoKVMDataUpdateCoordinator :=
  Build_NanoKVMDataUpdateCoordinator (config_entry s) (client s)
    (username s) (password s) (device_info s) v (gpio_info s)
    (virtual_device_info s) (ssh_state s) (mdns_state s) (hid_mode s)
    (oled_info s) (wifi_status s) (application_version_info s)
    (mounted_image s) (cdrom_status s) (mouse_jiggler_state s)
    (hdmi_state s) (swap_size s) (tailscale_status s) (uptime s)
    (cpu_temperature s) (memory_total s) (memory_used_percent s)
    (storage_total s) (storage_used_percent s) (ssh_sensors_created s)
    (ssh_metrics_collector s) (hostname_info s).

Definition set_gpio_info (v : option Rsp) (s : NanoKVMDataUpdateCoordinator)
    : NanoKVMDataUpdateCoordinator :=
  Build_NanoKVMDataUpdateCoordinator (config_entry s) (client s)
    (username s) (password s) (device_info s) (hardware_info s) v
    (virtual_device_info s) (ssh_state s) (mdns_state s) (hid_mode s)
    (oled_info s) (wifi_status s) (application_version_info s)
    (mounted_image s) (cdrom_status s) (mouse_jiggler_state s)
    (hdmi_state s) (swap_size s) (tailscale_status s) (uptime s)
    (cpu_temperature s) (memory_total s) (memory_used_percent s)
    (storage_total s) (storage_used_percent s) (ssh_sensors_created s)
    (ssh_metrics_collector s) (hostname_info s).

Definition set_virtual_device_info (v : option Rsp) (s : NanoKVMDataUpdateCoordinator)
    : NanoKVMDataUpdateCoordinator :=
  Build_NanoKVMDataUpdateCoordinator (config_entry s) (client s)
    (username s) (password s) (device_info s) (hardware_info s)
    (gpio_info s) v (ssh_state s) (mdns_state s) (hid_mode s) (oled_info s)
    (wifi_status s) (application_version_info s) (mounted_image s)
    (cdrom_status s) (mouse_jiggler_state s) (hdmi_state s) (swap_size s)
    (tailscale_status s) (uptime s) (cpu_temperature s) (memory_total s)
    (memory_used_percent s) (storage_total s) (storage_used_percent s)
    (ssh_sensors_created s) (ssh_metrics_collector s) (hostname_info s).

Definition set_ssh_state (v : option GetSSHStateRsp) (s : NanoKVMDataUpdateCoordinator)
    : NanoKVMDataUpdateCoordinator :=
  Build_NanoKVMDataUpdateCoordinator (config_entry s) (client s)
    (username s) (password s) (device_info s) (hardware_info s)
    (gpio_info s) (virtual_device_info s) v (mdns_state s) (hid_mode s)
    (oled_info s) (wifi_status s) (application_version_info s)
    (mounted_image s) (cdrom_status s) (mouse_jiggler_state s)
    (hdmi_state s) (swap_size s) (tailscale_status s) (uptime s)
    (cpu_temperature s) (memory_total s) (memory_used_percent s)
    (storage_total s) (storage_used_percent s) (ssh_sensors_created s)
    (ssh_metrics_collector s) (hostname_info s).

Definition set_mdns_state (v : option Rsp) (s : NanoKVMDataUpdateCoordinator)
    : NanoKVMDataUpdateCoordinator :=
  Build_NanoKVMDataUpdateCoordinator (config_entry s) (client s)
    (username s) (password s) (device_info s) (hardware_info s)
    (gpio_info s) (virtual_device_info s) (ssh_state s) v (hid_mode s)
    (oled_info s) (wifi_status s) (application_version_info s)
    (mounted_image s) (cdrom_status s) (mouse_jiggler_state s)
    (hdmi_state s) (swap_size s) (tailscale_status s) (uptime s)
    (cpu_temperature s) (memory_total s) (memory_used_percent s)
    (storage_total s) (storage_used_percent s) (ssh_sensors_created s)
    (ssh_metrics_collector s) (hostname_info s).

Definition set_hid_mode (v : option GetHidModeRsp) (s : NanoKVMDataUpdateCoordinator)
    : NanoKVMDataUpdateCoordinator :=
  Build_NanoKVMDataUpdateCoordinator (config_entry s) (client s)
    (username s) (password s) (device_info s) (hardware_info s)
    (gpio_info s) (virtual_device_info s) (ssh_state s) (mdns_state s) v
    (oled_info s) (wifi_status s) (application_version_info s)
    (mounted_image s) (cdrom_status s) (mouse_jiggler_state s)
    (hdmi_state s) (swap_size s) (tailscale_status s) (uptime s)
    (cpu_temperature s) (memory_total s) (memory_used_percent s)
    (storage_total s) (storage_used_percent s) (ssh_sensors_created s)
    (ssh_metrics_collector s) (hostname_info s).

Definition set_oled_info (v : option Rsp) (s : NanoKVMDataUpdateCoordinator)
    : NanoKVMDataUpdateCoordinator :=
  Build_NanoKVMDataUpdateCoordinator (config_entry s) (client s)
    (username s) (password s) (device_info s) (hardware_info s)
    (gpio_info s) (virtual_device_info s) (ssh_state s) (mdns_state s)
    (hid_mode s) v (wifi_status s) (application_version_info s)
    (mounted_image s) (cdrom_status s) (mouse_jiggler_state s)
    (hdmi_state s) (swap_size s) (tailscale_status s) (uptime s)
    (cpu_temperature s) (memory_total s) (memory_used_percent s)
    (storage_total s) (storage_used_percent s) (ssh_sensors_created s)
    (ssh_metrics_collector s) (hostname_info s).

Definition set_wifi_status (v : option Rsp) (s : NanoKVMDataUpdateCoordinator)
    : NanoKVMDataUpdateCoordinator :=
  Build_NanoKVMDataUpdateCoordinator (config_entry s) (client s)
    (username s) (password s) (device_info s) (hardware_info s)
    (gpio_info s) (virtual_device_info s) (ssh_state s) (mdns_state s)
    (hid_mode s) (oled_info s) v (application_version_info s)
    (mounted_image s) (cdrom_status s) (mouse_jiggler_state s)
    (hdmi_state s) (swap_size s) (tailscale_status s) (uptime s)
    (cpu_temperature s) (memory_total s) (memory_used_percent s)
    (storage_total s) (storage_used_percent s) (ssh_sensors_created s)
    (ssh_metrics_collector s) (hostname_info s).

Definition set_application_version_info (v : option Rsp) (s : NanoKVMDataUpdateCoordinator)
    : NanoKVMDataUpdateCoordinator :=
  Build_NanoKVMDataUpdateCoordinator (config_entry s) (client s)
    (username s) (password s) (device_info s) (hardware_info s)
    (gpio_info s) (virtual_device_info s) (ssh_state s) (mdns_state s)
    (hid_mode s) (oled_info s) (wifi_status s) v (mounted_image s)
    (cdrom_status s) (mouse_jiggler_state s) (hdmi_state s) (swap_size s)
    (tailscale_status s) (uptime s) (cpu_temperature s) (memory_total s)
    (memory_used_percent s) (storage_total s) (storage_used_percent s)
    (ssh_sensors_created s) (ssh_metrics_collector s) (hostname_info s).

Definition set_mounted_image (v : option GetMountedImageRsp) (s : NanoKVMDataUpdateCoordinator)
    : NanoKVMDataUpdateCoordinator :=
  Build_NanoKVMDataUpdateCoordinator (config_entry s) (client s)
    (username s) (password s) (device_info s) (hardware_info s)
    (gpio_info s) (virtual_device_info s) (ssh_state s) (mdns_state s)
    (hid_mode s) (oled_info s) (wifi_status s) (application_version_info s)
    v (cdrom_status s) (mouse_jiggler_state s) (hdmi_state s) (swap_size s)
    (tailscale_status s) (uptime s) (cpu_temperature s) (memory_total s)
    (memory_used_percent s) (storage_total s) (storage_used_percent s)
    (ssh_sensors_created s) (ssh_metrics_collector s) (hostname_info s).

Definition set_cdrom_status (v : option GetCdRomRsp) (s : NanoKVMDataUpdateCoordinator)
    : NanoKVMDataUpdateCoordinator :=
  Build_NanoKVMDataUpdateCoordinator (config_entry s) (client s)
    (username s) (password s) (device_info s) (hardware_info s)
    (gpio_info s) (virtual_device_info s) (ssh_state s) (mdns_state s)
    (hid_mode s) (oled_info s) (wifi_status s) (application_version_info s)
    (mounted_image s) v (mouse_jiggler_state s) (hdmi_state s) (swap_size s)
    (tailscale_status s) (uptime s) (cpu_temperature s) (memory_total s)
    (memory_used_percent s) (storage_total s) (storage_used_percent s)
    (ssh_sensors_created s) (ssh_metrics_collector s) (hostname_info s).

Definition set_mouse_jiggler_state (v : option Rsp) (s : NanoKVMDataUpdateCoordinator)
    : NanoKVMDataUpdateCoordinator :=
  Build_NanoKVMDataUpdateCoordinator (config_entry s) (client s)
    (username s) (password s) (device_info s) (hardware_info s)
    (gpio_info s) (virtual_device_info s) (ssh_state s) (mdns_state s)
    (hid_mode s) (oled_info s) (wifi_status s) (application_version_info s)
    (mounted_image s) (cdrom_status s) v (hdmi_state s) (swap_size s)
    (tailscale_status s) (uptime s) (cpu_temperature s) (memory_total s)
    (memory_used_percent s) (storage_total s) (storage_used_percent s)
    (ssh_sensors_created s) (ssh_metrics_collector s) (hostname_info s).

Definition set_hdmi_state (v : option Rsp) (s : NanoKVMDataUpdateCoordinator)
    : NanoKVMDataUpdateCoordinator :=
  Build_NanoKVMDataUpdateCoordinator (config_entry s) (client s)
    (username s) (password s) (device_info s) (hardware_info s)
    (gpio_info s) (virtual_device_info s) (ssh_state s) (mdns_state s)
    (hid_mode s) (oled_info s) (wifi_status s) (application_version_info s)
    (mounted_image s) (cdrom_status s) (mouse_jiggler_state s) v
    (swap_size s) (tailscale_status s) (uptime s) (cpu_temperature s)
    (memory_total s) (memory_used_percent s) (storage_total s)
    (storage_used_percent s) (ssh_sensors_created s)
    (ssh_metrics_collector s) (hostname_info s).

Definition set_swap_size (v : option Rsp) (s : NanoKVMDataUpdateCoordinator)
    : NanoKVMDataUpdateCoordinator :=
  Build_NanoKVMDataUpdateCoordinator (config_entry s) (client s)
    (username s) (password s) (device_info s) (hardware_info s)
    (gpio_info s) (virtual_device_info s) (ssh_state s) (mdns_state s)
    (hid_mode s) (oled_info s) (wifi_status s) (application_version_info s)
    (mounted_image s) (cdrom_status s) (mouse_jiggler_state s)
    (hdmi_state s) v (tailscale_status s) (uptime s) (cpu_temperature s)
    (memory_total s) (memory_used_percent s) (storage_total s)
    (storage_used_percent s) (ssh_sensors_created s)
    (ssh_metrics_collector s) (hostname_info s).

Definition set_tailscale_status (v : option Rsp) (s : NanoKVMDataUpdateCoordinator)
    : NanoKVMDataUpdateCoordinator :=
  Build_NanoKVMDataUpdateCoordinator (config_entry s) (client s)
    (username s) (password s) (device_info s) (hardware_info s)
    (gpio_info s) (virtual_device_info s) (ssh_state s) (mdns_state s)
    (hid_mode s) (oled_info s) (wifi_status s) (application_version_info s)
    (mounted_image s) (cdrom_status s) (mouse_jiggler_state s)
    (hdmi_state s) (swap_size s) v (uptime s) (cpu_temperature s)
    (memory_total s) (memory_used_percent s) (storage_total s)
    (storage_used_percent s) (ssh_sensors_created s)
    (ssh_metrics_collector s) (hostname_info s).

Definition set_uptime (v : option SSHMetrics.datetime) (s : NanoKVMDataUpdateCoordinator)
    : NanoKVMDataUpdateCoordinator :=
  Build_NanoKVMDataUpdateCoordinator (config_entry s) (client s)
    (username s) (password s) (device_info s) (hardware_info s)
    (gpio_info s) (virtual_device_info s) (ssh_state s) (mdns_state s)
    (hid_mode s) (oled_info s) (wifi_status s) (application_version_info s)
    (mounted_image s) (cdrom_status s) (mouse_jiggler_state s)
    (hdmi_state s) (swap_size s) (tailscale_status s) v (cpu_temperature s)
    (memory_total s) (memory_used_percent s) (storage_total s)
    (storage_used_percent s) (ssh_sensors_created s)
    (ssh_metrics_collector s) (hostname_info s).

Definition set_cpu_temperature (v : option Q) (s : NanoKVMDataUpdateCoordinator)
    : NanoKVMDataUpdateCoordinator :=
  Build_NanoKVMDataUpdateCoordinator (config_entry s) (client s)
    (username s) (password s) (device_info s) (hardware_info s)
    (gpio_info s) (virtual_device_info s) (ssh_state s) (mdns_state s)
    (hid_mode s) (oled_info s) (wifi_status s) (application_version_info s)
    (mounted_image s) (cdrom_status s) (mouse_jiggler_state s)
    (hdmi_state s) (swap_size s) (tailscale_status s) (uptime s) v
    (memory_total s) (memory_used_percent s) (storage_total s)
    (storage_used_percent s) (ssh_sensors_created s)
    (ssh_metrics_collector s) (hostname_info s).

Definition set_memory_total (v : option Q) (s : NanoKVMDataUpdateCoordinator)
    : NanoKVMDataUpdateCoordinator :=
  Build_NanoKVMDataUpdateCoordinator (config_entry s) (client s)
    (username s) (password s) (device_info s) (hardware_info s)
    (gpio_info s) (virtual_device_info s) (ssh_state s) (mdns_state s)
    (hid_mode s) (oled_info s) (wifi_status s) (application_version_info s)
    (mounted_image s) (cdrom_status s) (mouse_jiggler_state s)
    (hdmi_state s) (swap_size s) (tailscale_status s) (uptime s)
    (cpu_temperature s) v (memory_used_percent s) (storage_total s)
    (storage_used_percent s) (ssh_sensors_created s)
    (ssh_metrics_collector s) (hostname_info s).

Definition set_memory_used_percent (v : option Q) (s : NanoKVMDataUpdateCoordinator)
    : NanoKVMDataUpdateCoordinator :=
  Build_NanoKVMDataUpdateCoordinator (config_entry s) (client s)
    (username s) (password s) (device_info s) (hardware_info s)
    (gpio_info s) (virtual_device_info s) (ssh_state s) (mdns_state s)
    (hid_mode s) (oled_info s) (wifi_status s) (application_version_info s)
    (mounted_image s) (cdrom_status s) (mouse_jiggler_state s)
    (hdmi_state s) (swap_size s) (tailscale_status s) (uptime s)
    (cpu_temperature s) (memory_total s) v (storage_total s)
    (storage_used_percent s) (ssh_sensors_created s)
    (ssh_metrics_collector s) (hostname_info s).

Definition set_storage_total (v : option Q) (s : NanoKVMDataUpdateCoordinator)
    : NanoKVMDataUpdateCoordinator :=
  Build_NanoKVMDataUpdateCoordinator (config_entry s) (client s)
    (username s) (password s) (device_info s) (hardware_info s)
    (gpio_info s) (virtual_device_info s) (ssh_state s) (mdns_state s)
    (hid_mode s) (oled_info s) (wifi_status s) (application_version_info s)
    (mounted_image s) (cdrom_status s) (mouse_jiggler_state s)
    (hdmi_state s) (swap_size s) (tailscale_status s) (uptime s)
    (cpu_temperature s) (memory_total s) (memory_used_percent s) v
    (storage_used_percent s) (ssh_sensors_created s)
    (ssh_metrics_collector s) (hostname_info s).

Definition set_storage_used_percent (v : option Q) (s : NanoKVMDataUpdateCoordinator)
    : NanoKVMDataUpdateCoordinator :=
  Build_NanoKVMDataUpdateCoordinator (config_entry s) (client s)
    (username s) (password s) (device_info s) (hardware_info s)
    (gpio_info s) (virtual_device_info s) (ssh_state s) (mdns_state s)
    (hid_mode s) (oled_info s) (wifi_status s) (application_version_info s)
    (mounted_image s) (cdrom_status s) (mouse_jiggler_state s)
    (hdmi_state s) (swap_size s) (tailscale_status s) (uptime s)
    (cpu_temperature s) (memory_total s) (memory_used_percent s)
    (storage_total s) v (ssh_sensors_created s) (ssh_metrics_collector s)
    (hostname_info s).

Definition set_ssh_sensors_created (v : bool) (s : NanoKVMDataUpdateCoordinator)
    : NanoKVMDataUpdateCoordinator :=
  Build_NanoKVMDataUpdateCoordinator (config_entry s) (client s)
    (username s) (password s) (device_info s) (hardware_info s)
    (gpio_info s) (virtual_device_info s) (ssh_state s) (mdns_state s)
    (hid_mode s) (oled_info s) (wifi_status s) (application_version_info s)
    (mounted_image s) (cdrom_status s) (mouse_jiggler_state s)
    (hdmi_state s) (swap_size s) (tailscale_status s) (uptime s)
    (cpu_temperature s) (memory_total s) (memory_used_percent s)
    (storage_total s) (storage_used_percent s) v (ssh_metrics_collector s)
    (hostname_info s).

Definition set_ssh_metrics_collector (v : option SSHMetrics.SSHMetricsCollector) (s : NanoKVMDataUpdateCoordinator)
    : NanoKVMDataUpdateCoordinator :=
  Build_NanoKVMDataUpdateCoordinator (config_entry s) (client s)
    (username s) (password s) (device_info s) (hardware_info s)
    (gpio_info s) (virtual_device_info s) (ssh_state s) (mdns_state s)
    (hid_mode s) (oled_info s) (wifi_status s) (application_version_info s)
    (mounted_image s) (cdrom_status s) (mouse_jiggler_state s)
    (hdmi_state s) (swap_size s) (tailscale_status s) (uptime s)
    (cpu_temperature s) (memory_total s) (memory_used_percent s)
    (storage_total s) (storage_used_percent s) (ssh_sensors_created s) v
    (hostname_info s).

Definition set_hostname_info (v : option Rsp) (s : NanoKVMDataUpdateCoordinator)
    : NanoKVMDataUpdateCoordinator :=
  Build_NanoKVMDataUpdateCoordinator (config_entry s) (client s)
    (username s) (password s) (device_info s) (hardware_info s)
    (gpio_info s) (virtual_device_info s) (ssh_state s) (mdns_state s)
    (hid_mode s) (oled_info s) (wifi_status s) (application_version_info s)
    (mounted_image s) (cdrom_status s) (mouse_jiggler_state s)
    (hdmi_state s) (swap_size s) (tailscale_status s) (uptime s)
    (cpu_temperature s) (memory_total s) (memory_used_percent s)
    (storage_total s) (storage_used_percent s) (ssh_sensors_created s)
    (ssh_metrics_collector s) v.

(** The snapshot the cycle returns: the dictionary built at the end of
    [_async_update_data], one field per key. *)
Record Snapshot := {
  d_device_info : option GetInfoRsp;
  d_hardware_info : option Rsp;
  d_gpio_info : option Rsp;
  d_virtual_device_info : option Rsp;
  d_ssh_state : option GetSSHStateRsp;
  d_mdns_state : option Rsp;
  d_hid_mode : option GetHidModeRsp;
  d_oled_info : option Rsp;
  d_wifi_status : option Rsp;
  d_application_version_info : option Rsp;
  d_mounted_image : option GetMountedImageRsp;
  d_cdrom_status : option GetCdRomRsp;
  d_mouse_jiggler_state : option Rsp;
  d_hdmi_state : option Rsp;
  d_swap_size : option Rsp;
  d_tailscale_status : option Rsp;
  d_hostname_info : option Rsp
}.

(** The typed read operations of the API client. *)
Inductive Endpoint :=
| get_info_ | get_hostname_ | get_hardware_ | get_gpio_
| get_virtual_device_status_ | get_ssh_state_ | get_mdns_state_
| get_hid_mode_ | get_oled_info_ | get_wifi_status_
| get_application_version_ | get_hdmi_state_ | get_mouse_jiggler_state_
| get_swap_size_ | get_tailscale_status_ | get_mounted_image_
| get_cdrom_status_.

Global Instance Endpoint_eq_dec : EqDecision Endpoint.
Proof. intros x y. unfold Decision. decide equality. Defined.

(** What the device answers on the API channel during one pass through
    the body of the cycle.  The channel-state answer may be absent, which
    the cycle tests for ([if self.ssh_state and ...]). *)
Record ApiWorld := {
  authenticate : Result str;
  get_info : Result GetInfoRsp;
  get_hostname : Result Rsp;
  get_hardware : Result Rsp;
  get_gpio : Result Rsp;
  get_virtual_device_status : Result Rsp;
  get_ssh_state : Result (option GetSSHStateRsp);
  get_mdns_state : Result Rsp;
  get_hid_mode : Result GetHidModeRsp;
  get_oled_info : Result Rsp;
  get_wifi_status : Result Rsp;
  get_application_version : Result Rsp;
  get_hdmi_state : Result Rsp;
  get_mouse_jiggler_state : Result Rsp;
  get_swap_size : Result Rsp;
  get_tailscale_status : Result Rsp;
  get_mounted_image : Result GetMountedImageRsp;
  get_cdrom_status : Result GetCdRomRsp
}.

(** One pass: the API answers, the answer to the authentication of a
    replacement client, and the command channel. *)
Record PassWorld := {
  api : ApiWorld;
  new_client_authenticate : Result str;
  ssh : SSHMetrics.SSHWorld
}.

(** The device over one tick: pass [0] is the cycle as first entered, pass
    [k + 1] what the device answers when the cycle is entered again from
    pass [k]. *)
Definition World := nat -> PassWorld.

(** The calls the coordinator makes, in order. *)
Inductive Event :=
| EvAuthenticate (base_url username password : str)
| EvFetch (e : Endpoint)
| EvNewClient (base_url : str)
| EvNewCollector (host : str)
| EvSSH (e : SSHMetrics.Event)
| EvDispatcherSend (entry_id : str).

Global Instance Event_eq_dec : EqDecision Event.
Proof.
  intros x y. unfold Decision.
  decide equality; try apply (list_eq_dec (A := ascii)); try apply Endpoint_eq_dec.
  decide equality; apply (list_eq_dec (A := ascii)).
Defined.

Abbreviation Eff := (M NanoKVMDataUpdateCoordinator Event).

(** [not value] for an optional string: [None] and the empty string. *)
Definition falsy (v : option str) : bool :=
  match v with None | Some [] => true | Some _ => false end.

(** [s.replace(old, new)]; [skip] counts the characters of a match that
    are still to be dropped. *)
Fixpoint replace_go (old new : str) (skip : nat) (s : str) : str :=
  match s with
  | [] => []
  | c :: s' =>
      match skip with
      | S k => replace_go old new k s'
      | O =>
          if startswith s old
          then new ++ replace_go old new (length old - 1) s'
          else c :: replace_go old new O s'
      end
  end.

Definition replace (s old new : str) : str :=
  match old with
  | [] => new ++ concat (List.map (fun c => c :: new) s)
  | _ => replace_go old new O s
  end.

(** [await self.client.<endpoint>()]. *)
Definition fetch {A} (e : Endpoint) (r : Result A) : Eff A :=
  fun s => (s, [EvFetch e], r).

(** [await self.client.authenticate(self.username, self.password)]: on
    success the client holds the token. *)
Definition client_authenticate (r : Result str) : Eff unit := fun s =>
  (match r with
   | Ok t => set_client {| url := url (client s); token := Some t |} s
   | Raise _ => s
   end,
   [EvAuthenticate (url (client s)) (username s) (password s)],
   match r with Ok _ => Ok tt | Raise e => Raise e end).

(** Run a method of the collector held in [self.ssh_metrics_collector]. *)
Definition on_collector {A}
    (m : M SSHMetrics.SSHMetricsCollector SSHMetrics.Event A) : Eff A := fun s =>
  match ssh_metrics_collector s with
  | Some c =>
      let '(c', t, r) := m c in
      (set_ssh_metrics_collector (Some c') s, List.map EvSSH t, r)
  | None => (s, [], Raise AttributeError)
  end.

(** [_async_update_ssh_data]. *)
Definition _async_update_ssh_data (w : SSHMetrics.SSHWorld) : Eff unit :=
  s ← get;
  match ssh_metrics_collector s with
  | Some _ => mret tt
  | None =>
      let host :=
        replace (replace (replace (conf_host (config_entry s)) (lit "/api/") (lit ""))
                   (lit "http://") (lit "")) (lit "https://") (lit "") in
      emit (EvNewCollector host);;
      modify (set_ssh_metrics_collector
                (Some (SSHMetrics.new_collector host (password s))))
  end;;
  try_except
    (metrics ← on_collector (SSHMetrics.collect w);
     modify (set_uptime (SSHMetrics.uptime metrics));;
     modify (set_cpu_temperature (SSHMetrics.cpu_temperature metrics));;
     modify (set_memory_total (SSHMetrics.memory_total metrics));;
     modify (set_memory_used_percent (SSHMetrics.memory_used_percent metrics));;
     modify (set_storage_total (SSHMetrics.storage_total metrics));;
     modify (set_storage_used_percent (SSHMetrics.storage_used_percent metrics));;
     s ← get;
     if negb (ssh_sensors_created s) then
       emit (EvDispatcherSend (entry_id (config_entry s)));;
       modify (set_ssh_sensors_created true)
     else mret tt)
    (fun _ => true)
    (fun err =>
       modify (set_uptime None);;
       modify (set_cpu_temperature None);;
       s ← get;
       match ssh_metrics_collector s with
       | Some _ => on_collector SSHMetrics.disconnect
       | None => mret tt
       end).

(** [_async_clear_ssh_data]. *)
Definition _async_clear_ssh_data : Eff unit :=
  modify (set_uptime None);;
  modify (set_cpu_temperature None);;
  modify (set_memory_total None);;
  modify (set_memory_used_percent None);;
  modify (set_storage_total None);;
  modify (set_storage_used_percent None);;
  modify (set_ssh_sensors_created false);;
  s ← get;
  match ssh_metrics_collector s with
  | Some _ =>
      on_collector SSHMetrics.disconnect;;
      modify (set_ssh_metrics_collector None)
  | None => mret tt
  end.

(** The two optional endpoints: [except (NanoKVMApiError,
    aiohttp.ClientResponseError)]. *)
Definition optional_classes (e : Exception) : bool :=
  is_NanoKVMApiError e || is_ClientResponseError e.

(** The dictionary returned at the end of the body. *)
Definition snapshot_of (s : NanoKVMDataUpdateCoordinator) : Snapshot :=
  {| d_device_info := device_info s;
     d_hardware_info := hardware_info s;
     d_gpio_info := gpio_info s;
     d_virtual_device_info := virtual_device_info s;
     d_ssh_state := ssh_state s;
     d_mdns_state := mdns_state s;
     d_hid_mode := hid_mode s;
     d_oled_info := oled_info s;
     d_wifi_status := wifi_status s;
     d_application_version_info := application_version_info s;
     d_mounted_image := mounted_image s;
     d_cdrom_status := cdrom_status s;
     d_mouse_jiggler_state := mouse_jiggler_state s;
     d_hdmi_state := hdmi_state s;
     d_swap_size := swap_size s;
     d_tailscale_status := tailscale_status s;
     d_hostname_info := hostname_info s |}.

(** The API part of the body of [_async_update_data]: authentication when
    no token is held, the required and the optional fetches, and the
    capability branch. *)
Definition fetch_api_data (w : ApiWorld) : Eff unit :=
  s ← get;
  (if falsy (token (client s)) then client_authenticate (authenticate w)
   else mret tt);;
  v ← fetch get_info_ (get_info w); modify (set_device_info (Some v));;
  v ← fetch get_hostname_ (get_hostname w); modify (set_hostname_info (Some v));;
  v ← fetch get_hardware_ (get_hardware w); modify (set_hardware_info (Some v));;
  v ← fetch get_gpio_ (get_gpio w); modify (set_gpio_info (Some v));;
  v ← fetch get_virtual_device_status_ (get_virtual_device_status w);
  modify (set_virtual_device_info (Some v));;
  v ← fetch get_ssh_state_ (get_ssh_state w); modify (set_ssh_state v);;
  v ← fetch get_mdns_state_ (get_mdns_state w); modify (set_mdns_state (Some v));;
  v ← fetch get_hid_mode_ (get_hid_mode w); modify (set_hid_mode (Some v));;
  v ← fetch get_oled_info_ (get_oled_info w); modify (set_oled_info (Some v));;
  v ← fetch get_wifi_status_ (get_wifi_status w); modify (set_wifi_status (Some v));;
  try_except
    (v ← fetch get_application_version_ (get_application_version w);
     modify (set_application_version_info (Some v)))
    optional_classes
    (fun _ => modify (set_application_version_info None));;
  v ← fetch get_hdmi_state_ (get_hdmi_state w); modify (set_hdmi_state (Some v));;
  v ← fetch get_mouse_jiggler_state_ (get_mouse_jiggler_state w);
  modify (set_mouse_jiggler_state (Some v));;
  v ← fetch get_swap_size_ (get_swap_size w); modify (set_swap_size (Some v));;
  try_except
    (v ← fetch get_tailscale_status_ (get_tailscale_status w);
     modify (set_tailscale_status (Some v)))
    optional_classes
    (fun _ => modify (set_tailscale_status None));;
  s ← get;
  match hid_mode s with
  | None => raise AttributeError
  | Some h =>
      if bool_decide (mode h = lit "normal") then
        try_except
          (v ← fetch get_mounted_image_ (get_mounted_image w);
           modify (set_mounted_image (Some v)))
          is_NanoKVMApiError
          (fun _ => modify (set_mounted_image (Some {| file := lit "" |})));;
        try_except
          (v ← fetch get_cdrom_status_ (get_cdrom_status w);
           modify (set_cdrom_status (Some v)))
          is_NanoKVMApiError
          (fun _ => modify (set_cdrom_status (Some {| cdrom := 0 |})))
      else
        modify (set_mounted_image (Some {| file := lit "" |}));;
        modify (set_cdrom_status (Some {| cdrom := 0 |}))
  end.

(** [if self.ssh_state and self.ssh_state.enabled]. *)
Definition ssh_enabled (s : NanoKVMDataUpdateCoordinator) : bool :=
  match ssh_state s with
  | Some st => enabled st
  | None => false
  end.

(** The body of the [try] of [_async_update_data]. *)
Definition cycle_body (w : PassWorld) : Eff Snapshot :=
  fetch_api_data (api w);;
  s ← get;
  (if ssh_enabled s then _async_update_ssh_data (ssh w)
   else _async_clear_ssh_data);;
  s ← get;
  mret (snapshot_of s).

(** The test that guards the reauthentication in the first handler. *)
Definition reauth_eligible (err : Exception) (s : NanoKVMDataUpdateCoordinator)
    : bool :=
  (is_NanoKVMAuthenticationFailure err
   || match err with ClientResponseError status => (status =? 401)%Z | _ => false end)
  && match device_info s with
     | Some info => negb (bool_decide (application info = lit "Unknown"))
     | None => false
     end.

Definition Outcome : Type :=
  NanoKVMDataUpdateCoordinator * list Event * Result Snapshot.

(** [_async_update_data].  The method calls itself from its first handler;
    [fuel] bounds the depth of these calls and [None] means that the bound
    was reached.  [k] is the pass the device is at.

    The body runs under [async with self.client, async_timeout.timeout(10)].
    A call that times out is a call whose answer is [Raise TimeoutError];
    the entering and leaving of the client's context, and the cancellation
    by which the time limit interrupts a call in progress, are not part of
    the model. *)
Fixpoint _async_update_data (fuel : nat) (w : World) (k : nat)
    (self : NanoKVMDataUpdateCoordinator) : option Outcome :=
  match fuel with
  | O => None
  | S fuel' =>
      match cycle_body (w k) self with
      | (s1, t1, Ok data) => Some (s1, t1, Ok data)
      | (s1, t1, Raise err) =>
          if is_ClientResponseError err || is_NanoKVMAuthenticationFailure err then
            if reauth_eligible err s1 then
              let host := Utils.normalize_host (conf_host (config_entry s1)) in
              let t2 := t1 ++ [EvNewClient host; EvAuthenticate host (username s1) (password s1)] in
              let failed auth_err :=
                UpdateFailed
                  (if is_ClientResponseError err then Reauthentication_failed
                   else Authentication_failed) auth_err in
              match new_client_authenticate (w k) with
              | Raise auth_err => Some (s1, t2, Raise (failed auth_err))
              | Ok t =>
                  let s2 := set_client {| url := host; token := Some t |} s1 in
                  match _async_update_data fuel' w (S k) s2 with
                  | None => None
                  | Some (s3, t3, Ok data) => Some (s3, t2 ++ t3, Ok data)
                  | Some (s3, t3, Raise auth_err) =>
                      Some (s3, t2 ++ t3, Raise (failed auth_err))
                  end
              end
            else
              Some (s1, t1,
                    Raise (UpdateFailed
                             (if is_ClientResponseError err then HTTP_error_with_NanoKVM
                              else Authentication_failed) err))
          else if is_NanoKVMError err || is_ClientError err || is_TimeoutError err then
            Some (s1, t1, Raise (UpdateFailed Error_communicating_with_NanoKVM err))
          else Some (s1, t1, Raise err)
      end
  end.

End Coordinator.


(** ** Definitions used in the statements *)

(** Either of the two schemes [normalize_host] accepts. *)
Definition has_scheme (s : str) : bool :=
  startswith s (lit "http://") || startswith s (lit "https://").

Module Spec.

Import SSHMetrics.
Local Open Scope Q_scope.



(** A world whose command channel answers the four commands of the
    collector with the given texts. *)
Definition answers (stat meminfo temp df : Result str) : SSHWorld :=
  {| ssh_authenticate := Ok tt;
     ssh_failed_authenticate_leaves := None;
     ssh_run_command := fun command =>
       if bool_decide (command = lit "cat /proc/stat") then stat
       else if bool_decide (command = lit "cat /proc/meminfo") then meminfo
       else if bool_decide (command = lit "cat /sys/class/thermal/thermal_zone0/temp")
       then temp
       else if bool_decide (command = lit "df -k /") then df
       else Raise SSHException |}.

Definition nl : str := ["010"%char].

(** A line of exactly two tokens of which the first is [btime]. *)
Definition btime_line (line : str) : Prop :=
  exists token, split line = [lit "btime"; token].

(** The collector holds a usable session or can establish one. *)
Definition session_ready (w : SSHWorld) (c : SSHMetricsCollector) : Prop :=
  session_unusable c = false \/ ssh_authenticate w = Ok tt.

(** The snapshot [collect] builds from the four results. *)
Definition snapshot_from (u : option datetime) (t : Q)
    (m s : gmap str (option Q)) : SSHMetricsSnapshot :=
  {| uptime := u;
     cpu_temperature := Some t;
     memory_total := dict_get m (lit "total");
     memory_used_percent := dict_get m (lit "used_percent");
     storage_total := dict_get s (lit "total");
     storage_used_percent := dict_get s (lit "used_percent") |}.

(** The four reads in sequence, the first failure ending them. *)
Definition four_reads (w : SSHWorld) (c : SSHMetricsCollector)
    : Result SSHMetricsSnapshot :=
  u ← result (_fetch_uptime w c);
  t ← result (_fetch_cpu_temperature w c);
  m ← result (_fetch_memory w c);
  s ← result (_fetch_storage w c);
  Ok (snapshot_from u t m s).

(** The entry of a returned dictionary under [key]. *)
Definition entry (key : str) (r : Result (gmap str (option Q)))
    : Result (option Q) :=
  stats ← r; Ok (dict_get stats key).

(** The outputs of the specification's examples. *)
Definition stat_example : str := lit "btime 1700000000" ++ nl.
Definition meminfo_example : str :=
  lit "MemTotal: 1024000 kB" ++ nl ++ lit "MemAvailable: 512000 kB" ++ nl.
Definition df_example : str :=
  lit "Filesystem 1K-blocks Used Available Use% Mounted on" ++ nl
  ++ lit "/dev/root 1048576 524288 524288 50% /" ++ nl.

Definition example_answers : SSHWorld :=
  answers (Ok stat_example) (Ok meminfo_example) (Ok (lit "45123" ++ nl))
    (Ok df_example).

(** The same device with a thermal-zone reading that is no number. *)
Definition unreadable_temperature : SSHWorld :=
  answers (Ok stat_example) (Ok meminfo_example) (Ok (lit "n/a" ++ nl))
    (Ok df_example).

Definition collector0 : SSHMetricsCollector :=
  new_collector (lit "kvm.local") (lit "secret").

End Spec.

Module CycleSpec.

Import Coordinator.

(** The attributes the API part of the cycle has no business with: the
    six secondary metrics, the sensor flag, the collector, and the
    configuration the collector is built from. *)
Definition ssh_side (s : NanoKVMDataUpdateCoordinator) :=
  (uptime s, cpu_temperature s, memory_total s, memory_used_percent s,
   storage_total s, storage_used_percent s, ssh_sensors_created s,
   ssh_metrics_collector s, config_entry s, password s, username s).



(** The value an optional field takes: the answer, or the default when
    the fetch raised. *)
Definition or_default {A} (r : Result A) (default : A) : A :=
  match r with Ok v => v | Raise _ => default end.

Definition or_null {A} (r : Result A) : option A :=
  match r with Ok v => Some v | Raise _ => None end.

(** The collector [_async_update_ssh_data] works with: the one held, or a
    new one for the configured host. *)
Definition collector_in_use (s : NanoKVMDataUpdateCoordinator)
    : SSHMetrics.SSHMetricsCollector :=
  match ssh_metrics_collector s with
  | Some c => c
  | None =>
      SSHMetrics.new_collector
        (replace (replace (replace (conf_host (config_entry s)) (lit "/api/") (lit ""))
                    (lit "http://") (lit "")) (lit "https://") (lit ""))
        (password s)
  end.

(** The coordinator holds a collector with a session. *)
Definition holds_session (s : NanoKVMDataUpdateCoordinator) : bool :=
  match ssh_metrics_collector s with
  | Some c =>
      match SSHMetrics.ssh_client (SSHMetrics._client c) with
      | Some _ => true
      | None => false
      end
  | None => false
  end.

(** The coordinator with the six secondary metrics null, the sensor flag
    down and no collector. *)
Definition cleared (s : NanoKVMDataUpdateCoordinator) : NanoKVMDataUpdateCoordinator :=
  set_ssh_metrics_collector None
    (set_ssh_sensors_created false
       (set_storage_used_percent None
          (set_storage_total None
             (set_memory_used_percent None
                (set_memory_total None
                   (set_cpu_temperature None (set_uptime None s))))))).

(** The number of replacement clients built, that is, of retries. *)
Definition count_new_clients (t : list Event) : nat :=
  length (List.filter (fun e => match e with EvNewClient _ => true | _ => false end) t).

(** The number of passes through the body, counted by its first fetch. *)
Definition count_passes (t : list Event) : nat :=
  length (List.filter (fun e => match e with EvFetch get_info_ => true | _ => false end) t).

(** A device that answers every call. *)
Definition rsp0 : Rsp := {| body := lit "{}" |}.

Definition info0 : GetInfoRsp :=
  {| application := lit "2.2.9"; image := lit "v1.4.1";
     mdns := lit "kvm-1a2b.local"; device_key := lit "1a2b" |}.

Definition api_ok : ApiWorld :=
  {| authenticate := Ok (lit "token-0");
     get_info := Ok info0;
     get_hostname := Ok rsp0;
     get_hardware := Ok rsp0;
     get_gpio := Ok rsp0;
     get_virtual_device_status := Ok rsp0;
     get_ssh_state := Ok (Some {| enabled := true |});
     get_mdns_state := Ok rsp0;
     get_hid_mode := Ok {| mode := lit "normal" |};
     get_oled_info := Ok rsp0;
     get_wifi_status := Ok rsp0;
     get_application_version := Ok rsp0;
     get_hdmi_state := Ok rsp0;
     get_mouse_jiggler_state := Ok rsp0;
     get_swap_size := Ok rsp0;
     get_tailscale_status := Ok rsp0;
     get_mounted_image := Ok {| file := lit "/data/debian.iso" |};
     get_cdrom_status := Ok {| cdrom := 1 |} |}.

(** The same device with one answer replaced. *)
Definition with_get_info (r : Result GetInfoRsp) (w : ApiWorld) : ApiWorld :=
  {| authenticate := authenticate w;
     get_info := r;
     get_hostname := get_hostname w;
     get_hardware := get_hardware w;
     get_gpio := get_gpio w;
     get_virtual_device_status := get_virtual_device_status w;
     get_ssh_state := get_ssh_state w;
     get_mdns_state := get_mdns_state w;
     get_hid_mode := get_hid_mode w;
     get_oled_info := get_oled_info w;
     get_wifi_status := get_wifi_status w;
     get_application_version := get_application_version w;
     get_hdmi_state := get_hdmi_state w;
     get_mouse_jiggler_state := get_mouse_jiggler_state w;
     get_swap_size := get_swap_size w;
     get_tailscale_status := get_tailscale_status w;
     get_mounted_image := get_mounted_image w;
     get_cdrom_status := get_cdrom_status w |}.


Definition with_get_ssh_state (r : Result (option GetSSHStateRsp)) (w : ApiWorld)
    : ApiWorld :=
  {| authenticate := authenticate w;
     get_info := get_info w;
     get_hostname := get_hostname w;
     get_hardware := get_hardware w;
     get_gpio := get_gpio w;
     get_virtual_device_status := get_virtual_device_status w;
     get_ssh_state := r;
     get_mdns_state := get_mdns_state w;
     get_hid_mode := get_hid_mode w;
     get_oled_info := get_oled_info w;
     get_wifi_status := get_wifi_status w;
     get_application_version := get_application_version w;
     get_hdmi_state := get_hdmi_state w;
     get_mouse_jiggler_state := get_mouse_jiggler_state w;
     get_swap_size := get_swap_size w;
     get_tailscale_status := get_tailscale_status w;
     get_mounted_image := get_mounted_image w;
     get_cdrom_status := get_cdrom_status w |}.


(** No event of the trace is a fetch on the API channel. *)
Definition no_fetch (t : list Event) : Prop :=
  Forall (fun ev => match ev with EvFetch _ => False | _ => True end) t.

Definition pass (w : ApiWorld) (s : SSHMetrics.SSHWorld) : PassWorld :=
  {| api := w; new_client_authenticate := Ok (lit "token-1"); ssh := s |}.

(** A coordinator after a first successful refresh: it holds a token, the
    identity of the device is known, and the metrics of the last cycle are
    in place. *)
Definition coordinator0 : NanoKVMDataUpdateCoordinator :=
  {| config_entry := {| conf_host := lit "kvm.local"; entry_id := lit "entry-1" |};
     client := {| url := lit "http://kvm.local/api/"; token := Some (lit "token-0") |};
     username := lit "admin";
     password := lit "admin";
     device_info := Some info0;
     hardware_info := Some rsp0;
     gpio_info := Some rsp0;
     virtual_device_info := Some rsp0;
     ssh_state := Some {| enabled := true |};
     mdns_state := Some rsp0;
     hid_mode := Some {| mode := lit "normal" |};
     oled_info := Some rsp0;
     wifi_status := Some rsp0;
     application_version_info := Some rsp0;
     mounted_image := Some {| file := lit "/data/debian.iso" |};
     cdrom_status := Some {| cdrom := 1 |};
     mouse_jiggler_state := Some rsp0;
     hdmi_state := Some rsp0;
     swap_size := Some rsp0;
     tailscale_status := Some rsp0;
     uptime := Some {| SSHMetrics.epoch_second := 1700000000 |};
     cpu_temperature := Some (451 # 10)%Q;
     memory_total := Some (1000 # 1)%Q;
     memory_used_percent := Some (50 # 1)%Q;
     storage_total := Some (1024 # 1)%Q;
     storage_used_percent := Some (50 # 1)%Q;
     ssh_sensors_created := true;
     ssh_metrics_collector :=
       Some (SSHMetrics.set_ssh_client (Some SSHMetrics.live_session)
               (SSHMetrics.new_collector (lit "kvm.local") (lit "admin")));
     hostname_info := Some rsp0 |}.

(** A device that rejects the token on the first fetch of the first two
    passes, accepts the credentials of every replacement client, and
    answers every call from the third pass on. *)
Definition unauthorized_twice : World := fun k =>
  if (k <? 2)%nat
  then pass (with_get_info (Raise (ClientResponseError 401)) api_ok) Spec.example_answers
  else pass api_ok Spec.example_answers.

(** The same device when the retry is answered: the token is rejected on
    the first pass only. *)
Definition unauthorized_once : World := fun k =>
  if (k <? 1)%nat
  then pass (with_get_info (Raise (ClientResponseError 401)) api_ok) Spec.example_answers
  else pass api_ok Spec.example_answers.

(** The device of one tick that gives the same answers at every pass. *)
Definition steady (w : PassWorld) : World := fun _ => w.

(** The device reports the command channel disabled, and the metrics read
    nothing. *)
Definition channel_disabled : PassWorld :=
  pass (with_get_ssh_state (Ok (Some {| enabled := false |})) api_ok)
    Spec.example_answers.

(** The device reports the command channel enabled, and its thermal-zone
    reading is no number. *)
Definition channel_unreadable : PassWorld :=
  pass api_ok Spec.unreadable_temperature.

(** A device that rejects the token on the first fetch of the first [n]
    passes and answers every call from then on. *)
Definition unauthorized_for (n : nat) : World := fun k =>
  if (k <? n)%nat
  then pass (with_get_info (Raise (ClientResponseError 401)) api_ok) Spec.example_answers
  else pass api_ok Spec.example_answers.

(** The coordinator after a reauthentication: the replacement client,
    built for the normalized host and holding the new token, is in place. *)
Definition retried : NanoKVMDataUpdateCoordinator :=
  set_client {| url := Utils.normalize_host (conf_host (config_entry coordinator0));
                token := Some (lit "token-1") |} coordinator0.




End CycleSpec.

From Stdlib Require DecimalString DecimalZ.

(** ** utils.py, continued *)

Module UtilsHost.

(** [extract_ssh_host]: the API suffix and the two schemes are removed
    wherever they occur. *)
Definition extract_ssh_host (host : str) : str :=
  Coordinator.replace
    (Coordinator.replace
       (Coordinator.replace host (lit "/api/") (lit ""))
       (lit "http://") (lit ""))
    (lit "https://") (lit "").

End UtilsHost.

(** ** Definitions used in the proofs about strings *)

Module StrAux.

(** [p] is a prefix of [s], by comparison of the characters. *)
Fixpoint prefixb (p s : str) : bool :=
  match p, s with
  | [], _ => true
  | _ :: _, [] => false
  | d :: p', c :: s' => Ascii.eqb d c && prefixb p' s'
  end.

(** A plain host name: not empty and without a slash. *)
Definition plain_host (h : str) : Prop :=
  h <> [] /\ "/"%char ∉ h.

End StrAux.

(** ** Definitions used in the statements about the collector *)

Module CollectSpec.

Import SSHMetrics.

(** The four commands of a collection, in the order in which they run. *)
Definition commands : list str :=
  [lit "cat /proc/stat";
   lit "cat /sys/class/thermal/thermal_zone0/temp";
   lit "cat /proc/meminfo";
   lit "df -k /"].

Definition returned {A} (r : Result A) : bool :=
  match r with Ok _ => true | Raise _ => false end.

(** The authentication with which a collection begins when the session
    that is held cannot be used. *)
Definition opening (c : SSHMetricsCollector) : list Event :=
  if session_unusable c then [EvSSHAuthenticate (_password c)] else [].

(** The four reads of [collect], after its opening. *)
Definition reads (w : SSHWorld) : M SSHMetricsCollector Event SSHMetricsSnapshot :=
  uptime ← _fetch_uptime w;
  cpu_temperature ← _fetch_cpu_temperature w;
  memory_stats ← _fetch_memory w;
  storage_stats ← _fetch_storage w;
  mret (Spec.snapshot_from uptime cpu_temperature memory_stats storage_stats).

(** The snapshot of the specification's example outputs. *)
Definition example_snapshot : SSHMetricsSnapshot :=
  {| uptime := Some {| epoch_second := 1700000000 |};
     cpu_temperature := Some (451 # 10)%Q;
     memory_total := Some (1000 # 1)%Q;
     memory_used_percent := Some (50 # 1)%Q;
     storage_total := Some (1024 # 1)%Q;
     storage_used_percent := Some (50 # 1)%Q |}.

(** A command channel that refuses the password. *)
Definition refuses_login : SSHWorld :=
  {| ssh_authenticate := Raise SSHException;
     ssh_failed_authenticate_leaves := None;
     ssh_run_command := fun _ => Raise SSHException |}.

End CollectSpec.

(** ** Definitions used in the statements about the parsers *)

Module ParseSpec.

Import SSHMetrics.

(** A line of two or more tokens whose second token is no integer. *)
Definition malformed (line : str) : bool :=
  (2 <=? length (split line))%nat
  && match int (split line !!! 1%nat) with Some _ => false | None => true end.

(** A memory report with a line, other than the two that are used, whose
    value is no number. *)
Definition meminfo_with_text_value : str :=
  lit "MemTotal: 1024000 kB" ++ Spec.nl
  ++ lit "MemAvailable: 512000 kB" ++ Spec.nl
  ++ lit "HugePages_Total: n/a" ++ Spec.nl.

(** A boot-time line whose value is no integer, followed by one that is
    well formed. *)
Definition stat_with_text_value : str :=
  lit "btime soon" ++ Spec.nl ++ lit "btime 1700000000" ++ Spec.nl.


End ParseSpec.

(** ** Invariants of computations *)

Module Inv.

(** Run from an object that satisfies [I], the computation leaves an
    object that satisfies [I] and makes only calls that satisfy [T],
    whether it returns or raises. *)
Definition maintains {S E A} (I : S -> Prop) (T : E -> Prop) (m : M S E A) : Prop :=
  forall s, I s -> I (state (m s)) /\ Forall T (trace (m s)).

End Inv.

(** ** Definitions used in the statements about the refresh *)

Module RefreshSpec.

Import Coordinator.


Definition no_authenticate (ev : Event) : Prop :=
  match ev with EvAuthenticate _ _ _ => False | _ => True end.

Definition any_call (ev : Event) : Prop := True.

(** The configuration and the credentials of the coordinator. *)
Definition configuration (s : NanoKVMDataUpdateCoordinator) :=
  (config_entry s, username s, password s).

(** The six metrics of the command channel, on the coordinator and in
    a snapshot of the collector. *)
Definition metrics (s : NanoKVMDataUpdateCoordinator) :=
  (uptime s, cpu_temperature s, memory_total s, memory_used_percent s,
   storage_total s, storage_used_percent s).

Definition metrics_of (m : SSHMetrics.SSHMetricsSnapshot) :=
  (SSHMetrics.uptime m, SSHMetrics.cpu_temperature m, SSHMetrics.memory_total m,
   SSHMetrics.memory_used_percent m, SSHMetrics.storage_total m,
   SSHMetrics.storage_used_percent m).

(** The construction of a collector, when none is held. *)
Definition building (s : NanoKVMDataUpdateCoordinator) : list Event :=
  match ssh_metrics_collector s with
  | Some _ => []
  | None => [EvNewCollector (UtilsHost.extract_ssh_host (conf_host (config_entry s)))]
  end.

(** The signal that makes the platform create the sensors, when the flag
    is down. *)
Definition signal (s : NanoKVMDataUpdateCoordinator) : list Event :=
  if ssh_sensors_created s then []
  else [EvDispatcherSend (entry_id (config_entry s))].

Definition no_signal (ev : Event) : Prop :=
  match ev with EvDispatcherSend _ => False | _ => True end.

(** The fetches every pass makes, in their order, and the two it makes
    when the device is in the normal mode. *)
Definition fetched_always : list Endpoint :=
  [get_info_; get_hostname_; get_hardware_; get_gpio_;
   get_virtual_device_status_; get_ssh_state_; get_mdns_state_;
   get_hid_mode_; get_oled_info_; get_wifi_status_;
   get_application_version_; get_hdmi_state_; get_mouse_jiggler_state_;
   get_swap_size_; get_tailscale_status_].

Definition fetched_in_normal_mode : list Endpoint :=
  [get_mounted_image_; get_cdrom_status_].

(** The authentication with which a pass begins when no token is held. *)
Definition authentication (s : NanoKVMDataUpdateCoordinator) : list Event :=
  if falsy (token (client s))
  then [EvAuthenticate (url (client s)) (username s) (password s)]
  else [].

(** The identity of the device is not known: no object with the
    attribute, or the placeholder of the setup. *)
Definition unknown_identity (s : NanoKVMDataUpdateCoordinator) : Prop :=
  match device_info s with
  | Some info => application info = lit "Unknown"
  | None => True
  end.

(** The message of the first handler. *)
Definition first_handler_message (err : Exception) (retried : bool) : UpdateFailedMsg :=
  if is_ClientResponseError err
  then (if retried then Reauthentication_failed else HTTP_error_with_NanoKVM)
  else Authentication_failed.

(** The coordinator the setup builds when the device did not answer. *)
Definition placeholder : NanoKVMDataUpdateCoordinator :=
  set_device_info
    (Some {| application := lit "Unknown"; image := lit "Unknown";
             mdns := lit "kvm.local"; device_key := lit "kvm.local_admin" |})
    CycleSpec.coordinator0.

(** A device that rejects the token and the credentials. *)
Definition locked_out : PassWorld :=
  {| api := CycleSpec.with_get_info (Raise (ClientResponseError 401)) CycleSpec.api_ok;
     new_client_authenticate := Raise NanoKVMAuthenticationFailure;
     ssh := Spec.example_answers |}.

End RefreshSpec.

(** ** services.py *)

Module Services.

(** The names of the seven services; their values are constants of the
    integration. *)
Record ServiceNames := {
  SERVICE_PUSH_BUTTON : str;
  SERVICE_PASTE_TEXT : str;
  SERVICE_REBOOT : str;
  SERVICE_RESET_HDMI : str;
  SERVICE_RESET_HID : str;
  SERVICE_WAKE_ON_LAN : str;
  SERVICE_SET_MOUSE_JIGGLER : str
}.

Definition _SERVICE_NAMES (n : ServiceNames) : list str :=
  [SERVICE_PUSH_BUTTON n; SERVICE_PASTE_TEXT n; SERVICE_REBOOT n;
   SERVICE_RESET_HDMI n; SERVICE_RESET_HID n; SERVICE_WAKE_ON_LAN n;
   SERVICE_SET_MOUSE_JIGGLER n].

Inductive Handler :=
| handle_push_button | handle_paste_text | handle_reboot | handle_reset_hdmi
| handle_reset_hid | handle_wake_on_lan | handle_set_mouse_jiggler.

(** The services registered under the domain of the integration, and
    under other names of that registry: [hass.services]. *)
Definition ServiceRegistry := gmap str Handler.

Definition has_service (hass : ServiceRegistry) (name : str) : bool :=
  bool_decide (is_Some (hass !! name)).

(** [async_register_services]. *)
Definition async_register_services (n : ServiceNames) (hass : ServiceRegistry)
    : ServiceRegistry :=
  if has_service hass (SERVICE_PUSH_BUTTON n) then hass
  else
    let hass := <[SERVICE_PUSH_BUTTON n := handle_push_button]> hass in
    let hass := <[SERVICE_PASTE_TEXT n := handle_paste_text]> hass in
    let hass := <[SERVICE_REBOOT n := handle_reboot]> hass in
    let hass := <[SERVICE_RESET_HDMI n := handle_reset_hdmi]> hass in
    let hass := <[SERVICE_RESET_HID n := handle_reset_hid]> hass in
    let hass := <[SERVICE_WAKE_ON_LAN n := handle_wake_on_lan]> hass in
    <[SERVICE_SET_MOUSE_JIGGLER n := handle_set_mouse_jiggler]> hass.

(** [async_unregister_services]. *)
Definition async_unregister_services (n : ServiceNames) (hass : ServiceRegistry)
    : ServiceRegistry :=
  foldl (fun hass service_name =>
           if has_service hass service_name then delete service_name hass
           else hass)
        hass (_SERVICE_NAMES n).

(** What [_execute_service] does: the handler is awaited on a client, or
    an error is logged for it. *)
Inductive Event :=
| EvHandler (client : Coordinator.NanoKVMClient)
| EvLogError (service_name : str) (client : Coordinator.NanoKVMClient)
    (err : Exception).

(** [for x in xs: body x]. *)
Fixpoint for_each {S E A} (body : A -> M S E unit) (xs : list A) : M S E unit :=
  match xs with
  | [] => mret tt
  | x :: xs' => body x;; for_each body xs'
  end.

(** [_execute_service]: [hass.data.get(DOMAIN, {}).values()] is the list
    of the coordinators, and [handler client] the outcome of the handler
    awaited on the client. *)
Definition _execute_service (service_name : str)
    (handler : Coordinator.NanoKVMClient -> Result unit)
    (coordinators : list Coordinator.NanoKVMDataUpdateCoordinator)
    : M unit Event unit :=
  for_each
    (fun coordinator =>
       let client := Coordinator.client coordinator in
       try_except
         (emit (EvHandler client);; lift (handler client))
         (fun _ => true)
         (fun err => emit (EvLogError service_name client err)))
    coordinators.

(** The calls [_execute_service] is to make on one client. *)
Definition calls_on (service_name : str)
    (handler : Coordinator.NanoKVMClient -> Result unit)
    (coordinator : Coordinator.NanoKVMDataUpdateCoordinator) : list Event :=
  EvHandler (Coordinator.client coordinator)
  :: match handler (Coordinator.client coordinator) with
     | Ok _ => []
     | Raise err => [EvLogError service_name (Coordinator.client coordinator) err]
     end.

End Services.

(** ** select.py: the tables of options *)

Module Select.

(** A [dict] with its insertion order. *)
Fixpoint dict_set {K V} `{EqDecision K} (k : K) (v : V) (d : list (K * V))
    : list (K * V) :=
  match d with
  | [] => [(k, v)]
  | (k', v') :: d' =>
      if decide (k' = k) then (k', v) :: d' else (k', v') :: dict_set k v d'
  end.

(** [d.get(k, default)]. *)
Fixpoint dict_get {K V} `{EqDecision K} (d : list (K * V)) (k : K) (default : V) : V :=
  match d with
  | [] => default
  | (k', v') :: d' => if decide (k' = k) then v' else dict_get d' k default
  end.

(** A display [{k: v, ...}] and a comprehension [{v: k for k, v in d.items()}]. *)
Definition dict_of {K V} `{EqDecision K} (items : list (K * V)) : list (K * V) :=
  foldl (fun d '(k, v) => dict_set k v d) [] items.

Definition inverted {K V} `{EqDecision V} (d : list (K * V)) : list (V * K) :=
  foldl (fun d' '(k, v) => dict_set v k d') [] d.

Definition keys {K V} (d : list (K * V)) : list K := List.map fst d.
Definition values {K V} (d : list (K * V)) : list V := List.map snd d.

(** [str(n)] and [f"{n}"] for an [int]. *)
Definition str_of_int (n : Z) : str :=
  list_ascii_of_string (DecimalString.NilZero.string_of_int (Z.to_int n)).

Definition OLED_SLEEP_OPTIONS : list (str * Z) :=
  dict_of
    [(lit "never", 0); (lit "15_sec", 15); (lit "30_sec", 30);
     (lit "1_min", 60); (lit "3_min", 180); (lit "5_min", 300);
     (lit "10_min", 600); (lit "30_min", 1800); (lit "1_hour", 3600)].
Definition OLED_SLEEP_VALUES : list (Z * str) := inverted OLED_SLEEP_OPTIONS.

Definition SWAP_OPTIONS : list (str * Z) :=
  dict_of
    [(lit "disable", 0); (lit "64_mb", 64); (lit "128_mb", 128);
     (lit "256_mb", 256); (lit "512_mb", 512)].
Definition SWAP_VALUES : list (Z * str) := inverted SWAP_OPTIONS.

(** The attributes of the coordinator the two pairs of functions read:
    [oled_info], with its [sleep] time, and [swap_size]. *)
Record GetOledInfoRsp := { exist : bool; sleep : Z }.

(** [_oled_sleep_value], on the [oled_info] of the coordinator. *)
Definition _oled_sleep_value (oled_info : GetOledInfoRsp) : str :=
  dict_get OLED_SLEEP_VALUES (sleep oled_info)
    (str_of_int (sleep oled_info) ++ lit "_sec").

(** [_set_oled_sleep]: the time passed to [client.set_oled_sleep]. *)
Definition _set_oled_sleep (option : str) : Z :=
  dict_get OLED_SLEEP_OPTIONS option 0.

(** [_swap_size_value], on the [swap_size] of the coordinator. *)
Definition _swap_size_value (swap_size : option Z) : str :=
  match swap_size with
  | None => lit "disable"
  | Some n => dict_get SWAP_VALUES n (str_of_int n ++ lit "_mb")
  end.

(** [_set_swap_size]: the size passed to [client.set_swap_size]. *)
Definition _set_swap_size (option : str) : Z :=
  dict_get SWAP_OPTIONS option 0.

End Select.

Example normalize_host_bare :
  Utils.normalize_host (lit "kvm.local") = lit "http://kvm.local/api/".
Proof. vm_compute. reflexivity. Qed.

Example splitlines_ex :
  splitlines (lit "a b" ++ ["010"%char] ++ ["013"%char; "010"%char] ++ lit "c" ++ ["010"%char])
  = [lit "a b"; lit ""; lit "c"].
Proof. vm_compute. reflexivity. Qed.

Example split_ex : split (lit "  /dev/root   10 20% ") = [lit "/dev/root"; lit "10"; lit "20%"].
Proof. vm_compute. reflexivity. Qed.

Example int_ex : int (lit " -1_000 ") = Some (-1000) /\ int (lit "1__0") = None /\ int (lit "") = None.
Proof. vm_compute. auto. Qed.

Example float_ex :
  PyNum.float (lit "45123") = Some (45123 # 1)%Q /\
  PyNum.float (lit " -1_0.25e1 ") = Some (-205 # 2)%Q /\
  PyNum.float (lit ".5") = Some (1 # 2)%Q /\
  PyNum.float (lit "5.") = Some (5 # 1)%Q /\
  PyNum.float (lit ".") = None /\
  PyNum.float (lit "e5") = None /\
  PyNum.float (lit "50") = Some (50 # 1)%Q /\
  PyNum.float (lit "abc") = None.
Proof. vm_compute. repeat split. Qed.

Example round_ex :
  PyNum.round (45123 # 1000) 1 = (451 # 10)%Q /\
  PyNum.round (5 # 2) 0 = (2 # 1)%Q /\
  PyNum.round (7 # 2) 0 = (4 # 1)%Q /\
  PyNum.round (-5 # 2) 0 = (-2 # 1)%Q /\
  PyNum.round (1000 # 1) 2 = (1000 # 1)%Q.
Proof. vm_compute. repeat split. Qed.

(** * Properties *)

(** ** utils.py: [normalize_host] *)

Section NormalizeHost.

Lemma startswith_app (s p t : str) :
  startswith s p = true -> startswith (s ++ t) p = true.
Proof.
  unfold startswith. rewrite !bool_decide_eq_true.
  apply prefix_app_r.
Qed.

Lemma has_scheme_app (s t : str) :
  has_scheme s = true -> has_scheme (s ++ t) = true.
Proof.
  unfold has_scheme. rewrite !orb_true_iff.
  intros [H | H]; [left | right]; now apply startswith_app.
Qed.

Lemma endswith_app (s p : str) : endswith (s ++ p) p = true.
Proof.
  unfold endswith. rewrite bool_decide_eq_true.
  apply suffix_app_r. reflexivity.
Qed.

Lemma endswith_slash_api (s : str) :
  endswith s (lit "/") = true -> endswith (s ++ lit "api/") (lit "/api/") = true.
Proof.
  unfold endswith. rewrite !bool_decide_eq_true.
  intros [k ->]. exists k. now rewrite <- app_assoc.
Qed.

Lemma normalize_host_has_scheme (h : str) :
  has_scheme (Utils.normalize_host h) = true.
Proof.
  unfold Utils.normalize_host. fold (has_scheme h).
  set (h1 := if negb (has_scheme h) then _ else _).
  assert (H1 : has_scheme h1 = true).
  { subst h1. destruct (has_scheme h) eqn:E; cbn [negb]; [exact E|].
    unfold has_scheme. apply orb_true_iff. left.
    unfold startswith. rewrite bool_decide_eq_true.
    now exists h. }
  destruct (endswith h1 (lit "/api/")); cbn [negb]; [exact H1|].
  destruct (endswith h1 (lit "/")); now apply has_scheme_app.
Qed.

Lemma normalize_host_endswith_api (h : str) :
  endswith (Utils.normalize_host h) (lit "/api/") = true.
Proof.
  unfold Utils.normalize_host. fold (has_scheme h).
  set (h1 := if negb (has_scheme h) then _ else _).
  destruct (endswith h1 (lit "/api/")) eqn:E; cbn [negb]; [exact E|].
  destruct (endswith h1 (lit "/")) eqn:E'.
  - now apply endswith_slash_api.
  - apply endswith_app.
Qed.

Lemma normalize_host_fixed (s : str) :
  has_scheme s = true -> endswith s (lit "/api/") = true ->
  Utils.normalize_host s = s.
Proof.
  intros Hs He. unfold Utils.normalize_host. fold (has_scheme s).
  rewrite Hs. cbn [negb]. now rewrite He.
Qed.

End NormalizeHost.

(** C10. [normalize_host] is idempotent, and its result starts with
    [http://] or [https://] and ends with [/api/]. *)
Theorem normalize_host_idempotent (h : str) :
  Utils.normalize_host (Utils.normalize_host h) = Utils.normalize_host h
  /\ (startswith (Utils.normalize_host h) (lit "http://") = true
      \/ startswith (Utils.normalize_host h) (lit "https://") = true)
  /\ endswith (Utils.normalize_host h) (lit "/api/") = true.
Proof.
  pose proof (normalize_host_has_scheme h) as Hs.
  pose proof (normalize_host_endswith_api h) as He.
  split; [now apply normalize_host_fixed|].
  split; [|exact He].
  unfold has_scheme in Hs. now apply orb_true_iff in Hs.
Qed.

(** ** Decimal rounding *)

Section Rounding.

Local Open Scope Q_scope.




Lemma pow10_pos (n : nat) : 0 < PyNum.pow10 n.
Proof.
  unfold PyNum.pow10. change 0 with (inject_Z 0). rewrite <- Zlt_Qlt.
  apply Z.pow_pos_nonneg; lia.
Qed.

Lemma pow10_nonzero (n : nat) : ~ PyNum.pow10 n == 0.
Proof. intros H. pose proof (pow10_pos n) as P. rewrite H in P. now apply Qlt_irrefl in P. Qed.

(** The value of [round x n] is the rounded multiple of the unit. *)
Lemma round_value (x : Q) (n : nat) :
  PyNum.round x n
  == inject_Z (PyNum.round_half_even (x * PyNum.pow10 n)) / PyNum.pow10 n.
Proof. unfold PyNum.round. apply Qred_correct. Qed.



(** The rounded integer is within one half of the argument. *)
Lemma round_half_even_near (x : Q) :
  Qabs (inject_Z (PyNum.round_half_even x) - x) <= 1 # 2.
Proof.
  unfold PyNum.round_half_even.
  pose proof (Qfloor_le x) as Hl. pose proof (Qlt_floor x) as Hu.
  set (f := Qfloor x) in *.
  rewrite inject_Z_plus in Hu. change (inject_Z 1) with 1 in Hu.
  assert (Hdown : x - inject_Z f <= 1 # 2 -> Qabs (inject_Z f - x) <= 1 # 2).
  { intros H. apply Qabs_Qle_condition. split; lra. }
  assert (Hup : 1 # 2 <= x - inject_Z f ->
                Qabs (inject_Z (f + 1) - x) <= 1 # 2).
  { intros H. rewrite inject_Z_plus. change (inject_Z 1) with 1.
    apply Qabs_Qle_condition. split; lra. }
  destruct (Qcompare (x - inject_Z f) (1 # 2)) eqn:C.
  - apply Qeq_alt in C.
    destruct (Z.even f); [apply Hdown | apply Hup]; rewrite C; apply Qle_refl.
  - apply Qlt_alt in C. apply Hdown. now apply Qlt_le_weak.
  - apply Qgt_alt in C. apply Hup. now apply Qlt_le_weak.
Qed.

(** [round x n] is a multiple of [10^-n] within half a unit of [x]. *)
Lemma round_near (x : Q) (n : nat) :
  Qabs (PyNum.round x n - x) <= (1 # 2) / PyNum.pow10 n.
Proof.
  pose proof (pow10_pos n) as P.
  pose proof (round_half_even_near (x * PyNum.pow10 n)) as H.
  rewrite round_value.
  set (k := inject_Z (PyNum.round_half_even (x * PyNum.pow10 n))) in *.
  assert (E : k / PyNum.pow10 n - x == (k - x * PyNum.pow10 n) / PyNum.pow10 n).
  { field. apply pow10_nonzero. }
  rewrite E. unfold Qdiv. rewrite Qabs_Qmult.
  rewrite (Qabs_pos (/ PyNum.pow10 n)).
  - apply Qmult_le_compat_r; [exact H|].
    apply Qlt_le_weak. now apply Qinv_lt_0_compat.
  - apply Qlt_le_weak. now apply Qinv_lt_0_compat.
Qed.

End Rounding.

(** ** ssh_metrics.py: the four parsers *)

Section Parsers.

Import SSHMetrics.
Local Open Scope Q_scope.





End Parsers.





(** C8. On a header line and a data line of at least five fields the
    storage parser returns the second field, in MB to two decimals, as the
    total and the fifth field without its trailing percent signs as the
    used percentage; with fewer than two lines, or fewer than five fields
    on the data line, both are null. *)
Theorem fetch_storage_spec (w : SSHMetrics.SSHWorld)
    (c : SSHMetrics.SSHMetricsCollector) (df_output : str) :
  SSHMetrics.ssh_run_command w (lit "df -k /") = Ok df_output ->
  (forall (header data : str) (rest : list str) (kB : Z) (percent : Q),
      splitlines df_output = header :: data :: rest ->
      (5 <= length (split data))%nat ->
      int (split data !!! 1%nat) = Some kB ->
      PyNum.float (rstrip (split data !!! 4%nat) (lit "%")) = Some percent ->
      exists stats,
        result (SSHMetrics._fetch_storage w c) = Ok stats
        /\ SSHMetrics.dict_get stats (lit "total")
           = Some (PyNum.round (PyNum.truediv kB 1024) 2)
        /\ SSHMetrics.dict_get stats (lit "used_percent") = Some percent)
  /\ ((length (splitlines df_output) < 2)%nat
      \/ (length (split (splitlines df_output !!! 1%nat)) < 5)%nat ->
      exists stats,
        result (SSHMetrics._fetch_storage w c) = Ok stats
        /\ SSHMetrics.dict_get stats (lit "total") = None
        /\ SSHMetrics.dict_get stats (lit "used_percent") = None).
Proof.
  intros Hrun.
  assert (E : result (SSHMetrics._fetch_storage w c)
              = SSHMetrics.storage_stats df_output).
  { unfold SSHMetrics._fetch_storage, SSHMetrics.run_command, lift.
    unfold mbind, M_bind, result. rewrite Hrun. reflexivity. }
  rewrite E. unfold SSHMetrics.storage_stats. split.
  - intros header data rest kB percent Hlines Hlen Hint Hfloat.
    rewrite Hlines.
    change (length (header :: data :: rest)) with (S (S (length rest))).
    change ((header :: data :: rest) !!! 1%nat) with data.
    change (2 <=? S (S (length rest)))%nat with true. cbv iota.
    apply Nat.leb_le in Hlen. rewrite Hlen. rewrite Hint, Hfloat.
    eexists. split; [reflexivity|]. unfold SSHMetrics.dict_get. split.
    + rewrite lookup_insert_ne by discriminate. now rewrite lookup_insert_eq.
    + now rewrite lookup_insert_eq.
  - intros Hshort.
    destruct (2 <=? length (splitlines df_output))%nat eqn:L2.
    + destruct Hshort as [H | H].
      * apply Nat.leb_le in L2. lia.
      * apply Nat.leb_gt in H. rewrite H.
        eexists. split; [reflexivity|]. split; reflexivity.
    + eexists. split; [reflexivity|]. split; reflexivity.
Qed.

(** The input of the specification's storage example. *)
Lemma fetch_storage_spec_witness :
  exists stats,
    result (SSHMetrics._fetch_storage
              (Spec.answers (Raise SSHException) (Raise SSHException)
                 (Raise SSHException)
                 (Ok (lit "Filesystem 1K-blocks Used Available Use% Mounted on"
                      ++ Spec.nl ++ lit "/dev/root 1048576 524288 524288 50% /"
                      ++ Spec.nl)))
              Spec.collector0) = Ok stats
    /\ SSHMetrics.dict_get stats (lit "total") = Some (1024 # 1)%Q
    /\ SSHMetrics.dict_get stats (lit "used_percent") = Some (50 # 1)%Q.
Proof.
  destruct (fetch_storage_spec
              (Spec.answers (Raise SSHException) (Raise SSHException)
                 (Raise SSHException)
                 (Ok (lit "Filesystem 1K-blocks Used Available Use% Mounted on"
                      ++ Spec.nl ++ lit "/dev/root 1048576 524288 524288 50% /"
                      ++ Spec.nl)))
              Spec.collector0
              (lit "Filesystem 1K-blocks Used Available Use% Mounted on"
               ++ Spec.nl ++ lit "/dev/root 1048576 524288 524288 50% /"
               ++ Spec.nl)) as [Hfull _].
  - reflexivity.
  - destruct (Hfull (lit "Filesystem 1K-blocks Used Available Use% Mounted on")
                (lit "/dev/root 1048576 524288 524288 50% /") []
                1048576%Z (50 # 1)%Q) as (stats & Hres & Htotal & Hused).
    + vm_compute. reflexivity.
    + vm_compute. lia.
    + vm_compute. reflexivity.
    + vm_compute. reflexivity.
    + exists stats. split; [exact Hres|]. split; [|exact Hused].
      rewrite Htotal. vm_compute. reflexivity.
Defined.

Section Uptime.

Import SSHMetrics.

Lemma is_btime_true (line : str) :
  is_btime (split line) = true <-> Spec.btime_line line.
Proof.
  unfold is_btime, Spec.btime_line. rewrite andb_true_iff, Nat.eqb_eq, bool_decide_eq_true.
  split.
  - intros [Hlen Hfirst].
    destruct (split line) as [|p0 [|p1 [|p2 parts]]]; try discriminate.
    cbn in Hfirst. injection Hfirst as ->. now exists p1.
  - intros [token ->]. split; reflexivity.
Qed.

Lemma is_btime_false (line : str) :
  is_btime (split line) = false <-> ~ Spec.btime_line line.
Proof.
  rewrite <- is_btime_true. destruct (is_btime (split line)); split; easy.
Qed.

Lemma uptime_loop_skip (before rest : list str) :
  Forall (fun line => ~ Spec.btime_line line) before ->
  uptime_loop (before ++ rest) = uptime_loop rest.
Proof.
  induction 1 as [|line before Hline _ IH]; [reflexivity|].
  cbn [app uptime_loop]. apply is_btime_false in Hline. now rewrite Hline.
Qed.

Lemma fetch_uptime_result (w : SSHWorld) (c : SSHMetricsCollector) (stat_raw : str) :
  ssh_run_command w (lit "cat /proc/stat") = Ok stat_raw ->
  result (_fetch_uptime w c) = uptime_loop (splitlines stat_raw).
Proof.
  intros Hrun. unfold _fetch_uptime, run_command, lift.
  unfold mbind, M_bind, result. now rewrite Hrun.
Qed.

End Uptime.

(** C9, as the code has it.  The uptime parser takes the first line that
    consists of exactly two tokens of which the first is [btime]; when the
    second token is an integer within the range of [datetime], the result
    is the UTC timestamp of that epoch second.  When no line has this
    form, the result is null. *)
Theorem fetch_uptime_spec (w : SSHMetrics.SSHWorld)
    (c : SSHMetrics.SSHMetricsCollector) (stat_raw : str) :
  SSHMetrics.ssh_run_command w (lit "cat /proc/stat") = Ok stat_raw ->
  (forall (before after : list str) (line token : str) (n : Z),
      splitlines stat_raw = before ++ line :: after ->
      Forall (fun l => ~ Spec.btime_line l) before ->
      split line = [lit "btime"; token] ->
      int token = Some n ->
      -62135596800 <= n <= 253402300799 ->
      result (SSHMetrics._fetch_uptime w c)
      = Ok (Some {| SSHMetrics.epoch_second := n |}))
  /\ (Forall (fun l => ~ Spec.btime_line l) (splitlines stat_raw) ->
      result (SSHMetrics._fetch_uptime w c) = Ok None).
Proof.
  intros Hrun. rewrite (fetch_uptime_result w c stat_raw Hrun). split.
  - intros before after line token n Hlines Hbefore Hline Hint Hrange.
    rewrite Hlines, uptime_loop_skip by exact Hbefore.
    cbn [SSHMetrics.uptime_loop]. rewrite Hline.
    change (SSHMetrics.is_btime [lit "btime"; token]) with true. cbv iota.
    change ([lit "btime"; token] !!! 1%nat) with token. rewrite Hint.
    unfold or_ValueError, SSHMetrics.utc_from_timestamp.
    cbn [mbind Result_bind].
    destruct Hrange as [Hlo Hhi].
    apply Z.leb_le in Hlo, Hhi. now rewrite Hlo, Hhi.
  - intros Hnone. rewrite <- (app_nil_r (splitlines stat_raw)).
    now rewrite uptime_loop_skip.
Qed.

(** The input of the specification's uptime example, after a first line
    that is no [btime] line. *)
Lemma fetch_uptime_spec_witness :
  result (SSHMetrics._fetch_uptime
            (Spec.answers
               (Ok (lit "cpu 10 20 30" ++ Spec.nl ++ lit "btime 1700000000" ++ Spec.nl))
               (Raise SSHException) (Raise SSHException) (Raise SSHException))
            Spec.collector0)
  = Ok (Some {| SSHMetrics.epoch_second := 1700000000 |}).
Proof.
  destruct (fetch_uptime_spec
              (Spec.answers
                 (Ok (lit "cpu 10 20 30" ++ Spec.nl ++ lit "btime 1700000000" ++ Spec.nl))
                 (Raise SSHException) (Raise SSHException) (Raise SSHException))
              Spec.collector0
              (lit "cpu 10 20 30" ++ Spec.nl ++ lit "btime 1700000000" ++ Spec.nl))
    as [Hfound _].
  - reflexivity.
  - apply (Hfound [lit "cpu 10 20 30"] [] (lit "btime 1700000000")
             (lit "1700000000") 1700000000).
    + vm_compute. reflexivity.
    + constructor; [|constructor]. intros [token H]. vm_compute in H. discriminate.
    + vm_compute. reflexivity.
    + vm_compute. reflexivity.
    + lia.
Defined.

(** C9 as stated fails: the line [btime 1700000000 0] has [btime] as its
    first token and the epoch second 1700000000 as its second, and the
    parser returns null on it. *)
Lemma fetch_uptime_first_token_counterexample :
  (exists line,
      line ∈ splitlines (lit "btime 1700000000 0")
      /\ split line !! 0%nat = Some (lit "btime")
      /\ (split line !! 1%nat ≫= int) = Some 1700000000)
  /\ result (SSHMetrics._fetch_uptime
               (Spec.answers (Ok (lit "btime 1700000000 0"))
                  (Raise SSHException) (Raise SSHException) (Raise SSHException))
               Spec.collector0)
     = Ok None
  /\ result (SSHMetrics._fetch_uptime
               (Spec.answers (Ok (lit "btime 1700000000 0"))
                  (Raise SSHException) (Raise SSHException) (Raise SSHException))
               Spec.collector0)
     <> Ok (Some {| SSHMetrics.epoch_second := 1700000000 |}).
Proof.
  split; [|split].
  - exists (lit "btime 1700000000 0"). split; [|split].
    + vm_compute. left.
    + vm_compute. reflexivity.
    + vm_compute. reflexivity.
  - vm_compute. reflexivity.
  - vm_compute. discriminate.
Qed.

(** ** ssh_metrics.py: [collect] *)

Section Collect.

Import SSHMetrics.

Variable w : SSHWorld.

(** A fetch leaves the collector as it is, and its result depends on the
    answers of the device only. *)
Lemma fetch_uptime_run (c c0 : SSHMetricsCollector) :
  _fetch_uptime w c
  = (c, [EvRunCommand (lit "cat /proc/stat")], result (_fetch_uptime w c0)).
Proof.
  unfold _fetch_uptime, run_command, lift, mbind, M_bind, result.
  destruct (ssh_run_command w _); reflexivity.
Qed.

Lemma fetch_cpu_temperature_run (c c0 : SSHMetricsCollector) :
  _fetch_cpu_temperature w c
  = (c, [EvRunCommand (lit "cat /sys/class/thermal/thermal_zone0/temp")],
     result (_fetch_cpu_temperature w c0)).
Proof.
  unfold _fetch_cpu_temperature, run_command, lift, mbind, M_bind, result.
  destruct (ssh_run_command w _); reflexivity.
Qed.

Lemma fetch_memory_run (c c0 : SSHMetricsCollector) :
  _fetch_memory w c
  = (c, [EvRunCommand (lit "cat /proc/meminfo")], result (_fetch_memory w c0)).
Proof.
  unfold _fetch_memory, run_command, lift, mbind, M_bind, mret, M_ret, result.
  destruct (ssh_run_command w _) as [meminfo|]; [|reflexivity].
  destruct (meminfo_loop _ _); reflexivity.
Qed.

Lemma fetch_storage_run (c c0 : SSHMetricsCollector) :
  _fetch_storage w c
  = (c, [EvRunCommand (lit "df -k /")], result (_fetch_storage w c0)).
Proof.
  unfold _fetch_storage, run_command, lift, mbind, M_bind, result.
  destruct (ssh_run_command w _); reflexivity.
Qed.

Lemma collect_result (c : SSHMetricsCollector) :
  Spec.session_ready w c ->
  result (collect w c) = Spec.four_reads w c.
Proof.
  intros Hready. unfold collect, Spec.four_reads.
  unfold mbind at 1 2. unfold M_bind at 1 2. unfold get.
  set (auth := if session_unusable c then _ else _).
  assert (Hauth : exists c1 t1, auth c = (c1, t1, Ok tt)).
  { subst auth. destruct (session_unusable c) eqn:U.
    - destruct Hready as [H | H]; [congruence|].
      unfold client_authenticate. rewrite H. eauto.
    - unfold mret, M_ret. eauto. }
  destruct Hauth as (c1 & t1 & ->).
  unfold mbind, M_bind.
  rewrite (fetch_uptime_run c1 c).
  destruct (result (_fetch_uptime w c)) as [u|e]; [|reflexivity].
  rewrite (fetch_cpu_temperature_run c1 c).
  destruct (result (_fetch_cpu_temperature w c)) as [t|e]; [|reflexivity].
  rewrite (fetch_memory_run c1 c).
  destruct (result (_fetch_memory w c)) as [m|e]; [|reflexivity].
  rewrite (fetch_storage_run c1 c).
  destruct (result (_fetch_storage w c)) as [s|e]; reflexivity.
Qed.

End Collect.

(** C3, as the code has it.  [collect] runs the four reads in sequence
    and returns a snapshot only when all four succeed; each field of that
    snapshot comes from the read of its own metric.  When one of the four
    reads fails, or its output does not parse, [collect] raises and
    reports no metric at all. *)
Theorem collect_all_or_nothing (w : SSHMetrics.SSHWorld)
    (c : SSHMetrics.SSHMetricsCollector) :
  Spec.session_ready w c ->
  (forall u t m s,
      result (SSHMetrics._fetch_uptime w c) = Ok u ->
      result (SSHMetrics._fetch_cpu_temperature w c) = Ok t ->
      result (SSHMetrics._fetch_memory w c) = Ok m ->
      result (SSHMetrics._fetch_storage w c) = Ok s ->
      result (SSHMetrics.collect w c) = Ok (Spec.snapshot_from u t m s))
  /\ (forall e,
         result (SSHMetrics._fetch_uptime w c) = Raise e
         \/ result (SSHMetrics._fetch_cpu_temperature w c) = Raise e
         \/ result (SSHMetrics._fetch_memory w c) = Raise e
         \/ result (SSHMetrics._fetch_storage w c) = Raise e ->
         exists e', result (SSHMetrics.collect w c) = Raise e').
Proof.
  intros Hready. rewrite (collect_result w c Hready). unfold Spec.four_reads.
  split.
  - intros u t m s -> -> -> ->. reflexivity.
  - intros e H.
    destruct (result (SSHMetrics._fetch_uptime w c)) as [u|e0];
      [|now exists e0].
    destruct (result (SSHMetrics._fetch_cpu_temperature w c)) as [t|e0];
      [|now exists e0].
    destruct (result (SSHMetrics._fetch_memory w c)) as [m|e0];
      [|now exists e0].
    destruct (result (SSHMetrics._fetch_storage w c)) as [s|e0];
      [|now exists e0].
    destruct H as [H | [H | [H | H]]]; discriminate.
Qed.

(** All four reads succeed on the specification's example outputs. *)
Lemma collect_all_or_nothing_witness :
  result (SSHMetrics.collect Spec.example_answers Spec.collector0)
  = Ok {| SSHMetrics.uptime := Some {| SSHMetrics.epoch_second := 1700000000 |};
          SSHMetrics.cpu_temperature := Some (451 # 10)%Q;
          SSHMetrics.memory_total := Some (1000 # 1)%Q;
          SSHMetrics.memory_used_percent := Some (50 # 1)%Q;
          SSHMetrics.storage_total := Some (1024 # 1)%Q;
          SSHMetrics.storage_used_percent := Some (50 # 1)%Q |}.
Proof.
  destruct (collect_all_or_nothing Spec.example_answers Spec.collector0)
    as [Hall _].
  - right. reflexivity.
  - rewrite (Hall _ _ _ _ eq_refl eq_refl eq_refl eq_refl).
    vm_compute. reflexivity.
Defined.

(** C3 as stated fails: with a thermal-zone reading that is no number, the
    three other reads succeed on their own, and [collect] raises the parse
    error and reports none of them. *)
Lemma collect_parse_error_counterexample :
  result (SSHMetrics._fetch_uptime Spec.unreadable_temperature Spec.collector0)
  = Ok (Some {| SSHMetrics.epoch_second := 1700000000 |})
  /\ Spec.entry (lit "total")
       (result (SSHMetrics._fetch_memory Spec.unreadable_temperature Spec.collector0))
     = Ok (Some (1000 # 1)%Q)
  /\ Spec.entry (lit "total")
       (result (SSHMetrics._fetch_storage Spec.unreadable_temperature Spec.collector0))
     = Ok (Some (1024 # 1)%Q)
  /\ result (SSHMetrics._fetch_cpu_temperature Spec.unreadable_temperature
               Spec.collector0)
     = Raise ValueError
  /\ result (SSHMetrics.collect Spec.unreadable_temperature Spec.collector0)
     = Raise ValueError.
Proof.
  repeat split; vm_compute; reflexivity.
Qed.

(** ** coordinator.py: the API part of the cycle *)

Section ApiPart.

Import Coordinator CycleSpec.

(** Case analysis along the calls of a run given as hypothesis [H]: every
    answer is split into success and failure, and the failures that end
    the run contradict [H]. *)
Ltac along_run H :=
  repeat (cbn in H;
          match type of H with
          | context [match ?r with Ok _ => _ | Raise _ => _ end] =>
              destruct r eqn:?
          | context [if ?b then _ else _] => destruct b eqn:?
          | context [match hid_mode ?s with Some _ => _ | None => _ end] =>
              destruct (hid_mode s) eqn:?
          end; try discriminate H).

Ltac not_in_trace :=
  let Hin := fresh "Hin" in
  intros Hin;
  repeat (apply elem_of_cons in Hin as [Hin | Hin]; [discriminate Hin|]);
  now apply elem_of_nil in Hin.

(** What a completed API part leaves behind. *)
Lemma fetch_api_data_ok (w : ApiWorld) (s s1 : NanoKVMDataUpdateCoordinator)
    (t1 : list Event) :
  fetch_api_data w s = (s1, t1, Ok tt) ->
  ssh_side s1 = ssh_side s
  /\ get_ssh_state w = Ok (ssh_state s1)
  /\ application_version_info s1 = or_null (get_application_version w)
  /\ tailscale_status s1 = or_null (get_tailscale_status w)
  /\ exists h,
      get_hid_mode w = Ok h
      /\ hid_mode s1 = Some h
      /\ (mode h = lit "normal" ->
          mounted_image s1
          = Some (or_default (get_mounted_image w) {| file := lit "" |})
          /\ cdrom_status s1
             = Some (or_default (get_cdrom_status w) {| cdrom := 0 |}))
      /\ (mode h <> lit "normal" ->
          mounted_image s1 = Some {| file := lit "" |}
          /\ cdrom_status s1 = Some {| cdrom := 0 |}
          /\ (EvFetch get_mounted_image_ ∉ t1)
          /\ (EvFetch get_cdrom_status_ ∉ t1)).
Proof.
  unfold fetch_api_data.
  unfold mbind, M_bind, get, fetch, modify, client_authenticate, try_except,
    mret, M_ret, raise.
  intros H. along_run H.
  all: injection H as <- <-.
  all: repeat match goal with E : _ = Ok _ |- _ => rewrite E; clear E | E : _ = Raise _ |- _ => rewrite E; clear E end.
  all: split; [reflexivity|].
  all: split; [reflexivity|].
  all: split; [reflexivity|].
  all: split; [reflexivity|].
  all: eexists; split; [reflexivity|]; split; [reflexivity|].
  all: match goal with
       | E : bool_decide _ = true |- _ => apply bool_decide_eq_true in E
       | E : bool_decide _ = false |- _ => apply bool_decide_eq_false in E
       end.
  all: split; intros Hmode; try contradiction.
  all: try (split; reflexivity).
  all: split; [reflexivity|]; split; [reflexivity|]; split; not_in_trace.
Qed.


End ApiPart.

(** ** coordinator.py: the command-channel branch *)

Section SshBranch.

Import Coordinator CycleSpec.

Arguments SSHMetrics.collect : simpl never.
Arguments SSHMetrics.disconnect : simpl never.

(** [disconnect] leaves no session and does not raise. *)
Lemma disconnect_run (c : SSHMetrics.SSHMetricsCollector) :
  exists c' t,
    SSHMetrics.disconnect c = (c', t, Ok tt)
    /\ SSHMetrics.ssh_client (SSHMetrics._client c') = None
    /\ SSHMetrics._password c' = SSHMetrics._password c
    /\ t = match SSHMetrics.ssh_client (SSHMetrics._client c) with
           | Some _ => [SSHMetrics.EvSSHDisconnect]
           | None => []
           end.
Proof.
  unfold SSHMetrics.disconnect, mbind, M_bind, SSHMetrics.client_disconnect,
    get, mret, M_ret.
  destruct (SSHMetrics.ssh_client (SSHMetrics._client c)) eqn:E.
  - do 2 eexists. split; [reflexivity|]. repeat split.
  - do 2 eexists. split; [reflexivity|]. repeat split. exact E.
Qed.

(** [_async_clear_ssh_data] never raises; it leaves the cleared
    coordinator and disconnects the session that was held. *)
Lemma clear_ssh_data_run (s : NanoKVMDataUpdateCoordinator) :
  _async_clear_ssh_data s
  = (cleared s,
     if holds_session s then [EvSSH SSHMetrics.EvSSHDisconnect] else [],
     Ok tt).
Proof.
  destruct s as [? ? ? ? ? ? ? ? ? ? ? ? ? ? ? ? ? ? ? ? ? ? ? ? ? ? ? collector ?].
  unfold _async_clear_ssh_data, holds_session, cleared.
  unfold mbind, M_bind, get, modify, mret, M_ret, on_collector.
  cbn. destruct collector as [c|]; [|vm_compute; reflexivity]. cbn.
  destruct (disconnect_run c) as (c' & t & -> & _ & _ & ->).
  destruct (SSHMetrics.ssh_client (SSHMetrics._client c)); vm_compute; reflexivity.
Qed.

(** The collection is the only step of [collect] that decides whether a
    password is kept: it never changes it. *)
Lemma collect_password (w : SSHMetrics.SSHWorld) (c : SSHMetrics.SSHMetricsCollector) :
  SSHMetrics._password (state (SSHMetrics.collect w c)) = SSHMetrics._password c.
Proof.
  unfold SSHMetrics.collect. unfold mbind at 1 2. unfold M_bind at 1 2. unfold get.
  set (auth := if SSHMetrics.session_unusable c then _ else _).
  assert (Hauth : SSHMetrics._password (state (auth c)) = SSHMetrics._password c).
  { subst auth. destruct (SSHMetrics.session_unusable c); [|reflexivity].
    unfold SSHMetrics.client_authenticate.
    destruct (SSHMetrics.ssh_authenticate w); reflexivity. }
  destruct (auth c) as [[c1 t1] [[]|e]]; [|exact Hauth].
  unfold state in Hauth. cbn [fst] in Hauth.
  unfold mbind, M_bind.
  rewrite (fetch_uptime_run w c1 c1).
  destruct (result (SSHMetrics._fetch_uptime w c1)); [|exact Hauth].
  rewrite (fetch_cpu_temperature_run w c1 c1).
  destruct (result (SSHMetrics._fetch_cpu_temperature w c1)); [|exact Hauth].
  rewrite (fetch_memory_run w c1 c1).
  destruct (result (SSHMetrics._fetch_memory w c1)); [|exact Hauth].
  rewrite (fetch_storage_run w c1 c1).
  destruct (result (SSHMetrics._fetch_storage w c1)); exact Hauth.
Qed.

(** When the collection raises, [_async_update_ssh_data] returns all the
    same, with the uptime and the temperature null, the session of the
    collector released, and every other attribute as it was. *)
Lemma update_ssh_data_failure (w : SSHMetrics.SSHWorld)
    (s : NanoKVMDataUpdateCoordinator) (e : Exception) :
  result (SSHMetrics.collect w (collector_in_use s)) = Raise e ->
  exists c' t,
    _async_update_ssh_data w s
    = (set_ssh_metrics_collector (Some c')
         (set_cpu_temperature None (set_uptime None s)), t, Ok tt)
    /\ SSHMetrics.ssh_client (SSHMetrics._client c') = None
    /\ SSHMetrics._password c' = SSHMetrics._password (collector_in_use s).
Proof.
  destruct s as [? ? ? ? ? ? ? ? ? ? ? ? ? ? ? ? ? ? ? ? ? ? ? ? ? ? ? collector ?].
  unfold collector_in_use, _async_update_ssh_data.
  unfold try_except, mbind, M_bind, get, modify, emit, mret, M_ret, on_collector.
  cbn [ssh_metrics_collector config_entry password].
  destruct collector as [c|].
  - pose proof (collect_password w c) as Hpw.
    destruct (SSHMetrics.collect w c) as [[c2 t2] r] eqn:R.
    unfold result, state in *. cbn [snd fst] in *. intros ->.
    destruct (disconnect_run c2) as (c3 & t3 & D & Hnone & Hpw3 & _).
    exists c3. cbn. rewrite R. cbn. rewrite D.
    eexists. split; [vm_compute; reflexivity|].
    split; [exact Hnone|]. now rewrite Hpw3.
  - set (c0 := SSHMetrics.new_collector _ _).
    pose proof (collect_password w c0) as Hpw.
    destruct (SSHMetrics.collect w c0) as [[c2 t2] r] eqn:R.
    unfold result, state in *. cbn [snd fst] in *. intros ->.
    destruct (disconnect_run c2) as (c3 & t3 & D & Hnone & Hpw3 & _).
    exists c3. cbn. fold c0. rewrite R. cbn. rewrite D.
    eexists. split; [vm_compute; reflexivity|].
    split; [exact Hnone|]. now rewrite Hpw3.
Qed.


End SshBranch.

(** ** coordinator.py: the cycle *)

Section Cycle.

Import Coordinator CycleSpec.

Arguments _async_update_ssh_data : simpl never.
Arguments _async_clear_ssh_data : simpl never.
Arguments fetch_api_data : simpl never.

(** The body of the cycle after a completed API part. *)
Lemma cycle_body_run (w : PassWorld) (s s1 s2 : NanoKVMDataUpdateCoordinator)
    (t1 t2 : list Event) :
  fetch_api_data (api w) s = (s1, t1, Ok tt) ->
  (if ssh_enabled s1 then _async_update_ssh_data (ssh w)
   else _async_clear_ssh_data) s1 = (s2, t2, Ok tt) ->
  cycle_body w s = (s2, t1 ++ t2, Ok (snapshot_of s2)).
Proof.
  intros H1 H2. unfold cycle_body, mbind, M_bind, get, mret, M_ret. rewrite H1.
  cbn. destruct (ssh_enabled s1); rewrite H2; now rewrite !app_nil_r.
Qed.

(** A body that returns is the result of the cycle. *)
Lemma update_data_returns (fuel : nat) (w : World) (k : nat)
    (s s' : NanoKVMDataUpdateCoordinator) (t : list Event) (data : Snapshot) :
  cycle_body (w k) s = (s', t, Ok data) ->
  _async_update_data (S fuel) w k s = Some (s', t, Ok data).
Proof. intros H. cbn [_async_update_data]. now rewrite H. Qed.

End Cycle.



(** C4. In a cycle in which the device reports the command channel
    enabled and the collection of the secondary metrics raises, the uptime
    and the CPU temperature are set to null, the session of the collector
    is released, every other attribute is left as the API part of the
    cycle set it (the memory and storage figures and the sensor flag as
    they were before the cycle), and the cycle returns its snapshot. *)
Theorem collection_failure_is_contained (fuel : nat) (w : Coordinator.World)
    (k : nat) (s : Coordinator.NanoKVMDataUpdateCoordinator) (e : Exception) :
  result (Coordinator.fetch_api_data (Coordinator.api (w k)) s) = Ok tt ->
  Coordinator.get_ssh_state (Coordinator.api (w k))
  = Ok (Some {| Coordinator.enabled := true |}) ->
  result (SSHMetrics.collect (Coordinator.ssh (w k)) (CycleSpec.collector_in_use s))
  = Raise e ->
  exists s' t c',
    Coordinator._async_update_data (S fuel) w k s
    = Some (s', t, Ok (Coordinator.snapshot_of s'))
    /\ s' = Coordinator.set_ssh_metrics_collector (Some c')
              (Coordinator.set_cpu_temperature None
                 (Coordinator.set_uptime None
                    (state (Coordinator.fetch_api_data (Coordinator.api (w k)) s))))
    /\ SSHMetrics.ssh_client (SSHMetrics._client c') = None
    /\ Coordinator.uptime s' = None
    /\ Coordinator.cpu_temperature s' = None
    /\ Coordinator.memory_total s' = Coordinator.memory_total s
    /\ Coordinator.memory_used_percent s' = Coordinator.memory_used_percent s
    /\ Coordinator.storage_total s' = Coordinator.storage_total s
    /\ Coordinator.storage_used_percent s' = Coordinator.storage_used_percent s
    /\ Coordinator.ssh_sensors_created s' = Coordinator.ssh_sensors_created s.
Proof.
  intros Hapi Hstate Hraise.
  destruct (Coordinator.fetch_api_data (Coordinator.api (w k)) s)
    as [[s1 t1] r1] eqn:Hrun.
  unfold result in Hapi. cbn [snd] in Hapi. subst r1.
  unfold state. cbn [fst].
  destruct (fetch_api_data_ok _ _ _ _ Hrun) as (Hside & Hssh & _).
  unfold CycleSpec.ssh_side in Hside.
  injection Hside as _ _ Hmt Hmp Hst Hsp Hflag Hc Hcfg Hpw _.
  assert (Hon : Coordinator.ssh_enabled s1 = true).
  { unfold Coordinator.ssh_enabled. rewrite Hstate in Hssh.
    injection Hssh as <-. reflexivity. }
  assert (Hcol : CycleSpec.collector_in_use s1 = CycleSpec.collector_in_use s).
  { unfold CycleSpec.collector_in_use. now rewrite Hc, Hcfg, Hpw. }
  rewrite <- Hcol in Hraise.
  destruct (update_ssh_data_failure _ _ _ Hraise) as (c' & t2 & Hupd & Hnone & _).
  exists (Coordinator.set_ssh_metrics_collector (Some c')
            (Coordinator.set_cpu_temperature None (Coordinator.set_uptime None s1))).
  exists (t1 ++ t2), c'.
  split.
  { apply update_data_returns. eapply cycle_body_run; [exact Hrun|].
    rewrite Hon. exact Hupd. }
  split; [reflexivity|]. split; [exact Hnone|].
  split; [reflexivity|]. split; [reflexivity|].
  split; [exact Hmt|]. split; [exact Hmp|]. split; [exact Hst|].
  split; [exact Hsp|]. exact Hflag.
Qed.

(** A coordinator with metrics and a live session, and a device whose
    thermal-zone reading does not parse: the memory and storage figures of
    the earlier cycle stay. *)
Lemma collection_failure_is_contained_witness :
  exists s' t,
    Coordinator._async_update_data 1 (CycleSpec.steady CycleSpec.channel_unreadable)
      0 CycleSpec.coordinator0
    = Some (s', t, Ok (Coordinator.snapshot_of s'))
    /\ Coordinator.uptime s' = None
    /\ Coordinator.cpu_temperature s' = None
    /\ Coordinator.memory_total s' = Some (1000 # 1)%Q
    /\ Coordinator.memory_used_percent s' = Some (50 # 1)%Q
    /\ Coordinator.storage_total s' = Some (1024 # 1)%Q
    /\ Coordinator.storage_used_percent s' = Some (50 # 1)%Q
    /\ CycleSpec.holds_session s' = false.
Proof.
  destruct (collection_failure_is_contained 0
              (CycleSpec.steady CycleSpec.channel_unreadable) 0
              CycleSpec.coordinator0 ValueError)
    as (s' & t & c' & Hrun & Hs' & Hnone & H1 & H2 & H3 & H4 & H5 & H6 & _).
  - vm_compute. reflexivity.
  - reflexivity.
  - vm_compute. reflexivity.
  - exists s', t. split; [exact Hrun|].
    split; [exact H1|]. split; [exact H2|].
    split; [exact H3|]. split; [exact H4|].
    split; [exact H5|]. split; [exact H6|].
    unfold CycleSpec.holds_session. rewrite Hs'. cbn. now rewrite Hnone.
Defined.

Section Frame.

Import Coordinator CycleSpec.

Arguments SSHMetrics.collect : simpl never.
Arguments SSHMetrics.disconnect : simpl never.


Lemma no_fetch_app (t1 t2 : list Event) :
  no_fetch t1 -> no_fetch t2 -> no_fetch (t1 ++ t2).
Proof. unfold no_fetch. intros. now apply Forall_app. Qed.





End Frame.




(** ** coordinator.py: the reauthentication retry *)

Section Retry.

Import Coordinator CycleSpec.

Lemma count_new_clients_app (t1 t2 : list Event) :
  count_new_clients (t1 ++ t2) = (count_new_clients t1 + count_new_clients t2)%nat.
Proof. unfold count_new_clients. now rewrite List.filter_app, length_app. Qed.

(** The coordinator after a retry: the replacement client is in place. *)
Lemma unauthorized_pass :
  cycle_body (pass (with_get_info (Raise (ClientResponseError 401)) api_ok)
                Spec.example_answers) retried
  = (retried, [EvFetch get_info_], Raise (ClientResponseError 401)).
Proof. vm_compute. reflexivity. Qed.

Lemma retried_fixed :
  set_client {| url := Utils.normalize_host (conf_host (config_entry retried));
                token := Some (lit "token-1") |} retried
  = retried.
Proof. vm_compute. reflexivity. Qed.

Lemma answered_pass :
  exists s' t data,
    cycle_body (pass api_ok Spec.example_answers) retried = (s', t, Ok data)
    /\ count_new_clients t = 0%nat.
Proof. do 3 eexists. split; [vm_compute; reflexivity|]. reflexivity. Qed.

(** An unauthorized response with a known identity, followed by a
    successful authentication of the replacement client, enters the update
    operation again; whatever that call does is the outcome. *)
Lemma update_data_reenters (fuel : nat) (w : World) (k : nat)
    (s s1 : NanoKVMDataUpdateCoordinator) (t1 : list Event) (tok : str) :
  cycle_body (w k) s = (s1, t1, Raise (ClientResponseError 401)) ->
  reauth_eligible (ClientResponseError 401) s1 = true ->
  new_client_authenticate (w k) = Ok tok ->
  _async_update_data (S fuel) w k s
  = match _async_update_data fuel w (S k)
            (set_client {| url := Utils.normalize_host (conf_host (config_entry s1));
                           token := Some tok |} s1) with
    | None => None
    | Some (s3, t3, Ok data) =>
        Some (s3,
              (t1 ++ [EvNewClient (Utils.normalize_host (conf_host (config_entry s1)));
                      EvAuthenticate
                        (Utils.normalize_host (conf_host (config_entry s1)))
                        (username s1) (password s1)]) ++ t3,
              Ok data)
    | Some (s3, t3, Raise auth_err) =>
        Some (s3,
              (t1 ++ [EvNewClient (Utils.normalize_host (conf_host (config_entry s1)));
                      EvAuthenticate
                        (Utils.normalize_host (conf_host (config_entry s1)))
                        (username s1) (password s1)]) ++ t3,
              Raise (UpdateFailed Reauthentication_failed auth_err))
    end.
Proof.
  intros Hbody Heligible Hauth. cbn [_async_update_data].
  rewrite Hbody. cbn [is_ClientResponseError orb]. rewrite Heligible, Hauth.
  reflexivity.
Qed.

(** From the replacement client on, a device that rejects the token for
    [m] more passes is retried [m] more times. *)
Lemma retries_from (n m k : nat) :
  (k + m = n)%nat ->
  exists s' t data,
    _async_update_data (S m) (unauthorized_for n) k retried = Some (s', t, Ok data)
    /\ count_new_clients t = m.
Proof.
  revert k. induction m as [|m IH]; intros k Hk.
  - destruct answered_pass as (s' & t & data & Hrun & Hcount).
    exists s', t, data. split; [|exact Hcount].
    apply update_data_returns. unfold unauthorized_for.
    replace (k <? n)%nat with false by (symmetry; apply Nat.ltb_ge; lia).
    exact Hrun.
  - destruct (IH (S k)) as (s' & t & data & Hrun & Hcount); [lia|].
    assert (Hpass : unauthorized_for n k
                    = pass (with_get_info (Raise (ClientResponseError 401)) api_ok)
                        Spec.example_answers).
    { unfold unauthorized_for.
      now replace (k <? n)%nat with true by (symmetry; apply Nat.ltb_lt; lia). }
    rewrite (update_data_reenters (S m) (unauthorized_for n) k retried retried
               [EvFetch get_info_] (lit "token-1")).
    + rewrite retried_fixed, Hrun. do 3 eexists. split; [reflexivity|].
      rewrite !count_new_clients_app, Hcount. reflexivity.
    + rewrite Hpass. apply unauthorized_pass.
    + reflexivity.
    + now rewrite Hpass.
Qed.

End Retry.

(** The retry of the cycle is not limited to one: for every [n] there is a
    device, one that rejects the token on [n + 1] passes in a row, on which
    one call of the update operation makes [n + 1] retries. *)
Lemma reauth_retries_unbounded (n : nat) :
  exists s' t data,
    Coordinator._async_update_data (S (S n)) (CycleSpec.unauthorized_for (S n)) 0
      CycleSpec.coordinator0
    = Some (s', t, Ok data)
    /\ CycleSpec.count_new_clients t = S n.
Proof.
  destruct (retries_from (S n) n 1) as (s' & t & data & Hrun & Hcount); [lia|].
  rewrite (update_data_reenters (S n) (CycleSpec.unauthorized_for (S n)) 0
             CycleSpec.coordinator0 CycleSpec.coordinator0
             [Coordinator.EvFetch Coordinator.get_info_] (lit "token-1")).
  - change (Coordinator.set_client _ CycleSpec.coordinator0) with CycleSpec.retried.
    rewrite Hrun. do 3 eexists. split; [reflexivity|].
    rewrite !count_new_clients_app, Hcount. reflexivity.
  - vm_compute. reflexivity.
  - reflexivity.
  - reflexivity.
Qed.

(** C1, evaluated where it fails.  The device rejects the token with
    status 401 on the first fetch of the first and of the second pass,
    accepts the credentials of each replacement client, and answers from
    the third pass on.  The update operation does not end with an update
    failure after the first retry: it builds a second replacement client,
    runs the body a third time, and returns the snapshot. *)
Theorem reauth_retry_is_repeated :
  exists s' t data,
    Coordinator._async_update_data 3 CycleSpec.unauthorized_twice 0
      CycleSpec.coordinator0
    = Some (s', t, Ok data)
    /\ CycleSpec.count_new_clients t = 2%nat
    /\ CycleSpec.count_passes t = 3%nat.
Proof.
  do 3 eexists. split; [vm_compute; reflexivity|]. split; reflexivity.
Qed.

(** When the retry is answered, the operation makes one retry: two passes
    through the body and one replacement client. *)
Lemma reauth_retry_once :
  exists s' t data,
    Coordinator._async_update_data 2 CycleSpec.unauthorized_once 0
      CycleSpec.coordinator0
    = Some (s', t, Ok data)
    /\ CycleSpec.count_new_clients t = 1%nat
    /\ CycleSpec.count_passes t = 2%nat
    /\ Coordinator.client s'
       = {| Coordinator.url := lit "http://kvm.local/api/";
            Coordinator.token := Some (lit "token-1") |}.
Proof.
  do 3 eexists. split; [vm_compute; reflexivity|]. repeat split.
Qed.

(** ** utils.py: hosts and their spellings *)

Ltac absent :=
  let H := fresh "H" in
  intros H;
  repeat (apply elem_of_cons in H as [H | H]; [discriminate H|]);
  now apply elem_of_nil in H.

Section Hosts.

Import StrAux.

Lemma startswith_prefixb (s p : str) : startswith s p = prefixb p s.
Proof.
  unfold startswith. revert s. induction p as [|d p IH]; intros s.
  - cbn. apply bool_decide_eq_true. apply prefix_nil.
  - destruct s as [|c s].
    + cbn. apply bool_decide_eq_false. apply prefix_nil_not.
    + cbn [prefixb]. rewrite <- IH.
      destruct (Ascii.eqb_spec d c) as [->|Hne]; cbn [andb].
      * destruct (bool_decide (p `prefix_of` s)) eqn:B.
        -- apply bool_decide_eq_true in B. apply bool_decide_eq_true.
           now apply prefix_cons.
        -- apply bool_decide_eq_false in B. apply bool_decide_eq_false.
           intros H. apply B. now apply prefix_cons_inv_2 in H.
      * apply bool_decide_eq_false. intros H.
        apply prefix_cons_inv_1 in H. contradiction.
Qed.

Lemma endswith_rev (s p : str) : endswith s p = prefixb (rev p) (rev s).
Proof.
  rewrite <- startswith_prefixb. unfold endswith, startswith.
  apply bool_decide_ext. rewrite !rev_alt. apply suffix_prefix_reverse.
Qed.

Lemma prefixb_app (p t : str) : prefixb p (p ++ t) = true.
Proof.
  induction p as [|c p IH]; [reflexivity|].
  cbn [app prefixb]. now rewrite Ascii.eqb_refl, IH.
Qed.

(** One step of [replace] at a position where the scan is not skipping. *)
Lemma replace_go_cons (old new : str) (c : ascii) (s : str) :
  Coordinator.replace_go old new O (c :: s)
  = if prefixb old (c :: s)
    then new ++ Coordinator.replace_go old new (length old - 1) s
    else c :: Coordinator.replace_go old new O s.
Proof. cbn [Coordinator.replace_go]. now rewrite startswith_prefixb. Qed.

Lemma replace_go_skip (old new pre t : str) :
  Coordinator.replace_go old new (length pre) (pre ++ t)
  = Coordinator.replace_go old new O t.
Proof. induction pre as [|c pre IH]; [reflexivity|]. cbn. exact IH. Qed.

(** Where the first character of [old] does not occur, nothing is replaced. *)
Lemma replace_go_absent_app (d : ascii) (old' new s t : str) :
  d ∉ s ->
  Coordinator.replace_go (d :: old') new O (s ++ t)
  = s ++ Coordinator.replace_go (d :: old') new O t.
Proof.
  induction s as [|c s IH]; intros Hd; [reflexivity|].
  cbn [app]. rewrite replace_go_cons. cbn [prefixb].
  destruct (Ascii.eqb_spec d c) as [->|Hne].
  - exfalso. apply Hd. left.
  - cbn [andb]. f_equal. apply IH. intros Hin. apply Hd. now right.
Qed.

Lemma prefixb_elem (p s : str) (c : ascii) :
  prefixb p s = true -> c ∈ p -> c ∈ s.
Proof.
  rewrite <- startswith_prefixb. unfold startswith. rewrite bool_decide_eq_true.
  intros [k ->] Hin. apply elem_of_app. now left.
Qed.

(** A string that lacks a character of [old] contains no [old]. *)
Lemma replace_go_none (old new s : str) (c : ascii) :
  c ∈ old -> c ∉ s -> Coordinator.replace_go old new O s = s.
Proof.
  intros Hold. induction s as [|a s IH]; intros Hs; [reflexivity|].
  rewrite replace_go_cons.
  destruct (prefixb old (a :: s)) eqn:P.
  - exfalso. apply Hs. eapply prefixb_elem; eauto.
  - f_equal. apply IH. intros Hin. apply Hs. now right.
Qed.

Lemma replace_none (old new s : str) (c : ascii) :
  c ∈ old -> c ∉ s -> Coordinator.replace s old new = s.
Proof.
  intros Hold Hs. unfold Coordinator.replace.
  destruct old as [|d old]; [now apply elem_of_nil in Hold|].
  now apply replace_go_none with c.
Qed.

(** The last character of a plain host is no slash. *)
Lemma plain_host_rev (h : str) :
  plain_host h -> exists c r, rev h = c :: r /\ c <> "/"%char.
Proof.
  intros [Hne Hslash]. destruct (rev h) as [|c r] eqn:R.
  - exfalso. apply Hne. rewrite <- (rev_involutive h), R. reflexivity.
  - exists c, r. split; [reflexivity|]. intros ->. apply Hslash.
    apply list_elem_of_In, in_rev, list_elem_of_In. rewrite R. left.
Qed.

Lemma plain_host_no_scheme (h : str) : plain_host h -> has_scheme h = false.
Proof.
  intros [_ Hslash]. unfold has_scheme. rewrite !startswith_prefixb.
  destruct (prefixb (lit "http://") h) eqn:P1.
  { exfalso. apply Hslash. apply (prefixb_elem _ _ _ P1).
    do 5 right. left. }
  destruct (prefixb (lit "https://") h) eqn:P2; [|reflexivity].
  exfalso. apply Hslash. apply (prefixb_elem _ _ _ P2).
  do 6 right. left.
Qed.

(** Behind a plain host, nothing that ends in a slash is a suffix. *)
Lemma plain_host_not_endswith (pre h q : str) :
  plain_host h -> endswith (pre ++ h) (q ++ ["/"%char]) = false.
Proof.
  intros Hh. destruct (plain_host_rev h Hh) as (c & r & R & Hc).
  rewrite endswith_rev, !rev_app_distr, R. cbn [rev app prefixb].
  destruct (Ascii.eqb_spec "/" c) as [E|_]; [congruence|reflexivity].
Qed.

(** A plain host is normalized by putting the scheme in front and the API
    path behind. *)
Lemma normalize_plain_host (h : str) :
  plain_host h ->
  Utils.normalize_host h = lit "http://" ++ h ++ lit "/api/".
Proof.
  intros Hh. unfold Utils.normalize_host. fold (has_scheme h).
  rewrite (plain_host_no_scheme h Hh). cbn [negb].
  pose proof (plain_host_not_endswith (lit "http://") h (lit "/api") Hh) as E1.
  pose proof (plain_host_not_endswith (lit "http://") h [] Hh) as E2.
  change (lit "/api" ++ ["/"%char]) with (lit "/api/") in E1.
  change ([] ++ ["/"%char]) with (lit "/") in E2.
  rewrite E1. cbn [negb]. rewrite E2. now rewrite <- app_assoc.
Qed.

Lemma plain_host_not_api (h : str) :
  plain_host h -> h <> lit "api" ->
  prefixb (lit "api/") (h ++ lit "/api/") = false.
Proof.
  intros [Hne Hslash] Hapi.
  destruct h as [|a [|b [|c [|d h]]]];
    cbn [prefixb app lit list_ascii_of_string].
  - reflexivity.
  - destruct (Ascii.eqb_spec "a" a); reflexivity.
  - destruct (Ascii.eqb_spec "a" a); [|reflexivity].
    destruct (Ascii.eqb_spec "p" b); reflexivity.
  - destruct (Ascii.eqb_spec "a" a) as [<-|]; [|reflexivity].
    destruct (Ascii.eqb_spec "p" b) as [<-|]; [|reflexivity].
    destruct (Ascii.eqb_spec "i" c) as [<-|]; [|reflexivity].
    now contradiction Hapi.
  - destruct (Ascii.eqb_spec "a" a); [|reflexivity].
    destruct (Ascii.eqb_spec "p" b); [|reflexivity].
    destruct (Ascii.eqb_spec "i" c); [|reflexivity].
    destruct (Ascii.eqb_spec "/" d) as [<-|]; [|reflexivity].
    exfalso. apply Hslash. do 3 right. left.
Qed.

End Hosts.

(** The SSH host of a normalized plain host is the host itself.  The host
    named [api] is the exception: its normalized URL contains the API path
    twice in a row, of which the first match takes a slash of the scheme. *)
Theorem extract_ssh_host_normalize_host (h : str) :
  StrAux.plain_host h -> h <> lit "api" ->
  UtilsHost.extract_ssh_host (Utils.normalize_host h) = h.
Proof.
  intros Hh Hapi. rewrite (normalize_plain_host h Hh).
  pose proof Hh as [_ Hslash].
  unfold UtilsHost.extract_ssh_host.
  assert (E1 : Coordinator.replace (lit "http://" ++ h ++ lit "/api/")
                 (lit "/api/") (lit "")
               = lit "http://" ++ h).
  { change (Coordinator.replace (lit "http://" ++ h ++ lit "/api/") (lit "/api/") (lit ""))
      with (Coordinator.replace_go ("/"%char :: lit "api/") (lit "") O
              (lit "http:" ++ "/"%char :: "/"%char :: h ++ lit "/api/")).
    rewrite (replace_go_absent_app "/" (lit "api/") (lit "") (lit "http:")) by absent.
    rewrite replace_go_cons.
    change (StrAux.prefixb ("/"%char :: lit "api/")
              ("/"%char :: "/"%char :: h ++ lit "/api/")) with false.
    cbv iota. rewrite replace_go_cons.
    change (StrAux.prefixb ("/"%char :: lit "api/") ("/"%char :: h ++ lit "/api/"))
      with (StrAux.prefixb (lit "api/") (h ++ lit "/api/")).
    rewrite (plain_host_not_api h Hh Hapi).
    rewrite (replace_go_absent_app "/" (lit "api/") (lit "") h) by exact Hslash.
    change (Coordinator.replace_go _ _ 0 (lit "/api/")) with (@nil ascii).
    now rewrite app_nil_r. }
  rewrite E1.
  assert (E2 : Coordinator.replace (lit "http://" ++ h) (lit "http://") (lit "") = h).
  { change (Coordinator.replace (lit "http://" ++ h) (lit "http://") (lit ""))
      with (Coordinator.replace_go (lit "http://") (lit "") O
              ("h"%char :: lit "ttp://" ++ h)).
    rewrite replace_go_cons.
    change (StrAux.prefixb (lit "http://") ("h"%char :: lit "ttp://" ++ h))
      with (StrAux.prefixb (lit "ttp://") (lit "ttp://" ++ h)).
    rewrite prefixb_app.
    change (length (lit "http://") - 1)%nat with (length (lit "ttp://")).
    rewrite replace_go_skip. cbn [app lit list_ascii_of_string].
    apply replace_go_none with "/"%char; [|exact Hslash]. do 5 right. left. }
  rewrite E2.
  apply replace_none with "/"%char; [|exact Hslash]. do 6 right. left.
Qed.

Lemma extract_ssh_host_normalize_host_witness :
  UtilsHost.extract_ssh_host (Utils.normalize_host (lit "kvm.local")) = lit "kvm.local".
Proof.
  apply (extract_ssh_host_normalize_host (lit "kvm.local")).
  - split; [discriminate|]. absent.
  - discriminate.
Defined.

(** [normalize_mdns] is idempotent, its result ends with a dot, and it
    adds at most one character. *)
Theorem normalize_mdns_idempotent (mdns : str) :
  Utils.normalize_mdns (Utils.normalize_mdns mdns) = Utils.normalize_mdns mdns
  /\ endswith (Utils.normalize_mdns mdns) (lit ".") = true
  /\ (length (Utils.normalize_mdns mdns) <= S (length mdns))%nat.
Proof.
  assert (E : endswith (Utils.normalize_mdns mdns) (lit ".") = true).
  { unfold Utils.normalize_mdns.
    destruct (endswith mdns (lit ".")) eqn:D; [exact D|apply endswith_app]. }
  split; [|split; [exact E|]].
  - unfold Utils.normalize_mdns at 1. now rewrite E.
  - unfold Utils.normalize_mdns. destruct (endswith mdns (lit ".")).
    + lia.
    + rewrite length_app. cbn. lia.
Qed.

Section Spellings.

Import StrAux.

Lemma plain_host_no_prefix (p h : str) :
  "/"%char ∈ p -> "/"%char ∉ h -> prefixb p h = false.
Proof.
  intros Hp Hh. destruct (prefixb p h) eqn:P; [|reflexivity].
  exfalso. apply Hh. eapply prefixb_elem; eauto.
Qed.

End Spellings.

(** The SSH host of a host written without a slash, bare or behind one of
    the two schemes, is that host. *)
Theorem extract_ssh_host_spellings (h : str) :
  "/"%char ∉ h ->
  UtilsHost.extract_ssh_host h = h
  /\ UtilsHost.extract_ssh_host (lit "http://" ++ h) = h
  /\ UtilsHost.extract_ssh_host (lit "https://" ++ h) = h.
Proof.
  intros Hslash.
  assert (Hbare : forall old, "/"%char ∈ old ->
                              Coordinator.replace h old (lit "") = h).
  { intros old Hold. now apply replace_none with "/"%char. }
  assert (Hscheme : forall pre,
             "/"%char ∉ pre ->
             Coordinator.replace (pre ++ "/"%char :: "/"%char :: h) (lit "/api/") (lit "")
             = pre ++ "/"%char :: "/"%char :: h).
  { intros pre Hpre.
    change (Coordinator.replace (pre ++ "/"%char :: "/"%char :: h) (lit "/api/") (lit ""))
      with (Coordinator.replace_go ("/"%char :: lit "api/") (lit "") O
              (pre ++ "/"%char :: "/"%char :: h)).
    rewrite (replace_go_absent_app "/" (lit "api/") (lit "") pre) by exact Hpre.
    rewrite replace_go_cons.
    change (StrAux.prefixb ("/"%char :: lit "api/") ("/"%char :: "/"%char :: h))
      with false.
    cbv iota. rewrite replace_go_cons.
    change (StrAux.prefixb ("/"%char :: lit "api/") ("/"%char :: h))
      with (StrAux.prefixb (lit "api/") h).
    rewrite (plain_host_no_prefix (lit "api/") h) by (try exact Hslash; do 3 right; left).
    rewrite (replace_go_none ("/"%char :: lit "api/") (lit "") h "/"); [reflexivity| |exact Hslash].
    left. }
  unfold UtilsHost.extract_ssh_host. split; [|split].
  - rewrite !Hbare; [reflexivity | do 6 right; left | do 5 right; left | left].
  - change (lit "http://" ++ h) with (lit "http:" ++ "/"%char :: "/"%char :: h).
    rewrite Hscheme by absent.
    change (Coordinator.replace (lit "http:" ++ "/"%char :: "/"%char :: h)
              (lit "http://") (lit ""))
      with (Coordinator.replace_go (lit "http://") (lit "") O
              ("h"%char :: lit "ttp://" ++ h)).
    rewrite replace_go_cons.
    change (StrAux.prefixb (lit "http://") ("h"%char :: lit "ttp://" ++ h))
      with (StrAux.prefixb (lit "ttp://") (lit "ttp://" ++ h)).
    rewrite prefixb_app.
    change (length (lit "http://") - 1)%nat with (length (lit "ttp://")).
    rewrite replace_go_skip. cbn [app lit list_ascii_of_string].
    rewrite (replace_go_none _ _ h "/"); [|do 5 right; left|exact Hslash].
    apply Hbare. do 6 right. left.
  - change (lit "https://" ++ h) with (lit "https:" ++ "/"%char :: "/"%char :: h).
    rewrite Hscheme by absent.
    change (Coordinator.replace (lit "https:" ++ "/"%char :: "/"%char :: h)
              (lit "http://") (lit ""))
      with (Coordinator.replace_go ("h"%char :: lit "ttp://") (lit "") O
              ("h"%char :: lit "ttps://" ++ h)).
    rewrite replace_go_cons.
    change (StrAux.prefixb ("h"%char :: lit "ttp://") ("h"%char :: lit "ttps://" ++ h))
      with false.
    cbv iota.
    rewrite (replace_go_absent_app "h" (lit "ttp://") (lit "") (lit "ttps://")) by absent.
    rewrite (replace_go_none _ _ h "/"); [|do 5 right; left|exact Hslash].
    change (Coordinator.replace ("h"%char :: lit "ttps://" ++ h) (lit "https://") (lit ""))
      with (Coordinator.replace_go (lit "https://") (lit "") O
              ("h"%char :: lit "ttps://" ++ h)).
    rewrite replace_go_cons.
    change (StrAux.prefixb (lit "https://") ("h"%char :: lit "ttps://" ++ h))
      with (StrAux.prefixb (lit "ttps://") (lit "ttps://" ++ h)).
    rewrite prefixb_app.
    change (length (lit "https://") - 1)%nat with (length (lit "ttps://")).
    rewrite replace_go_skip. cbn [app lit list_ascii_of_string].
    apply replace_go_none with "/"%char; [do 6 right; left|exact Hslash].
Qed.

Lemma extract_ssh_host_spellings_witness :
  UtilsHost.extract_ssh_host (lit "192.168.1.20") = lit "192.168.1.20"
  /\ UtilsHost.extract_ssh_host (lit "http://192.168.1.20") = lit "192.168.1.20"
  /\ UtilsHost.extract_ssh_host (lit "https://192.168.1.20") = lit "192.168.1.20".
Proof.
  apply (extract_ssh_host_spellings (lit "192.168.1.20")). absent.
Defined.

Section SpellingsOfUrl.

Import StrAux.

(** Behind a slash, a plain host other than [api] followed by a slash does
    not end in the API path. *)
Lemma not_endswith_api (pre h : str) :
  plain_host h -> h <> lit "api" ->
  endswith ((pre ++ ["/"%char]) ++ h ++ ["/"%char]) (lit "/api/") = false.
Proof.
  intros [Hne Hslash] Hapi.
  rewrite endswith_rev, !rev_app_distr.
  assert (Hr : "/"%char ∉ rev h).
  { intros H. apply Hslash. apply list_elem_of_In, in_rev, list_elem_of_In. exact H. }
  assert (Hr3 : rev h <> lit "ipa").
  { intros E. apply Hapi. rewrite <- (rev_involutive h), E. reflexivity. }
  assert (Hr0 : rev h <> []).
  { intros E. apply Hne. rewrite <- (rev_involutive h), E. reflexivity. }
  destruct (rev h) as [|a [|b [|c [|d r]]]];
    cbn [rev app prefixb lit list_ascii_of_string].
  - contradiction.
  - rewrite Ascii.eqb_refl. cbn [andb].
    destruct (Ascii.eqb_spec "i" a); reflexivity.
  - rewrite Ascii.eqb_refl. cbn [andb].
    destruct (Ascii.eqb_spec "i" a); [|reflexivity].
    destruct (Ascii.eqb_spec "p" b); reflexivity.
  - rewrite Ascii.eqb_refl. cbn [andb].
    destruct (Ascii.eqb_spec "i" a) as [<-|]; [|reflexivity].
    destruct (Ascii.eqb_spec "p" b) as [<-|]; [|reflexivity].
    destruct (Ascii.eqb_spec "a" c) as [<-|]; [|reflexivity].
    now contradiction Hr3.
  - rewrite Ascii.eqb_refl. cbn [andb].
    destruct (Ascii.eqb_spec "i" a); [|reflexivity].
    destruct (Ascii.eqb_spec "p" b); [|reflexivity].
    destruct (Ascii.eqb_spec "a" c); [|reflexivity].
    destruct (Ascii.eqb_spec "/" d) as [<-|]; [|reflexivity].
    exfalso. apply Hr. do 3 right. left.
Qed.

(** The three spellings of a plain host behind a scheme that ends in a
    slash have one normal form. *)
Lemma normalize_behind_scheme (scheme h : str) :
  has_scheme (scheme ++ ["/"%char]) = true ->
  plain_host h -> h <> lit "api" ->
  Utils.normalize_host ((scheme ++ ["/"%char]) ++ h)
  = (scheme ++ ["/"%char]) ++ h ++ lit "/api/"
  /\ Utils.normalize_host ((scheme ++ ["/"%char]) ++ h ++ lit "/")
     = (scheme ++ ["/"%char]) ++ h ++ lit "/api/"
  /\ Utils.normalize_host ((scheme ++ ["/"%char]) ++ h ++ lit "/api/")
     = (scheme ++ ["/"%char]) ++ h ++ lit "/api/".
Proof.
  intros Hs Hh Hapi. set (pre := scheme ++ ["/"%char]) in *.
  split; [|split].
  - unfold Utils.normalize_host. fold (has_scheme (pre ++ h)).
    rewrite (has_scheme_app pre h Hs). cbn [negb orb].
    pose proof (plain_host_not_endswith pre h (lit "/api") Hh) as E1.
    pose proof (plain_host_not_endswith pre h [] Hh) as E2.
    change (lit "/api" ++ ["/"%char]) with (lit "/api/") in E1.
    change ([] ++ ["/"%char]) with (lit "/") in E2.
    rewrite E1. cbn [negb]. rewrite E2. now rewrite <- app_assoc.
  - unfold Utils.normalize_host. fold (has_scheme (pre ++ h ++ lit "/")).
    rewrite (has_scheme_app pre (h ++ lit "/") Hs). cbn [negb orb].
    pose proof (not_endswith_api scheme h Hh Hapi) as E1. fold pre in E1.
    change (h ++ ["/"%char]) with (h ++ lit "/") in E1.
    rewrite E1. cbn [negb].
    replace (endswith (pre ++ h ++ lit "/") (lit "/")) with true.
    + rewrite <- !app_assoc. reflexivity.
    + symmetry. rewrite app_assoc. apply endswith_app.
  - apply normalize_host_fixed.
    + now apply has_scheme_app.
    + rewrite app_assoc. apply endswith_app.
Qed.

End SpellingsOfUrl.

(** A plain host other than [api] has one normalized URL, in whichever of
    its spellings it is given: bare, behind [http://], with a trailing
    slash, or with the API path already in place.  Behind [https://] the
    spellings agree in the same way and the scheme is kept. *)
Theorem normalize_host_spellings (h : str) :
  StrAux.plain_host h -> h <> lit "api" ->
  Utils.normalize_host h = lit "http://" ++ h ++ lit "/api/"
  /\ Utils.normalize_host (lit "http://" ++ h) = Utils.normalize_host h
  /\ Utils.normalize_host (lit "http://" ++ h ++ lit "/") = Utils.normalize_host h
  /\ Utils.normalize_host (lit "http://" ++ h ++ lit "/api/") = Utils.normalize_host h
  /\ Utils.normalize_host (lit "https://" ++ h) = lit "https://" ++ h ++ lit "/api/"
  /\ Utils.normalize_host (lit "https://" ++ h ++ lit "/")
     = lit "https://" ++ h ++ lit "/api/"
  /\ Utils.normalize_host (lit "https://" ++ h ++ lit "/api/")
     = lit "https://" ++ h ++ lit "/api/".
Proof.
  intros Hh Hapi. rewrite (normalize_plain_host h Hh).
  destruct (normalize_behind_scheme (lit "http:/") h eq_refl Hh Hapi) as (A1 & A2 & A3).
  destruct (normalize_behind_scheme (lit "https:/") h eq_refl Hh Hapi) as (B1 & B2 & B3).
  repeat split; assumption.
Qed.

Lemma normalize_host_spellings_witness :
  Utils.normalize_host (lit "http://kvm.local/") = lit "http://kvm.local/api/"
  /\ Utils.normalize_host (lit "https://kvm.local") = lit "https://kvm.local/api/".
Proof.
  destruct (normalize_host_spellings (lit "kvm.local")) as (_ & _ & A & _ & B & _).
  - split; [discriminate|]. absent.
  - discriminate.
  - split; [exact A | exact B].
Defined.

(** ** ssh_metrics.py: session handling of the collector *)

Section CollectorSession.

Import SSHMetrics.

Arguments SSHMetrics.disconnect : simpl never.

(** The reads leave the session as it is and run the four commands in
    their order, up to the first that fails. *)
Lemma reads_run (w : SSHWorld) (c : SSHMetricsCollector) :
  exists n,
    CollectSpec.reads w c
    = (c, List.map EvRunCommand (take n CollectSpec.commands), Spec.four_reads w c)
    /\ (n <= 4)%nat
    /\ (CollectSpec.returned (Spec.four_reads w c) = true -> n = 4%nat).
Proof.
  pose proof (fetch_uptime_run w c c) as E1.
  pose proof (fetch_cpu_temperature_run w c c) as E2.
  pose proof (fetch_memory_run w c c) as E3.
  pose proof (fetch_storage_run w c c) as E4.
  unfold Spec.four_reads, CollectSpec.reads.
  set (ru := result (_fetch_uptime w c)) in *.
  set (rt := result (_fetch_cpu_temperature w c)) in *.
  set (rm := result (_fetch_memory w c)) in *.
  set (rs := result (_fetch_storage w c)) in *.
  unfold mbind at 1 2 3 4. unfold M_bind at 1 2 3 4.
  unfold mret, M_ret.
  cbv beta iota zeta. rewrite E1.
  destruct ru as [u|e].
  2: { exists 1%nat. split; [reflexivity|]. split; [lia|discriminate]. }
  cbv beta iota zeta. rewrite E2.
  destruct rt as [t|e].
  2: { exists 2%nat. split; [reflexivity|]. split; [lia|discriminate]. }
  cbv beta iota zeta. rewrite E3.
  destruct rm as [m|e].
  2: { exists 3%nat. split; [reflexivity|]. split; [lia|discriminate]. }
  cbv beta iota zeta. rewrite E4.
  destruct rs as [s|e].
  2: { exists 4%nat. split; [reflexivity|]. split; [lia|discriminate]. }
  exists 4%nat. split; [reflexivity|]. split; [lia|reflexivity].
Qed.

(** [collect] is its opening followed by the reads. *)
Lemma collect_eq (w : SSHWorld) (c : SSHMetricsCollector) :
  collect w c
  = let '(c1, t1, r1) :=
      (if session_unusable c then client_authenticate w (_password c)
       else mret tt) c in
    match r1 with
    | Ok _ => let '(c2, t2, r2) := CollectSpec.reads w c1 in (c2, t1 ++ t2, r2)
    | Raise e => (c1, t1, Raise e)
    end.
Proof.
  unfold collect. unfold mbind at 1 2. unfold M_bind at 1 2. unfold get.
  cbv beta iota zeta.
  set (o := (if session_unusable c then client_authenticate w (_password c)
             else mret tt) c).
  destruct o as [[c1 t1] [[]|e]]; [|reflexivity].
  change (_ = ?rhs) with
    ((let '(s2, t2, r) :=
        (let '(s2, t2, r) := CollectSpec.reads w c1 in (s2, t1 ++ t2, r))
      in (s2, [] ++ t2, r)) = rhs).
  destruct (CollectSpec.reads w c1) as [[c2 t2] r2]. reflexivity.
Qed.

End CollectorSession.

(** A collection opens with an authentication exactly when the session it
    holds is missing or dead; it then runs the four commands in their
    order, each at most once and all four when it returns, and it leaves a
    live session as it found it. *)
Theorem collect_opening_and_commands (w : SSHMetrics.SSHWorld)
    (c : SSHMetrics.SSHMetricsCollector) :
  Spec.session_ready w c ->
  exists n,
    trace (SSHMetrics.collect w c)
    = CollectSpec.opening c
      ++ List.map SSHMetrics.EvRunCommand (take n CollectSpec.commands)
    /\ (n <= 4)%nat
    /\ (CollectSpec.returned (result (SSHMetrics.collect w c)) = true -> n = 4%nat)
    /\ (SSHMetrics.session_unusable c = false -> state (SSHMetrics.collect w c) = c).
Proof.
  intros Hready. rewrite collect_eq. unfold CollectSpec.opening.
  destruct (SSHMetrics.session_unusable c) eqn:U.
  - destruct Hready as [H | H]; [congruence|].
    unfold SSHMetrics.client_authenticate. rewrite H.
    set (c1 := SSHMetrics.set_ssh_client _ c).
    destruct (reads_run w c1) as (n & -> & Hn & Hret).
    exists n. unfold trace, result, state. cbn [fst snd].
    split; [reflexivity|]. split; [exact Hn|]. split; [exact Hret|discriminate].
  - unfold mret, M_ret.
    destruct (reads_run w c) as (n & -> & Hn & Hret).
    exists n. unfold trace, result, state. cbn [fst snd].
    split; [reflexivity|]. split; [exact Hn|]. split; [exact Hret|reflexivity].
Qed.

(** A collector without a session, on a device that answers: one
    authentication and the four commands. *)
Lemma collect_opening_and_commands_witness :
  trace (SSHMetrics.collect Spec.example_answers Spec.collector0)
  = SSHMetrics.EvSSHAuthenticate (lit "secret")
    :: List.map SSHMetrics.EvRunCommand CollectSpec.commands.
Proof.
  destruct (collect_opening_and_commands Spec.example_answers Spec.collector0)
    as (n & Htrace & _ & Hall & _).
  - right. reflexivity.
  - rewrite Htrace, Hall; [reflexivity|].
    vm_compute. reflexivity.
Defined.

(** When the opening authentication fails, no command is run and the
    collection raises the error of the authentication. *)
Theorem collect_authentication_failure (w : SSHMetrics.SSHWorld)
    (c : SSHMetrics.SSHMetricsCollector) (e : Exception) :
  SSHMetrics.session_unusable c = true ->
  SSHMetrics.ssh_authenticate w = Raise e ->
  trace (SSHMetrics.collect w c) = [SSHMetrics.EvSSHAuthenticate (SSHMetrics._password c)]
  /\ result (SSHMetrics.collect w c) = Raise e.
Proof.
  intros U H. rewrite collect_eq, U.
  unfold SSHMetrics.client_authenticate. rewrite H. split; reflexivity.
Qed.

Lemma collect_authentication_failure_witness :
  trace (SSHMetrics.collect CollectSpec.refuses_login Spec.collector0)
  = [SSHMetrics.EvSSHAuthenticate (lit "secret")]
  /\ result (SSHMetrics.collect CollectSpec.refuses_login Spec.collector0)
     = Raise SSHException.
Proof.
  apply (collect_authentication_failure CollectSpec.refuses_login Spec.collector0);
    reflexivity.
Defined.

(** [disconnect] is idempotent: it never raises, it leaves no session, and
    on a collector without a session it does nothing at all, so that a
    second call makes no call to the transport. *)
Theorem disconnect_idempotent (c : SSHMetrics.SSHMetricsCollector) :
  result (SSHMetrics.disconnect c) = Ok tt
  /\ SSHMetrics.ssh_client (SSHMetrics._client (state (SSHMetrics.disconnect c))) = None
  /\ SSHMetrics.disconnect (state (SSHMetrics.disconnect c))
     = (state (SSHMetrics.disconnect c), [], Ok tt)
  /\ (SSHMetrics.ssh_client (SSHMetrics._client c) = None ->
      SSHMetrics.disconnect c = (c, [], Ok tt)).
Proof.
  destruct (disconnect_run c) as (c' & t & E & Hnone & _ & Ht).
  rewrite E. unfold state, result. cbn [fst snd].
  assert (Hidle : forall c0, SSHMetrics.ssh_client (SSHMetrics._client c0) = None ->
                             SSHMetrics.disconnect c0 = (c0, [], Ok tt)).
  { intros c0 H0. unfold SSHMetrics.disconnect, mbind, M_bind, get, mret, M_ret.
    now rewrite H0. }
  split; [reflexivity|]. split; [exact Hnone|]. split; [now apply Hidle|].
  intros H0. rewrite <- E. now apply Hidle.
Qed.
(** ** ssh_metrics.py: the parsers on malformed and on extreme input *)

Section RoundingOrder.

Local Open Scope Q_scope.




End RoundingOrder.

Section ParserEdges.

Import SSHMetrics.

Lemma meminfo_loop_result (lines : list str) (mem_data : gmap str Z) :
  match meminfo_loop lines mem_data with
  | Ok _ => existsb ParseSpec.malformed lines = false
  | Raise e => e = ValueError /\ existsb ParseSpec.malformed lines = true
  end.
Proof.
  revert mem_data. induction lines as [|line rest IH]; intros mem_data.
  - reflexivity.
  - cbn [meminfo_loop existsb]. unfold ParseSpec.malformed.
    destruct (2 <=? length (split line))%nat; cbn [andb orb]; [|apply IH].
    destruct (int (split line !!! 1%nat)) as [n|]; cbn [or_ValueError mbind Result_bind orb].
    + apply IH.
    + split; reflexivity.
Qed.

Lemma fetch_memory_result (w : SSHWorld) (c : SSHMetricsCollector) (meminfo : str) :
  ssh_run_command w (lit "cat /proc/meminfo") = Ok meminfo ->
  result (_fetch_memory w c)
  = (mem_data ← meminfo_loop (splitlines meminfo) ∅; Ok (memory_stats mem_data)).
Proof.
  intros Hrun. unfold _fetch_memory, run_command, lift.
  unfold mbind at 1 2. unfold M_bind, mret, M_ret, result. rewrite Hrun. cbn [snd fst].
  destruct (meminfo_loop (splitlines meminfo) ∅); reflexivity.
Qed.


End ParserEdges.

(** The memory parser converts the second token of every line of two or
    more tokens, not only of the two lines it uses: it returns exactly
    when each such token is an integer, and raises [ValueError] as soon
    as one is not. *)
Theorem fetch_memory_malformed_line (w : SSHMetrics.SSHWorld)
    (c : SSHMetrics.SSHMetricsCollector) (meminfo : str) :
  SSHMetrics.ssh_run_command w (lit "cat /proc/meminfo") = Ok meminfo ->
  CollectSpec.returned (result (SSHMetrics._fetch_memory w c))
  = negb (existsb ParseSpec.malformed (splitlines meminfo))
  /\ (existsb ParseSpec.malformed (splitlines meminfo) = true ->
      result (SSHMetrics._fetch_memory w c) = Raise ValueError).
Proof.
  intros Hrun. rewrite (fetch_memory_result w c meminfo Hrun).
  pose proof (meminfo_loop_result (splitlines meminfo) ∅) as H.
  destruct (SSHMetrics.meminfo_loop (splitlines meminfo) ∅) as [m|e].
  - rewrite H. split; [reflexivity | discriminate].
  - destruct H as [-> ->]. split; reflexivity.
Qed.

(** A report with both figures and one further line without a number. *)
Lemma fetch_memory_malformed_line_witness :
  result (SSHMetrics._fetch_memory
            (Spec.answers (Raise SSHException)
               (Ok ParseSpec.meminfo_with_text_value)
               (Raise SSHException) (Raise SSHException))
            Spec.collector0)
  = Raise ValueError.
Proof.
  apply (fetch_memory_malformed_line
           (Spec.answers (Raise SSHException)
              (Ok ParseSpec.meminfo_with_text_value)
              (Raise SSHException) (Raise SSHException))
           Spec.collector0 ParseSpec.meminfo_with_text_value eq_refl).
  vm_compute. reflexivity.
Defined.



(** The first boot-time line decides: when its value is no integer the
    uptime parser raises [ValueError], whatever the later lines hold. *)
Theorem fetch_uptime_malformed_value (w : SSHMetrics.SSHWorld)
    (c : SSHMetrics.SSHMetricsCollector) (stat_raw : str)
    (before after : list str) (line token : str) :
  SSHMetrics.ssh_run_command w (lit "cat /proc/stat") = Ok stat_raw ->
  splitlines stat_raw = before ++ line :: after ->
  Forall (fun l => ~ Spec.btime_line l) before ->
  split line = [lit "btime"; token] ->
  int token = None ->
  result (SSHMetrics._fetch_uptime w c) = Raise ValueError.
Proof.
  intros Hrun Hlines Hbefore Hline Hint.
  rewrite (fetch_uptime_result w c stat_raw Hrun).
  rewrite Hlines, uptime_loop_skip by exact Hbefore.
  cbn [SSHMetrics.uptime_loop]. rewrite Hline.
  change (SSHMetrics.is_btime [lit "btime"; token]) with true. cbv iota.
  change ([lit "btime"; token] !!! 1%nat) with token. now rewrite Hint.
Qed.

(** A boot-time line without a number, before one that is well formed. *)
Lemma fetch_uptime_malformed_value_witness :
  result (SSHMetrics._fetch_uptime
            (Spec.answers (Ok ParseSpec.stat_with_text_value)
               (Raise SSHException) (Raise SSHException) (Raise SSHException))
            Spec.collector0)
  = Raise ValueError.
Proof.
  apply (fetch_uptime_malformed_value
           (Spec.answers (Ok ParseSpec.stat_with_text_value)
              (Raise SSHException) (Raise SSHException) (Raise SSHException))
           Spec.collector0 ParseSpec.stat_with_text_value
           [] [lit "btime 1700000000"] (lit "btime soon") (lit "soon")).
  - reflexivity.
  - vm_compute. reflexivity.
  - constructor.
  - vm_compute. reflexivity.
  - vm_compute. reflexivity.
Defined.


(** ** Invariants through the binds of a computation *)

Section Maintains.

Import Inv.

Context {S E : Type} (I : S -> Prop) (T : E -> Prop).

Lemma maintains_ret {A} (a : A) : maintains I T (mret a : M S E A).
Proof. intros s H. split; [exact H | constructor]. Qed.

Lemma maintains_raise {A} (e : Exception) : maintains I T (raise e : M S E A).
Proof. intros s H. split; [exact H | constructor]. Qed.

Lemma maintains_lift {A} (r : Result A) : maintains I T (lift r : M S E A).
Proof. intros s H. split; [exact H | constructor]. Qed.

Lemma maintains_emit (ev : E) : T ev -> maintains I T (emit ev : M S E unit).
Proof. intros Hev s H. split; [exact H | now repeat constructor]. Qed.

Lemma maintains_modify (f : S -> S) :
  (forall s, I s -> I (f s)) -> maintains I T (modify f : M S E unit).
Proof. intros Hf s H. split; [now apply Hf | constructor]. Qed.

Lemma maintains_bind {A B} (m : M S E A) (k : A -> M S E B) :
  maintains I T m -> (forall a, maintains I T (k a)) -> maintains I T (m ≫= k).
Proof.
  intros Hm Hk s H. destruct (Hm s H) as [H1 T1].
  unfold mbind, M_bind. destruct (m s) as [[s1 t1] [a|e]].
  - unfold state, trace in H1, T1. cbn [fst snd] in H1, T1.
    destruct (Hk a s1 H1) as [H2 T2].
    destruct (k a s1) as [[s2 t2] r]. split; [exact H2|].
    apply Forall_app. split; assumption.
  - split; assumption.
Qed.

(** The continuation of [get] may use that the object it is given
    satisfies the invariant. *)
Lemma maintains_get_bind {B} (k : S -> M S E B) :
  (forall s0, I s0 -> I (state (k s0 s0)) /\ Forall T (trace (k s0 s0))) ->
  maintains I T (get ≫= k).
Proof.
  intros Hk s H. destruct (Hk s H) as [H1 T1].
  unfold mbind, M_bind, get. destruct (k s s) as [[s2 t2] r].
  split; assumption.
Qed.

Lemma maintains_try_except {A} (body : M S E A) (classes : Exception -> bool)
    (handler : Exception -> M S E A) :
  maintains I T body -> (forall e, maintains I T (handler e)) ->
  maintains I T (try_except body classes handler).
Proof.
  intros Hb Hh s H. destruct (Hb s H) as [H1 T1].
  unfold try_except. destruct (body s) as [[s1 t1] [a|e]].
  - split; assumption.
  - destruct (classes e); [|split; assumption].
    unfold state, trace in H1, T1. cbn [fst snd] in H1, T1.
    destruct (Hh e s1 H1) as [H2 T2].
    destruct (handler e s1) as [[s2 t2] r]. split; [exact H2|].
    apply Forall_app. split; assumption.
Qed.

End Maintains.

(** ** coordinator.py: what a refresh leaves as it is *)

Section RefreshFrame.

Import Coordinator CycleSpec Inv RefreshSpec.

Arguments SSHMetrics.collect : simpl never.
Arguments SSHMetrics.disconnect : simpl never.

Context (I : NanoKVMDataUpdateCoordinator -> Prop) (T : Event -> Prop).

Lemma maintains_fetch {A} (e : Endpoint) (r : Result A) :
  T (EvFetch e) -> maintains I T (fetch e r).
Proof. intros He s H. split; [exact H | now repeat constructor]. Qed.

Lemma maintains_client_authenticate (r : Result str) :
  (forall s c, I s -> url c = url (client s) -> I (set_client c s)) ->
  (forall a b c, T (EvAuthenticate a b c)) ->
  maintains I T (client_authenticate r).
Proof.
  intros Hc Hev s H. unfold client_authenticate. split.
  - destruct r; [apply Hc; [exact H | reflexivity] | exact H].
  - repeat constructor. apply Hev.
Qed.

Lemma maintains_on_collector {A}
    (m : M SSHMetrics.SSHMetricsCollector SSHMetrics.Event A) :
  (forall s c, I s -> I (set_ssh_metrics_collector c s)) ->
  (forall ev, T (EvSSH ev)) ->
  maintains I T (on_collector m).
Proof.
  intros Hc Hev s H. unfold on_collector.
  destruct (ssh_metrics_collector s) as [c|].
  - destruct (m c) as [[c' t] r]. split; [now apply Hc|].
    unfold trace. cbn [fst snd]. apply Forall_fmap, Forall_forall.
    intros ev _. apply Hev.
  - split; [exact H | constructor].
Qed.

End RefreshFrame.

(** The steps of a computation, each with its rule; [setters] proves that
    an assignment keeps the invariant and [calls] that a call is allowed. *)
Ltac maintain setters calls :=
  repeat first
    [ apply maintains_ret
    | apply maintains_raise
    | apply maintains_lift
    | apply maintains_modify; intros ? ?; setters
    | apply maintains_emit; calls
    | apply maintains_fetch; calls
    | apply maintains_client_authenticate; [intros ? ? ? ?; setters | intros ? ? ?; calls]
    | apply maintains_on_collector; [intros ? ? ?; setters | intros ?; calls]
    | apply maintains_try_except; [|intros ?]
    | apply maintains_bind; [|intros ?]
    | match goal with
      | |- Inv.maintains _ _ (if ?b then _ else _) => destruct b
      | |- Inv.maintains _ _ (match ?x with Some _ => _ | None => _ end) => destruct x
      end ].

Section RefreshInvariants.

Import Coordinator CycleSpec Inv RefreshSpec.

Arguments SSHMetrics.collect : simpl never.
Arguments SSHMetrics.disconnect : simpl never.


(** The whole pass keeps the configuration and the credentials. *)
Lemma cycle_body_configuration (w : PassWorld) (x : _) :
  maintains (fun s => configuration s = x) any_call (cycle_body w).
Proof.
  unfold cycle_body, fetch_api_data, _async_update_ssh_data, _async_clear_ssh_data.
  maintain ltac:(assumption) ltac:(exact Logic.I).
Qed.

(** With a token held, the pass keeps the client and makes no
    authentication call. *)
Lemma cycle_body_client (w : PassWorld) (c : NanoKVMClient) :
  falsy (token c) = false ->
  maintains (fun s => client s = c) no_authenticate (cycle_body w).
Proof.
  intros Htoken. unfold cycle_body. apply maintains_bind.
  - unfold fetch_api_data. apply maintains_get_bind. intros s0 Hs0.
    rewrite Hs0, Htoken.
    match goal with
    | |- context [state (?m s0)] =>
        assert (Hm : maintains (fun s => client s = c) no_authenticate m)
    end.
    { maintain ltac:(assumption) ltac:(exact Logic.I). }
    exact (Hm s0 Hs0).
  - intros _. unfold _async_update_ssh_data, _async_clear_ssh_data.
    maintain ltac:(assumption) ltac:(exact Logic.I).
Qed.


End RefreshInvariants.



(** A refresh never changes the configuration entry or the credentials,
    whether it returns or raises and however many times it re-entered. *)
Theorem update_data_keeps_configuration (fuel : nat) (w : Coordinator.World) (k : nat)
    (s s' : Coordinator.NanoKVMDataUpdateCoordinator)
    (t : list Coordinator.Event) (r : Result Coordinator.Snapshot) :
  Coordinator._async_update_data fuel w k s = Some (s', t, r) ->
  Coordinator.config_entry s' = Coordinator.config_entry s
  /\ Coordinator.username s' = Coordinator.username s
  /\ Coordinator.password s' = Coordinator.password s.
Proof.
  intros H.
  enough (E : RefreshSpec.configuration s' = RefreshSpec.configuration s).
  { unfold RefreshSpec.configuration in E. now injection E as -> -> ->. }
  revert k s s' t r H. induction fuel as [|fuel IH]; intros k s s' t r; [discriminate|].
  cbn [Coordinator._async_update_data].
  destruct (cycle_body_configuration (w k) (RefreshSpec.configuration s) s eq_refl)
    as [Hs1 _].
  destruct (Coordinator.cycle_body (w k) s) as [[s1 t1] [data|err]].
  - intros [= <- _ _]. exact Hs1.
  - unfold state in Hs1. cbn [fst] in Hs1.
    destruct (is_ClientResponseError err || is_NanoKVMAuthenticationFailure err).
    + destruct (Coordinator.reauth_eligible err s1).
      * destruct (Coordinator.new_client_authenticate (w k)) as [tok|auth_err].
        -- destruct (Coordinator._async_update_data fuel w (S k) _)
             as [[[s3 t3] [d|e3]]|] eqn:R; try discriminate.
           ++ intros [= <- _ _]. apply IH in R. rewrite R. exact Hs1.
           ++ intros [= <- _ _]. apply IH in R. rewrite R. exact Hs1.
        -- intros [= <- _ _]. exact Hs1.
      * intros [= <- _ _]. exact Hs1.
    + destruct (is_NanoKVMError err || is_ClientError err || is_TimeoutError err);
        intros [= <- _ _]; exact Hs1.
Qed.

(** A tick with one re-entry. *)
Lemma update_data_keeps_configuration_witness :
  exists o,
    Coordinator._async_update_data 2 CycleSpec.unauthorized_once 0 CycleSpec.coordinator0
    = Some o
    /\ Coordinator.password (state o) = lit "admin".
Proof.
  destruct (Coordinator._async_update_data 2 CycleSpec.unauthorized_once 0
              CycleSpec.coordinator0) as [[[s' t] r]|] eqn:R.
  - exists (s', t, r). split; [reflexivity|]. unfold state. cbn [fst].
    destruct (update_data_keeps_configuration 2 CycleSpec.unauthorized_once 0
                CycleSpec.coordinator0 s' t r R) as (_ & _ & ->).
    reflexivity.
  - exfalso. revert R. vm_compute. discriminate.
Defined.

(** While the client holds a token, a pass makes no authentication call
    and leaves the client in place, whatever the device answers. *)
Theorem token_held_no_authentication (w : Coordinator.PassWorld)
    (s : Coordinator.NanoKVMDataUpdateCoordinator) :
  Coordinator.falsy (Coordinator.token (Coordinator.client s)) = false ->
  Coordinator.client (state (Coordinator.cycle_body w s)) = Coordinator.client s
  /\ Forall RefreshSpec.no_authenticate (trace (Coordinator.cycle_body w s)).
Proof.
  intros Htoken.
  exact (cycle_body_client w (Coordinator.client s) Htoken s eq_refl).
Qed.

Lemma token_held_no_authentication_witness :
  Coordinator.client
    (state (Coordinator.cycle_body CycleSpec.channel_disabled CycleSpec.coordinator0))
  = Coordinator.client CycleSpec.coordinator0.
Proof.
  apply (token_held_no_authentication CycleSpec.channel_disabled CycleSpec.coordinator0).
  reflexivity.
Defined.
(** ** coordinator.py: the calls of a pass *)

(** Case analysis along the calls of a run given as hypothesis [H]. *)
Ltac along H :=
  repeat (cbn in H;
          match type of H with
          | context [match ?r with Ok _ => _ | Raise _ => _ end] =>
              destruct r eqn:?
          | context [if ?b then _ else _] => destruct b eqn:?
          | context [match Coordinator.hid_mode ?s with Some _ => _ | None => _ end] =>
              destruct (Coordinator.hid_mode s) eqn:?
          end; try discriminate H).

Section PassCalls.

Import Coordinator CycleSpec RefreshSpec.

(** With a token held, a pass whose first fetch raises ends there. *)
Lemma cycle_body_first_fetch_raises (w : PassWorld)
    (s : NanoKVMDataUpdateCoordinator) (err : Exception) :
  falsy (token (client s)) = false ->
  get_info (api w) = Raise err ->
  cycle_body w s = (s, [EvFetch get_info_], Raise err).
Proof.
  intros Htoken Hinfo.
  unfold cycle_body, fetch_api_data.
  unfold mbind, M_bind, get, fetch, mret, M_ret.
  rewrite Htoken, Hinfo. reflexivity.
Qed.

End PassCalls.

(** A pass that completes its API part has authenticated first when no
    token was held, and then made each of the fifteen fetches once, in
    their order, followed by the two fetches of the normal mode when the
    device is in that mode, and by no other. *)
Theorem pass_fetches_in_order (w : Coordinator.PassWorld)
    (s s1 : Coordinator.NanoKVMDataUpdateCoordinator)
    (t1 : list Coordinator.Event) :
  Coordinator.fetch_api_data (Coordinator.api w) s = (s1, t1, Ok tt) ->
  exists h,
    Coordinator.get_hid_mode (Coordinator.api w) = Ok h
    /\ t1 = RefreshSpec.authentication s
            ++ List.map Coordinator.EvFetch
                 (RefreshSpec.fetched_always
                  ++ if bool_decide (Coordinator.mode h = lit "normal")
                     then RefreshSpec.fetched_in_normal_mode else []).
Proof.
  unfold Coordinator.fetch_api_data, RefreshSpec.authentication.
  unfold mbind, M_bind, get, Coordinator.fetch, modify,
    Coordinator.client_authenticate, try_except,
    mret, M_ret, raise.
  intros H. along H.
  all: injection H as <- <-.
  all: eexists; split; [reflexivity|].
  all: repeat match goal with
              | E : bool_decide ?P = _ |- context [bool_decide ?Q] =>
                  change (bool_decide Q) with (bool_decide P); rewrite E; clear E
              | E : ?b = true |- context [?b] => rewrite E
              | E : ?b = false |- context [?b] => rewrite E
              end.
  all: reflexivity.
Qed.

Lemma pass_fetches_in_order_witness :
  exists h,
    Coordinator.get_hid_mode (Coordinator.api CycleSpec.channel_disabled) = Ok h
    /\ trace (Coordinator.fetch_api_data (Coordinator.api CycleSpec.channel_disabled)
                CycleSpec.coordinator0)
       = RefreshSpec.authentication CycleSpec.coordinator0
         ++ List.map Coordinator.EvFetch
              (RefreshSpec.fetched_always
               ++ if bool_decide (Coordinator.mode h = lit "normal")
                  then RefreshSpec.fetched_in_normal_mode else []).
Proof.
  refine (pass_fetches_in_order CycleSpec.channel_disabled CycleSpec.coordinator0
            _ _ _).
  vm_compute. reflexivity.
Defined.

(** No error of the transport leaves the refresh as it is: what the
    refresh raises is an [UpdateFailed], or an error of a class that none
    of its handlers names. *)
Theorem update_data_errors_wrapped (fuel : nat) (w : Coordinator.World) (k : nat)
    (s s' : Coordinator.NanoKVMDataUpdateCoordinator)
    (t : list Coordinator.Event) (e : Exception) :
  Coordinator._async_update_data fuel w k s = Some (s', t, Raise e) ->
  (exists msg cause, e = UpdateFailed msg cause)
  \/ (is_ClientError e = false /\ is_NanoKVMError e = false
      /\ is_TimeoutError e = false).
Proof.
  destruct fuel as [|fuel]; [discriminate|].
  cbn [Coordinator._async_update_data].
  destruct (Coordinator.cycle_body (w k) s) as [[s1 t1] [data|err]];
    [discriminate|].
  destruct (is_ClientResponseError err || is_NanoKVMAuthenticationFailure err) eqn:H1.
  - destruct (Coordinator.reauth_eligible err s1).
    + destruct (Coordinator.new_client_authenticate (w k)) as [tok|auth_err].
      * destruct (Coordinator._async_update_data fuel w (S k) _)
          as [[[s3 t3] [d|e3]]|]; try discriminate.
        intros [= _ _ <-]. left. eauto.
      * intros [= _ _ <-]. left. eauto.
    + intros [= _ _ <-]. left. eauto.
  - destruct (is_NanoKVMError err || is_ClientError err || is_TimeoutError err) eqn:H2.
    + intros [= _ _ <-]. left. eauto.
    + intros [= _ _ <-]. right.
      destruct (is_NanoKVMError err), (is_ClientError err), (is_TimeoutError err);
        try discriminate H2. now repeat split.
Qed.

(** The hardware fetch times out. *)
Lemma update_data_errors_wrapped_witness :
  (exists msg cause,
      UpdateFailed Error_communicating_with_NanoKVM TimeoutError = UpdateFailed msg cause)
  \/ (is_ClientError (UpdateFailed Error_communicating_with_NanoKVM TimeoutError) = false
      /\ is_NanoKVMError (UpdateFailed Error_communicating_with_NanoKVM TimeoutError) = false
      /\ is_TimeoutError (UpdateFailed Error_communicating_with_NanoKVM TimeoutError) = false).
Proof.
  refine (update_data_errors_wrapped 1
            (CycleSpec.steady
               (CycleSpec.pass
                  (CycleSpec.with_get_info (Raise TimeoutError) CycleSpec.api_ok)
                  Spec.example_answers))
            0 CycleSpec.coordinator0 _ _ _ _).
  vm_compute. reflexivity.
Defined.

(** While the identity of the device is not known, a rejected token is
    not answered with a reauthentication: the refresh fails after its
    first fetch, with no replacement client, and leaves the coordinator
    as it was, so that the next refresh begins in the same way. *)
Theorem unknown_identity_no_retry (fuel : nat) (w : Coordinator.World) (k : nat)
    (s : Coordinator.NanoKVMDataUpdateCoordinator) (err : Exception) :
  Coordinator.falsy (Coordinator.token (Coordinator.client s)) = false ->
  Coordinator.get_info (Coordinator.api (w k)) = Raise err ->
  is_ClientResponseError err || is_NanoKVMAuthenticationFailure err = true ->
  RefreshSpec.unknown_identity s ->
  Coordinator._async_update_data (S fuel) w k s
  = Some (s, [Coordinator.EvFetch Coordinator.get_info_],
          Raise (UpdateFailed (RefreshSpec.first_handler_message err false) err)).
Proof.
  intros Htoken Hinfo Hclass Hid.
  cbn [Coordinator._async_update_data].
  rewrite (cycle_body_first_fetch_raises (w k) s err Htoken Hinfo), Hclass.
  assert (E : Coordinator.reauth_eligible err s = false).
  { unfold Coordinator.reauth_eligible. unfold RefreshSpec.unknown_identity in Hid.
    destruct (Coordinator.device_info s) as [info|]; [|apply andb_false_r].
    rewrite Hid. apply andb_false_r. }
  rewrite E. unfold RefreshSpec.first_handler_message.
  destruct (is_ClientResponseError err); reflexivity.
Qed.

Lemma unknown_identity_no_retry_witness :
  Coordinator._async_update_data 1 (CycleSpec.steady RefreshSpec.locked_out) 0
    RefreshSpec.placeholder
  = Some (RefreshSpec.placeholder, [Coordinator.EvFetch Coordinator.get_info_],
          Raise (UpdateFailed HTTP_error_with_NanoKVM (ClientResponseError 401))).
Proof.
  apply (unknown_identity_no_retry 0 (CycleSpec.steady RefreshSpec.locked_out) 0
           RefreshSpec.placeholder (ClientResponseError 401));
    reflexivity.
Defined.

(** When the token is rejected and the replacement client is refused as
    well, the refresh fails at once: one pass, one replacement client that
    is dropped, the client that was held left in place, and an
    [UpdateFailed] that carries the error of the reauthentication. *)
Theorem failed_reauthentication_is_terminal (fuel : nat) (w : Coordinator.World)
    (k : nat) (s : Coordinator.NanoKVMDataUpdateCoordinator)
    (err auth_err : Exception) :
  Coordinator.falsy (Coordinator.token (Coordinator.client s)) = false ->
  Coordinator.get_info (Coordinator.api (w k)) = Raise err ->
  Coordinator.reauth_eligible err s = true ->
  Coordinator.new_client_authenticate (w k) = Raise auth_err ->
  Coordinator._async_update_data (S fuel) w k s
  = Some (s,
          [Coordinator.EvFetch Coordinator.get_info_;
           Coordinator.EvNewClient
             (Utils.normalize_host (Coordinator.conf_host (Coordinator.config_entry s)));
           Coordinator.EvAuthenticate
             (Utils.normalize_host (Coordinator.conf_host (Coordinator.config_entry s)))
             (Coordinator.username s) (Coordinator.password s)],
          Raise (UpdateFailed (RefreshSpec.first_handler_message err true) auth_err)).
Proof.
  intros Htoken Hinfo Helig Hauth.
  cbn [Coordinator._async_update_data].
  rewrite (cycle_body_first_fetch_raises (w k) s err Htoken Hinfo).
  assert (Hclass : is_ClientResponseError err || is_NanoKVMAuthenticationFailure err = true).
  { unfold Coordinator.reauth_eligible in Helig.
    apply andb_true_iff in Helig as [H _].
    destruct err; try discriminate H; reflexivity. }
  rewrite Hclass, Helig, Hauth. unfold RefreshSpec.first_handler_message.
  destruct (is_ClientResponseError err); reflexivity.
Qed.

Lemma failed_reauthentication_is_terminal_witness :
  result <$> Coordinator._async_update_data 1 (CycleSpec.steady RefreshSpec.locked_out) 0
               CycleSpec.coordinator0
  = Some (Raise (UpdateFailed Reauthentication_failed NanoKVMAuthenticationFailure)).
Proof.
  rewrite (failed_reauthentication_is_terminal 0
             (CycleSpec.steady RefreshSpec.locked_out) 0
             CycleSpec.coordinator0 (ClientResponseError 401)
             NanoKVMAuthenticationFailure);
    reflexivity.
Defined.
(** ** coordinator.py: the command-channel branch over several ticks *)

Section SshTicks.

Import Coordinator CycleSpec RefreshSpec.

Arguments SSHMetrics.collect : simpl never.
Arguments SSHMetrics.disconnect : simpl never.

(** A collection that returns: its figures are taken over, the collector
    is kept with the session it has, the flag is up, and the signal is
    sent when the flag was down. *)
Lemma update_ssh_data_ok (w : SSHMetrics.SSHWorld)
    (s : NanoKVMDataUpdateCoordinator) (m : SSHMetrics.SSHMetricsSnapshot) :
  result (SSHMetrics.collect w (collector_in_use s)) = Ok m ->
  exists s',
    _async_update_ssh_data w s
    = (s',
       building s
       ++ List.map EvSSH (trace (SSHMetrics.collect w (collector_in_use s)))
       ++ signal s,
       Ok tt)
    /\ metrics s' = metrics_of m
    /\ ssh_sensors_created s' = true
    /\ ssh_metrics_collector s'
       = Some (state (SSHMetrics.collect w (collector_in_use s)))
    /\ configuration s' = configuration s.
Proof.
  destruct s as [? ? ? ? ? ? ? ? ? ? ? ? ? ? ? ? ? ? ? ? ? ? ? ? ? ? sensors collector ?].
  unfold collector_in_use, _async_update_ssh_data, building, signal.
  unfold UtilsHost.extract_ssh_host.
  unfold try_except, mbind, M_bind, get, modify, emit, mret, M_ret, on_collector.
  cbn [ssh_metrics_collector config_entry password ssh_sensors_created].
  destruct collector as [c|].
  - destruct (SSHMetrics.collect w c) as [[c2 t2] r] eqn:R.
    unfold result, state, trace. cbn [snd fst]. intros ->.
    cbn. rewrite R. cbn. destruct sensors; cbn.
    + eexists. split; [rewrite app_nil_r; reflexivity|]. repeat split.
    + eexists. split; [reflexivity|]. repeat split.
  - set (c0 := SSHMetrics.new_collector _ _).
    destruct (SSHMetrics.collect w c0) as [[c2 t2] r] eqn:R.
    unfold result, state, trace. cbn [snd fst]. intros ->.
    cbn. fold c0. rewrite R. cbn. destruct sensors; cbn.
    + eexists. split; [rewrite app_nil_r; reflexivity|]. repeat split.
    + eexists. split; [reflexivity|]. repeat split.
Qed.

(** A collection that raises: the session is released, the collector is
    kept, and the flag stays as it was. *)
Lemma update_ssh_data_failed (w : SSHMetrics.SSHWorld)
    (s : NanoKVMDataUpdateCoordinator) (e : Exception) :
  result (SSHMetrics.collect w (collector_in_use s)) = Raise e ->
  exists s',
    _async_update_ssh_data w s
    = (s',
       building s
       ++ List.map EvSSH (trace (SSHMetrics.collect w (collector_in_use s)))
       ++ List.map EvSSH
            (trace (SSHMetrics.disconnect
                      (state (SSHMetrics.collect w (collector_in_use s))))),
       Ok tt)
    /\ ssh_sensors_created s' = ssh_sensors_created s
    /\ ssh_metrics_collector s'
       = Some (state (SSHMetrics.disconnect
                        (state (SSHMetrics.collect w (collector_in_use s)))))
    /\ configuration s' = configuration s.
Proof.
  destruct s as [? ? ? ? ? ? ? ? ? ? ? ? ? ? ? ? ? ? ? ? ? ? ? ? ? ? sensors collector ?].
  unfold collector_in_use, _async_update_ssh_data, building, signal.
  unfold UtilsHost.extract_ssh_host.
  unfold try_except, mbind, M_bind, get, modify, emit, mret, M_ret, on_collector.
  cbn [ssh_metrics_collector config_entry password ssh_sensors_created].
  destruct collector as [c|].
  - destruct (SSHMetrics.collect w c) as [[c2 t2] r] eqn:R.
    unfold result, state, trace. cbn [snd fst]. intros ->.
    destruct (disconnect_run c2) as (c3 & t3 & D & _).
    cbn. rewrite R. cbn. rewrite D. cbn.
    eexists. split; [reflexivity|]. repeat split.
  - set (c0 := SSHMetrics.new_collector _ _).
    destruct (SSHMetrics.collect w c0) as [[c2 t2] r] eqn:R.
    unfold result, state, trace. cbn [snd fst]. intros ->.
    destruct (disconnect_run c2) as (c3 & t3 & D & _).
    cbn. fold c0. rewrite R. cbn. rewrite D. cbn.
    eexists. split; [reflexivity|]. repeat split.
Qed.

Lemma no_signal_ssh (t : list SSHMetrics.Event) :
  Forall no_signal (List.map EvSSH t).
Proof. apply Forall_fmap, Forall_forall. intros ev _. exact Logic.I. Qed.

Lemma no_signal_building (s : NanoKVMDataUpdateCoordinator) :
  Forall no_signal (building s).
Proof.
  unfold building. destruct (ssh_metrics_collector s); repeat constructor.
Qed.

(** With the flag up, the branch sends no signal, whether the collection
    returns or raises. *)
Lemma update_ssh_data_no_signal (w : SSHMetrics.SSHWorld)
    (s : NanoKVMDataUpdateCoordinator) :
  ssh_sensors_created s = true ->
  Forall no_signal (trace (_async_update_ssh_data w s)).
Proof.
  intros Hflag.
  destruct (result (SSHMetrics.collect w (collector_in_use s))) as [m|e] eqn:R.
  - destruct (update_ssh_data_ok w s m R) as (s' & -> & _).
    unfold trace at 1. cbn [fst snd]. unfold signal. rewrite Hflag.
    rewrite app_nil_r. apply Forall_app.
    split; [apply no_signal_building | apply no_signal_ssh].
  - destruct (update_ssh_data_failed w s e R) as (s' & -> & _).
    unfold trace at 1. cbn [fst snd].
    repeat (apply Forall_app; split);
      [apply no_signal_building | apply no_signal_ssh | apply no_signal_ssh].
Qed.

(** A collection from a collector without a session begins with the
    authentication. *)
Lemma collect_reconnects (w : SSHMetrics.SSHWorld)
    (c : SSHMetrics.SSHMetricsCollector) :
  SSHMetrics.session_unusable c = true ->
  exists rest,
    trace (SSHMetrics.collect w c)
    = SSHMetrics.EvSSHAuthenticate (SSHMetrics._password c) :: rest.
Proof.
  intros U. rewrite collect_eq, U. unfold SSHMetrics.client_authenticate.
  destruct (SSHMetrics.ssh_authenticate w).
  - destruct (CollectSpec.reads w _) as [[c2 t2] r2]. now eexists.
  - now eexists.
Qed.

End SshTicks.

(** When the collection returns, the branch takes over its six figures,
    keeps the collector, raises the flag, and makes these calls and no
    other: the construction of a collector when none was held, the calls
    of the collection, and the signal when the flag was down. *)
Theorem ssh_metrics_taken_over (w : SSHMetrics.SSHWorld)
    (s : Coordinator.NanoKVMDataUpdateCoordinator)
    (m : SSHMetrics.SSHMetricsSnapshot) :
  result (SSHMetrics.collect w (CycleSpec.collector_in_use s)) = Ok m ->
  RefreshSpec.metrics (state (Coordinator._async_update_ssh_data w s))
  = RefreshSpec.metrics_of m
  /\ Coordinator.ssh_sensors_created (state (Coordinator._async_update_ssh_data w s))
     = true
  /\ trace (Coordinator._async_update_ssh_data w s)
     = RefreshSpec.building s
       ++ List.map Coordinator.EvSSH
            (trace (SSHMetrics.collect w (CycleSpec.collector_in_use s)))
       ++ RefreshSpec.signal s.
Proof.
  intros R. destruct (update_ssh_data_ok w s m R) as (s' & -> & Hm & Hflag & _).
  unfold state, trace at 1. cbn [fst snd]. now repeat split.
Qed.

(** The first tick of a coordinator that holds no collector. *)
Lemma ssh_metrics_taken_over_witness :
  RefreshSpec.metrics
    (state (Coordinator._async_update_ssh_data Spec.example_answers
              (CycleSpec.cleared CycleSpec.coordinator0)))
  = (Some {| SSHMetrics.epoch_second := 1700000000 |}, Some (451 # 10)%Q,
     Some (1000 # 1)%Q, Some (50 # 1)%Q, Some (1024 # 1)%Q, Some (50 # 1)%Q)
  /\ Coordinator.EvDispatcherSend (lit "entry-1")
     ∈ trace (Coordinator._async_update_ssh_data Spec.example_answers
                (CycleSpec.cleared CycleSpec.coordinator0)).
Proof.
  destruct (ssh_metrics_taken_over Spec.example_answers
              (CycleSpec.cleared CycleSpec.coordinator0)
              CollectSpec.example_snapshot)
    as (Hm & _ & Ht).
  - vm_compute. reflexivity.
  - split.
    + exact Hm.
    + rewrite Ht. apply elem_of_app. right. apply elem_of_app. right.
      left.
Defined.

(** The signal is sent once: after a tick whose collection returned, a
    further tick sends none, whatever the device answers then. *)
Theorem sensor_signal_once (w1 w2 : SSHMetrics.SSHWorld)
    (s : Coordinator.NanoKVMDataUpdateCoordinator)
    (m : SSHMetrics.SSHMetricsSnapshot) :
  result (SSHMetrics.collect w1 (CycleSpec.collector_in_use s)) = Ok m ->
  Forall RefreshSpec.no_signal
    (trace (Coordinator._async_update_ssh_data w2
              (state (Coordinator._async_update_ssh_data w1 s)))).
Proof.
  intros R. apply update_ssh_data_no_signal.
  destruct (update_ssh_data_ok w1 s m R) as (s' & -> & _ & Hflag & _).
  exact Hflag.
Qed.

(** A tick that reads the metrics, then one whose reading fails. *)
Lemma sensor_signal_once_witness :
  Forall RefreshSpec.no_signal
    (trace (Coordinator._async_update_ssh_data Spec.unreadable_temperature
              (state (Coordinator._async_update_ssh_data Spec.example_answers
                        (CycleSpec.cleared CycleSpec.coordinator0))))).
Proof.
  apply (sensor_signal_once Spec.example_answers Spec.unreadable_temperature
           (CycleSpec.cleared CycleSpec.coordinator0) CollectSpec.example_snapshot).
  vm_compute. reflexivity.
Defined.

(** After the channel was reported disabled, the next tick whose
    collection returns builds a collector and sends the signal again. *)
Theorem sensor_signal_rearmed (w : SSHMetrics.SSHWorld)
    (s : Coordinator.NanoKVMDataUpdateCoordinator)
    (m : SSHMetrics.SSHMetricsSnapshot) :
  result (SSHMetrics.collect w (CycleSpec.collector_in_use (CycleSpec.cleared s)))
  = Ok m ->
  trace (Coordinator._async_update_ssh_data w
           (state (Coordinator._async_clear_ssh_data s)))
  = Coordinator.EvNewCollector
      (UtilsHost.extract_ssh_host
         (Coordinator.conf_host (Coordinator.config_entry s)))
    :: List.map Coordinator.EvSSH
         (trace (SSHMetrics.collect w
                   (CycleSpec.collector_in_use (CycleSpec.cleared s))))
    ++ [Coordinator.EvDispatcherSend
          (Coordinator.entry_id (Coordinator.config_entry s))].
Proof.
  intros R. rewrite clear_ssh_data_run. unfold state at 1. cbn [fst].
  destruct (update_ssh_data_ok w (CycleSpec.cleared s) m R) as (s' & -> & _).
  reflexivity.
Qed.

(** The channel is disabled and enabled again on a coordinator that had
    signalled already. *)
Lemma sensor_signal_rearmed_witness :
  Coordinator.EvDispatcherSend (lit "entry-1")
  ∈ trace (Coordinator._async_update_ssh_data Spec.example_answers
             (state (Coordinator._async_clear_ssh_data CycleSpec.coordinator0))).
Proof.
  rewrite (sensor_signal_rearmed Spec.example_answers CycleSpec.coordinator0
             CollectSpec.example_snapshot).
  - apply elem_of_cons. right. apply elem_of_app. right. left.
  - vm_compute. reflexivity.
Defined.

(** After a tick whose collection raised, the collector is kept without
    its session: the next tick builds no collector and begins with an
    authentication, under the password the collector was built with. *)
Theorem reconnect_after_failure (w1 w2 : SSHMetrics.SSHWorld)
    (s : Coordinator.NanoKVMDataUpdateCoordinator) (e : Exception) :
  result (SSHMetrics.collect w1 (CycleSpec.collector_in_use s)) = Raise e ->
  exists rest,
    trace (Coordinator._async_update_ssh_data w2
             (state (Coordinator._async_update_ssh_data w1 s)))
    = Coordinator.EvSSH
        (SSHMetrics.EvSSHAuthenticate
           (SSHMetrics._password (CycleSpec.collector_in_use s)))
      :: rest.
Proof.
  intros R.
  destruct (update_ssh_data_failure w1 s e R) as (c' & t & -> & Hnone & Hpw).
  unfold state at 1. cbn [fst].
  set (s1 := Coordinator.set_ssh_metrics_collector (Some c') _).
  assert (Hc : CycleSpec.collector_in_use s1 = c').
  { unfold CycleSpec.collector_in_use, s1. now destruct s. }
  assert (Hb : RefreshSpec.building s1 = []).
  { unfold RefreshSpec.building, s1. now destruct s. }
  assert (U : SSHMetrics.session_unusable c' = true).
  { unfold SSHMetrics.session_unusable. now rewrite Hnone. }
  destruct (collect_reconnects w2 c' U) as (rest & Hrest).
  destruct (result (SSHMetrics.collect w2 (CycleSpec.collector_in_use s1)))
    as [m2|e2] eqn:R2.
  - destruct (update_ssh_data_ok w2 s1 m2 R2) as (s2 & -> & _).
    unfold trace at 1. cbn [fst snd]. rewrite Hb, Hc, Hrest, Hpw.
    now eexists.
  - destruct (update_ssh_data_failed w2 s1 e2 R2) as (s2 & -> & _).
    unfold trace at 1. cbn [fst snd]. rewrite Hb, Hc, Hrest, Hpw.
    now eexists.
Qed.

(** A tick whose reading fails, then one on a device that answers. *)
Lemma reconnect_after_failure_witness :
  exists rest,
    trace (Coordinator._async_update_ssh_data Spec.example_answers
             (state (Coordinator._async_update_ssh_data Spec.unreadable_temperature
                       CycleSpec.coordinator0)))
    = Coordinator.EvSSH (SSHMetrics.EvSSHAuthenticate (lit "admin")) :: rest.
Proof.
  apply (reconnect_after_failure Spec.unreadable_temperature Spec.example_answers
           CycleSpec.coordinator0 ValueError).
  vm_compute. reflexivity.
Defined.
(** ** services.py *)

Section ServiceRegistration.

Import Services.

Lemma has_service_true (hass : ServiceRegistry) (name : str) :
  has_service hass name = true <-> is_Some (hass !! name).
Proof. unfold has_service. apply bool_decide_eq_true. Qed.

Lemma has_service_false (hass : ServiceRegistry) (name : str) :
  has_service hass name = false <-> hass !! name = None.
Proof.
  unfold has_service. rewrite bool_decide_eq_false. symmetry. apply eq_None_not_Some.
Qed.

(** The loop of [async_unregister_services] over any list of names. *)
Lemma unregister_loop (names : list str) (hass : ServiceRegistry) (k : str) :
  foldl (fun hass service_name =>
           if has_service hass service_name then delete service_name hass
           else hass) hass names !! k
  = if bool_decide (k ∈ names) then None else hass !! k.
Proof.
  revert hass. induction names as [|name names IH]; intros hass; [reflexivity|].
  cbn [foldl]. rewrite IH.
  destruct (bool_decide (k ∈ names)) eqn:Hin.
  - apply bool_decide_eq_true in Hin. rewrite bool_decide_eq_true_2; [reflexivity|].
    now right.
  - apply bool_decide_eq_false in Hin.
    destruct (decide (k = name)) as [->|Hne].
    + rewrite bool_decide_eq_true_2 by now left.
      destruct (has_service hass name) eqn:H.
      * apply lookup_delete_eq.
      * now apply has_service_false.
    + rewrite bool_decide_eq_false_2.
      * destruct (has_service hass name); [|reflexivity].
        now apply lookup_delete_ne.
      * intros [?|?]%elem_of_cons; contradiction.
Qed.

(** After a registration that went through, the seven names are
    registered. *)
Lemma register_all (n : ServiceNames) (hass : ServiceRegistry) :
  has_service hass (SERVICE_PUSH_BUTTON n) = false ->
  Forall (fun name => has_service (async_register_services n hass) name = true)
    (_SERVICE_NAMES n).
Proof.
  intros H. unfold async_register_services. rewrite H. cbv beta iota zeta.
  unfold _SERVICE_NAMES.
  repeat first [apply List.Forall_nil | apply List.Forall_cons].
  all: apply has_service_true.
  all: repeat (apply lookup_insert_is_Some'; first [left; reflexivity | right]).
Qed.

Lemma register_registered (n : ServiceNames) (hass : ServiceRegistry) :
  has_service (async_register_services n hass) (SERVICE_PUSH_BUTTON n) = true.
Proof.
  destruct (has_service hass (SERVICE_PUSH_BUTTON n)) eqn:H.
  - unfold async_register_services. now rewrite H.
  - pose proof (register_all n hass H) as F. now inversion F.
Qed.

End ServiceRegistration.

(** [async_unregister_services] removes the seven services and leaves
    every other service of the registry as it is. *)
Theorem unregister_removes_exactly_the_services (n : Services.ServiceNames)
    (hass : Services.ServiceRegistry) (name : str) :
  Services.async_unregister_services n hass !! name
  = if bool_decide (name ∈ Services._SERVICE_NAMES n) then None else hass !! name.
Proof. apply unregister_loop. Qed.

(** Registration and removal undo each other on the seven services:
    after a removal a registration registers all seven, after a
    registration a removal leaves none; and a second registration changes
    nothing. *)
Theorem register_and_unregister (n : Services.ServiceNames)
    (hass : Services.ServiceRegistry) :
  Forall (fun name =>
            Services.has_service
              (Services.async_register_services n
                 (Services.async_unregister_services n hass)) name = true
            /\ Services.has_service
                 (Services.async_unregister_services n
                    (Services.async_register_services n hass)) name = false)
    (Services._SERVICE_NAMES n)
  /\ Services.async_register_services n (Services.async_register_services n hass)
     = Services.async_register_services n hass.
Proof.
  split.
  - assert (Hreg : Forall (fun name =>
                     Services.has_service
                       (Services.async_register_services n
                          (Services.async_unregister_services n hass)) name = true)
                     (Services._SERVICE_NAMES n)).
    { apply register_all. apply has_service_false.
      unfold Services.async_unregister_services. rewrite unregister_loop.
      rewrite bool_decide_eq_true_2; [reflexivity|]. now left. }
    rewrite Forall_forall in Hreg. apply Forall_forall. intros name Hin.
    split; [now apply Hreg|].
    apply has_service_false.
    unfold Services.async_unregister_services. rewrite unregister_loop.
    now rewrite bool_decide_eq_true_2.
  - pose proof (register_registered n hass) as H.
    unfold Services.async_register_services at 1. now rewrite H.
Qed.

Section ExecuteService.

Import Services.

Lemma for_each_run {A} (body : A -> M unit Event unit) (f : A -> list Event)
    (xs : list A) :
  (forall x, body x tt = (tt, f x, Ok tt)) ->
  for_each body xs tt = (tt, concat (List.map f xs), Ok tt).
Proof.
  intros Hbody. induction xs as [|x xs IH]; [reflexivity|].
  cbn [for_each List.map concat]. unfold mbind, M_bind.
  now rewrite Hbody, IH.
Qed.

End ExecuteService.

(** [_execute_service] awaits the handler once on the client of every
    coordinator, in order, logs one error for each client on which the
    handler raised, and does not raise itself: a failure on one device
    does not keep the service from the others. *)
Theorem execute_service_isolates_faults (service_name : str)
    (handler : Coordinator.NanoKVMClient -> Result unit)
    (coordinators : list Coordinator.NanoKVMDataUpdateCoordinator) :
  Services._execute_service service_name handler coordinators tt
  = (tt,
     concat (List.map (Services.calls_on service_name handler) coordinators),
     Ok tt).
Proof.
  unfold Services._execute_service. apply for_each_run. intros coordinator.
  unfold Services.calls_on, try_except, mbind, M_bind, emit, lift.
  destruct (handler (Coordinator.client coordinator)) as [[]|err]; reflexivity.
Qed.
(** ** select.py: the option shown and the option selected *)

Section OptionTables.

Import Select.

Lemma to_int_not_nil (n : Z) :
  Z.to_int n <> Decimal.Pos Decimal.Nil /\ Z.to_int n <> Decimal.Neg Decimal.Nil.
Proof.
  split; intros H; pose proof (DecimalZ.of_to n) as E; rewrite H in E;
    cbn in E; subst n; discriminate H.
Qed.

(** [str] is injective on the integers. *)
Lemma str_of_int_inj (n m : Z) : str_of_int n = str_of_int m -> n = m.
Proof.
  unfold str_of_int. intros H.
  apply (f_equal string_of_list_ascii) in H.
  rewrite !string_of_list_ascii_of_string in H.
  apply (f_equal DecimalString.NilZero.int_of_string) in H.
  destruct (to_int_not_nil n) as [Hn1 Hn2]. destruct (to_int_not_nil m) as [Hm1 Hm2].
  rewrite !DecimalString.NilZero.isi in H by assumption.
  injection H as H. apply (f_equal Z.of_int) in H.
  now rewrite !DecimalZ.of_to in H.
Qed.

(** The front of a string that ends in a given tail. *)
Lemma front_of (k s t : str) :
  k = s ++ t -> s = take (length k - length t) k.
Proof.
  intros ->. rewrite length_app, Nat.add_sub. now rewrite take_app_length.
Qed.

Lemma oled_sleep_values :
  OLED_SLEEP_VALUES
  = [(0, lit "never"); (15, lit "15_sec"); (30, lit "30_sec"); (60, lit "1_min");
     (180, lit "3_min"); (300, lit "5_min"); (600, lit "10_min");
     (1800, lit "30_min"); (3600, lit "1_hour")].
Proof. vm_compute. reflexivity. Qed.

Lemma oled_sleep_options :
  OLED_SLEEP_OPTIONS
  = [(lit "never", 0); (lit "15_sec", 15); (lit "30_sec", 30); (lit "1_min", 60);
     (lit "3_min", 180); (lit "5_min", 300); (lit "10_min", 600);
     (lit "30_min", 1800); (lit "1_hour", 3600)].
Proof. vm_compute. reflexivity. Qed.

Lemma swap_values :
  SWAP_VALUES
  = [(0, lit "disable"); (64, lit "64_mb"); (128, lit "128_mb");
     (256, lit "256_mb"); (512, lit "512_mb")].
Proof. vm_compute. reflexivity. Qed.

Lemma swap_options :
  SWAP_OPTIONS
  = [(lit "disable", 0); (lit "64_mb", 64); (lit "128_mb", 128);
     (lit "256_mb", 256); (lit "512_mb", 512)].
Proof. vm_compute. reflexivity. Qed.

End OptionTables.

(** A table is looked up under [str n ++ tail], where [n] is none of the
    numbers of the table: no key is found, since a key that ends in the
    tail begins with the numeral of its number. *)
Ltac off_table n :=
  repeat match goal with
         | |- context [if @decide (?k = ?s) ?inst then ?v else _] =>
             let E := fresh "E" in
             let F := fresh "F" in
             destruct (@decide (k = s) inst) as [E|_];
             [ exfalso; pose proof (front_of _ _ _ E) as F;
               match type of F with
               | _ = ?r => let r' := eval vm_compute in r in change r with r' in F
               end;
               first
                 [ rewrite F in E; vm_compute in E; discriminate E
                 | assert (n = v)
                     by (apply str_of_int_inj; rewrite F; vm_compute; reflexivity);
                   congruence ]
             | ]
         end.

(** The number [n] is looked up in a table of which it is no key. *)
Ltac no_key n :=
  repeat match goal with
         | |- context [@decide (?a = n) ?inst] =>
             destruct (@decide (a = n) inst) as [?|_]; [congruence|]
         end.

Ltac not_in_list :=
  let Hin := fresh "Hin" in
  intros Hin;
  repeat (apply elem_of_cons in Hin as [Hin | Hin]; [congruence|]);
  now apply elem_of_nil in Hin.

(** Each option of the sleep table is shown again after it was selected.
    In the other direction, a sleep time of the table is selected again
    by the option shown for it, while the option shown for any other time
    is no option of the table and selects the time 0. *)
Theorem oled_sleep_round_trip :
  Forall (fun option =>
            forall e,
              Select._oled_sleep_value
                {| Select.exist := e; Select.sleep := Select._set_oled_sleep option |}
              = option)
    (Select.keys Select.OLED_SLEEP_OPTIONS)
  /\ forall oled_info,
      Select._set_oled_sleep (Select._oled_sleep_value oled_info)
      = if bool_decide (Select.sleep oled_info ∈ Select.values Select.OLED_SLEEP_OPTIONS)
        then Select.sleep oled_info else 0.
Proof.
  split.
  - rewrite oled_sleep_options. cbn [Select.keys List.map fst].
    repeat first [apply List.Forall_nil | apply List.Forall_cons];
      intros e; vm_compute; reflexivity.
  - intros [e n]. cbn [Select.sleep].
    destruct (decide (n = 0)) as [->|H0]; [vm_compute; reflexivity|].
    destruct (decide (n = 15)) as [->|H1]; [vm_compute; reflexivity|].
    destruct (decide (n = 30)) as [->|H2]; [vm_compute; reflexivity|].
    destruct (decide (n = 60)) as [->|H3]; [vm_compute; reflexivity|].
    destruct (decide (n = 180)) as [->|H4]; [vm_compute; reflexivity|].
    destruct (decide (n = 300)) as [->|H5]; [vm_compute; reflexivity|].
    destruct (decide (n = 600)) as [->|H6]; [vm_compute; reflexivity|].
    destruct (decide (n = 1800)) as [->|H7]; [vm_compute; reflexivity|].
    destruct (decide (n = 3600)) as [->|H8]; [vm_compute; reflexivity|].
    rewrite bool_decide_eq_false_2
      by (rewrite oled_sleep_options; cbn [Select.values List.map snd]; not_in_list).
    unfold Select._oled_sleep_value, Select._set_oled_sleep.
    rewrite oled_sleep_values, oled_sleep_options.
    cbn [Select.dict_get Select.sleep].
    no_key n. off_table n. reflexivity.
Qed.

(** The same for the swap table; without a swap size the option shown is
    the one that selects the size 0. *)
Theorem swap_size_round_trip :
  Forall (fun option =>
            Select._swap_size_value (Some (Select._set_swap_size option)) = option)
    (Select.keys Select.SWAP_OPTIONS)
  /\ forall swap_size,
      Select._set_swap_size (Select._swap_size_value swap_size)
      = match swap_size with
        | Some n =>
            if bool_decide (n ∈ Select.values Select.SWAP_OPTIONS) then n else 0
        | None => 0
        end.
Proof.
  split.
  - rewrite swap_options. cbn [Select.keys List.map fst].
    repeat first [apply List.Forall_nil | apply List.Forall_cons];
      vm_compute; reflexivity.
  - intros [n|]; [|vm_compute; reflexivity].
    destruct (decide (n = 0)) as [->|H0]; [vm_compute; reflexivity|].
    destruct (decide (n = 64)) as [->|H1]; [vm_compute; reflexivity|].
    destruct (decide (n = 128)) as [->|H2]; [vm_compute; reflexivity|].
    destruct (decide (n = 256)) as [->|H3]; [vm_compute; reflexivity|].
    destruct (decide (n = 512)) as [->|H4]; [vm_compute; reflexivity|].
    rewrite bool_decide_eq_false_2
      by (rewrite swap_options; cbn [Select.values List.map snd]; not_in_list).
    unfold Select._swap_size_value, Select._set_swap_size.
    rewrite swap_values, swap_options.
    cbn [Select.dict_get].
    no_key n. off_table n. reflexivity.
Qed.
